(** * Forward-pass semantics of the looped-transformer models

    A shallow embedding of [scripts/models.py]: the input combiner, the
    single-pass, weight-tied and looped model classes (GPT-2 and Mamba
    backbones), the dynamic input mask and the state truncation.

    Tensors are dense arrays with an explicit shape and row-major contents;
    tensor elements range over an abstract scalar type (the framework's
    floating-point numbers), integers of the host language are [Z], and the
    layers supplied by the tensor framework ([nn.Linear], [GPT2Model],
    [Mamba], [torch.rand_like]) are parameters of the development. *)

From Stdlib Require Import String Ascii.
From Stdlib Require Import List ZArith QArith Qround Lia Bool Arith.
Import ListNotations.

(** ** Scalars *)

(** The element type of a tensor with the operations the models use:
    [x + y], [x * y] and the test [x == 0]. *)
Class Scalar (A : Type) : Type := {
  zero : A;
  one : A;
  add : A -> A -> A;
  mul : A -> A -> A;
  eq_zero : A -> bool
}.

(** The algebraic laws some properties rely on.  Integers and exact numbers
    satisfy them; floating-point numbers do so on finite values, up to the
    sign of zero. *)
Class ScalarLaws (A : Type) `{Scalar A} : Prop := {
  add_zero_l : forall x : A, add zero x = x;
  mul_one_l : forall x : A, mul one x = x;
  mul_one_r : forall x : A, mul x one = x;
  mul_zero_r : forall x : A, mul x zero = zero;
  eq_zero_zero : eq_zero (zero : A) = true
}.

#[export] Instance Scalar_Z : Scalar Z := {
  zero := 0%Z;
  one := 1%Z;
  add := Z.add;
  mul := Z.mul;
  eq_zero := fun x => Z.eqb x 0
}.

(** ** Exceptions and results *)

Inductive exn : Type :=
| NotImplementedError
| AttributeError
| RuntimeError
| IndexError.

Inductive res (X : Type) : Type :=
| Ok (x : X)
| Raise (e : exn).

Arguments Ok {X} x.
Arguments Raise {X} e.

Definition res_bind {X Y : Type} (r : res X) (k : X -> res Y) : res Y :=
  match r with
  | Ok x => k x
  | Raise e => Raise e
  end.

(** ** Tensors *)

(** Rank-2, rank-3 and rank-4 tensors: the shape, and the contents as nested
    rows in row-major order. *)
Record tensor2 (T : Type) : Type := mk2 {
  dim2_0 : nat;
  dim2_1 : nat;
  elems2 : list (list T)
}.

Record tensor3 (T : Type) : Type := mk3 {
  dimB : nat;
  dimN : nat;
  dimD : nat;
  elems3 : list (list (list T))
}.

Record tensor4 (T : Type) : Type := mk4 {
  dim4_0 : nat;
  dim4_1 : nat;
  dim4_2 : nat;
  dim4_3 : nat;
  elems4 : list (list (list (list T)))
}.

Arguments mk2 {T} _ _ _.
Arguments dim2_0 {T} t.
Arguments dim2_1 {T} t.
Arguments elems2 {T} t.
Arguments mk3 {T} _ _ _ _.
Arguments dimB {T} t.
Arguments dimN {T} t.
Arguments dimD {T} t.
Arguments elems3 {T} t.
Arguments mk4 {T} _ _ _ _ _.
Arguments dim4_0 {T} t.
Arguments dim4_1 {T} t.
Arguments dim4_2 {T} t.
Arguments dim4_3 {T} t.
Arguments elems4 {T} t.

(** The contents agree with the shape. *)
Definition wf2 {T : Type} (t : tensor2 T) : Prop :=
  length (elems2 t) = dim2_0 t /\
  Forall (fun r => length r = dim2_1 t) (elems2 t).

Definition wf_rows {T : Type} (n d : nat) (rows : list (list T)) : Prop :=
  length rows = n /\ Forall (fun tok => length tok = d) rows.

Definition wf3 {T : Type} (t : tensor3 T) : Prop :=
  length (elems3 t) = dimB t /\
  Forall (wf_rows (dimN t) (dimD t)) (elems3 t).

(** [t[b, i, j]] and [t[b, i]], with a default outside the shape. *)
Definition get3 {T : Type} (dflt : T) (t : tensor3 T) (b i j : nat) : T :=
  nth j (nth i (nth b (elems3 t) []) []) dflt.

Definition token3 {T : Type} (t : tensor3 T) (b i : nat) : list T :=
  nth i (nth b (elems3 t) []) [].

Definition get2 {T : Type} (dflt : T) (t : tensor2 T) (b i : nat) : T :=
  nth i (nth b (elems2 t) []) dflt.

(** *** Row-major buffers and [view] *)

(** [chunk k size l]: the first [k] consecutive blocks of [size] elements. *)
Fixpoint chunk {T : Type} (k size : nat) (l : list T) : list (list T) :=
  match k with
  | O => []
  | S k' => firstn size l :: chunk k' size (skipn size l)
  end.

Definition flatten2 {T : Type} (t : tensor2 T) : list T :=
  concat (elems2 t).

Definition flatten4 {T : Type} (t : tensor4 T) : list T :=
  concat (concat (concat (elems4 t))).

(** [buf.view(b, n, d)]: the same buffer read with another shape; the number
    of elements has to agree. *)
Definition view3 {T : Type} (numel : nat) (buf : list T) (b n d : nat)
  : res (tensor3 T) :=
  if Nat.eqb numel (b * n * d)
  then Ok (mk3 b n d (map (chunk n d) (chunk b (n * d) buf)))
  else Raise RuntimeError.

Definition numel2 {T : Type} (t : tensor2 T) : nat := dim2_0 t * dim2_1 t.

Definition numel4 {T : Type} (t : tensor4 T) : nat :=
  dim4_0 t * dim4_1 t * dim4_2 t * dim4_3 t.

(** *** Constructors and elementwise operations *)

Section TensorOps.
Context {A : Type} `{Scalar A}.

Definition full3 (c : A) (b n d : nat) : tensor3 A :=
  mk3 b n d (repeat (repeat (repeat c d) n) b).

(** [torch.zeros(b, n, d)], where [d] is a host integer: a negative
    dimension is refused. *)
Definition torch_zeros (b n : nat) (d : Z) : res (tensor3 A) :=
  if (d <? 0)%Z then Raise RuntimeError
  else Ok (full3 zero b n (Z.to_nat d)).

Definition map3 {T U : Type} (g : T -> U) (t : tensor3 T) : tensor3 U :=
  mk3 (dimB t) (dimN t) (dimD t) (map (map (map g)) (elems3 t)).

Definition torch_zeros_like (t : tensor3 A) : tensor3 A :=
  map3 (fun _ => zero) t.

Definition torch_ones_like (t : tensor3 A) : tensor3 A :=
  map3 (fun _ => one) t.

(** Pointwise combination of two lists, up to the shorter one. *)
Fixpoint zip_with {T U V : Type} (g : T -> U -> V) (l : list T) (m : list U)
  : list V :=
  match l, m with
  | x :: l', y :: m' => g x y :: zip_with g l' m'
  | _, _ => []
  end.

(** Elementwise binary operation on two tensors of one shape (every use in
    the models is between tensors of the same shape, so broadcasting does
    not arise). *)
Definition zip3 {T U V : Type} (g : T -> U -> V)
           (a : tensor3 T) (b : tensor3 U) : tensor3 V :=
  mk3 (dimB a) (dimN a) (dimD a)
      (zip_with (zip_with (zip_with g)) (elems3 a) (elems3 b)).

Definition tensor_add : tensor3 A -> tensor3 A -> tensor3 A := zip3 add.
Definition tensor_mul : tensor3 A -> tensor3 A -> tensor3 A := zip3 mul.

(** A boolean mask used as a factor: [True] is 1 and [False] is 0. *)
Definition of_bool (m : bool) : A := if m then one else zero.

Definition tensor_mul_mask (a : tensor3 A) (m : tensor3 bool) : tensor3 A :=
  zip3 (fun x c => mul x (of_bool c)) a m.

(** [torch.cat((a, b), axis=2)]: the two tensors agree on the first two
    dimensions. *)
Definition torch_cat_axis2 (a b : tensor3 A) : res (tensor3 A) :=
  if Nat.eqb (dimB a) (dimB b) && Nat.eqb (dimN a) (dimN b)
  then Ok (mk3 (dimB a) (dimN a) (dimD a + dimD b)
               (zip_with (zip_with (@app A)) (elems3 a) (elems3 b)))
  else Raise RuntimeError.

(** [torch.stack((a, b), dim=2)]: the two tensors have one shape. *)
Definition torch_stack_dim2 (a b : tensor3 A) : res (tensor4 A) :=
  if Nat.eqb (dimB a) (dimB b) && Nat.eqb (dimN a) (dimN b)
     && Nat.eqb (dimD a) (dimD b)
  then Ok (mk4 (dimB a) (dimN a) 2 (dimD a)
               (zip_with (zip_with (fun x y => [x; y]))
                         (elems3 a) (elems3 b)))
  else Raise RuntimeError.

(** ** The input combiner

      The body of [_combine(self, xs_b, ys_b)], the same text in
      [TransformerModel] and in [MambaModel]; [freq] is [self.freq]. *)
Definition combine_body (freq : nat) (xs_b : tensor3 A) (ys_b : tensor2 A)
  : res (tensor3 A) :=
  let B := dimB xs_b in
  let n := dimN xs_b in
  let d := dimD xs_b in
  res_bind (view3 (numel2 ys_b) (flatten2 ys_b) B n 1) (fun ys_view =>
  res_bind (torch_zeros B n (Z.of_nat d - 1)) (fun zeros =>
  res_bind (torch_cat_axis2 ys_view zeros) (fun ys_b_wide =>
  res_bind (torch_stack_dim2 xs_b ys_b_wide) (fun zs =>
  view3 (numel4 zs) (flatten4 zs) B (freq * n) d)))).

End TensorOps.

(** ** Indexing *)

Section Indexing.
Context {A : Type} `{Scalar A}.

(** [l[start::step]] on one axis; [k] counts down to the next index kept. *)
Fixpoint stride {T : Type} (step k : nat) (l : list T) : list T :=
  match l with
  | [] => []
  | x :: l' =>
      match k with
      | O => x :: stride step (step - 1) l'
      | S k' => stride step k' l'
      end
  end.

(** [t[:, start::step]]. *)
Definition slice_axis1 {T : Type} (start step : nat) (t : tensor3 T)
  : tensor3 T :=
  mk3 (dimB t) ((dimN t - start + (step - 1)) / step) (dimD t)
      (map (stride step start) (elems3 t)).

(** [t[:, start::step, 0]]: index 0 has to exist on the last axis. *)
Definition slice_axis1_select0 (start step : nat) (t : tensor3 A)
  : res (tensor2 A) :=
  if Nat.eqb (dimD t) 0 then Raise IndexError
  else
    let s := slice_axis1 start step t in
    Ok (mk2 (dimB s) (dimN s) (map (map (fun tok => nth 0 tok zero)) (elems3 s))).

(** The stop index of the slice [:k] on an axis of length [n]: a negative
    [k] counts from the end, and the result is clamped to the axis. *)
Definition slice_stop (n : nat) (k : Z) : nat :=
  if (k <? 0)%Z then n - Z.to_nat (- k) else Nat.min (Z.to_nat k) n.

(** [mask[:, :k, :] = c]. *)
Definition assign_prefix_axis1 (k : Z) (c : A) (mask : tensor3 A)
  : tensor3 A :=
  let stop := slice_stop (dimN mask) k in
  mk3 (dimB mask) (dimN mask) (dimD mask)
      (map (fun rows =>
              map (map (fun _ => c)) (firstn stop rows) ++ skipn stop rows)
           (elems3 mask)).

(** [torch.where(cond, a, b)] on tensors of one shape. *)
Definition torch_where (cond : tensor3 bool) (a b : tensor3 A) : tensor3 A :=
  zip3 (fun (c : bool) (xy : A * A) => if c then fst xy else snd xy)
       cond (zip3 (fun x y => (x, y)) a b).

End Indexing.

(** ** The framework *)

(** A callable layer, and the keyword arguments a GPT-2 backbone is called
    with: only [inputs_embeds], or also [position_ids=None], [rm_pos_embd]
    and [add_inputs_embeds]. *)
Definition Layer (A : Type) : Type := tensor3 A -> tensor3 A.

Inductive GPT2_kwargs : Type :=
| Kw_inputs_embeds_only
| Kw_full (rm_pos_embd add_inputs_embeds : bool).

(** The fields of a [GPT2Config] and of a [MambaConfig] that the
    constructors of the models set. *)
Record GPT2Config (F : Type) : Type := mkGPT2Config {
  block_size : Z;
  cfg_n_layer : Z;
  cfg_n_head : Z;
  cfg_n_embd : Z;
  cfg_dropout : F;
  cfg_bias : bool
}.

Arguments mkGPT2Config {F} _ _ _ _ _ _.
Arguments block_size {F} _.
Arguments cfg_n_layer {F} _.
Arguments cfg_n_head {F} _.
Arguments cfg_n_embd {F} _.
Arguments cfg_dropout {F} _.
Arguments cfg_bias {F} _.

Inductive dt_rank_spec : Type := dt_rank_auto.

Record MambaConfig : Type := mkMambaConfig {
  mcfg_n_embd : Z;
  mcfg_n_layer : Z;
  mcfg_d_state : Z;
  mcfg_expand : Z;
  mcfg_dt_rank : dt_rank_spec;
  mcfg_d_conv : Z
}.

(** What the models take from the tensor framework and the host language.
    Constructing a layer draws its initial weights from the generator; a
    constructed layer is a function from tensors to tensors (the
    configurations set dropout to 0).  [math_ceil_mul n x] is
    [math.ceil(n * x)] on host floats and [tensor_ge x p] is the comparison
    [x >= p] of a tensor element with a host float. *)
Class Framework (A : Type) : Type := {
  float : Type;
  float_zero : float;
  RNG : Type;
  torch_rand_like : tensor3 A -> RNG -> tensor3 A * RNG;
  tensor_ge : A -> float -> bool;
  math_ceil_mul : Z -> float -> Z;
  nn_Linear : Z -> Z -> RNG -> Layer A * RNG;
  GPT2Model : GPT2Config float -> RNG -> (GPT2_kwargs -> Layer A) * RNG;
  Mamba : MambaConfig -> RNG -> Layer A * RNG
}.

(** ** State and exceptions *)

(** The world outside an object: the random generator and what was printed. *)
Record World (A : Type) `{Framework A} : Type := mkWorld {
  rng : RNG;
  stdout : list Z
}.

Arguments mkWorld {A _} _ _.
Arguments rng {A _} _.
Arguments stdout {A _} _.

(** A computation over a state [S] that returns a value or raises; the state
    reached is kept in both cases. *)
Definition M (S X : Type) : Type := S -> res X * S.

Definition ret {S X : Type} (x : X) : M S X := fun s => (Ok x, s).

Definition raise {S X : Type} (e : exn) : M S X := fun s => (Raise e, s).

Definition bind {S X Y : Type} (c : M S X) (k : X -> M S Y) : M S Y :=
  fun s =>
    match c s with
    | (Ok x, s') => k x s'
    | (Raise e, s') => (Raise e, s')
    end.

Definition lift {S X : Type} (r : res X) : M S X := fun s => (r, s).

(** A framework call that consumes part of the state and cannot raise. *)
Definition call {S X : Type} (g : S -> X * S) : M S X :=
  fun s => let (x, s') := g s in (Ok x, s').

Definition get {S : Type} : M S S := fun s => (Ok s, s).

Definition modify {S : Type} (g : S -> S) : M S unit := fun s => (Ok tt, g s).

Declare Scope monad_scope.
Delimit Scope monad_scope with monad.
Notation "x <- c ;; k" := (bind c (fun x => k))
  (at level 61, c at next level, right associativity) : monad_scope.
Notation "c ;;; k" := (bind c (fun _ => k))
  (at level 61, right associativity) : monad_scope.

(** [for x in l: acc = body(x, acc)]. *)
Fixpoint for_each {S X Acc : Type} (l : list X) (body : X -> Acc -> M S Acc)
         (acc : Acc) : M S Acc :=
  match l with
  | [] => ret acc
  | x :: l' => bind (body x acc) (for_each l' body)
  end.

(** [range(n)] for a host integer [n]. *)
Definition range (n : Z) : list Z := map Z.of_nat (seq 0 (Z.to_nat n)).

(** A predicted value: [[B, n]] for regression, [[B, n, C]] for
    classification. *)
Inductive prediction (A : Type) : Type :=
| Pred2 (y : tensor2 A)
| Pred3 (y : tensor3 A).

Arguments Pred2 {A} y.
Arguments Pred3 {A} y.

Definition MAX_NUM_CLASS : Z := 2.

Local Open Scope monad_scope.
Local Open Scope string_scope.

(** ** [class TransformerModel] *)

Module TransformerModel.
Section Def.
Context {A : Type} `{Scalar A} `{Framework A}.

(** The attributes of an instance.  [_read_out] is absent when the
    constructor did not assign it. *)
Record t : Type := mk {
  freq : nat;
  ind : nat;
  configuration : GPT2Config float;
  n_positions : Z;
  n_dims : Z;
  n_embd : Z;
  n_layer : Z;
  _pred_type : string;
  _read_in : Layer A;
  _backbone : GPT2_kwargs -> Layer A;
  _read_out : option (Layer A);
  print_flag : bool
}.

(** [TransformerModel(n_dims, n_positions, n_embd, n_layer, n_head,
    pred_type)], every argument given; the state is the generator the
    initial weights come from. *)
Definition __init__ (n_dims n_positions n_embd n_layer n_head : Z)
           (pred_type : string) : M RNG t :=
  let freq := 2%nat in
  let ind := 0%nat in
  let configuration :=
    mkGPT2Config (Z.of_nat freq * n_positions + 1) n_layer n_head n_embd
                 float_zero true in
  read_in <- call (nn_Linear n_dims n_embd) ;;
  backbone <- call (GPT2Model configuration) ;;
  read_out <-
    (if pred_type =? "regression" then
       l <- call (nn_Linear n_embd 1) ;; ret (Some l)
     else if pred_type =? "classification" then
       l <- call (nn_Linear n_embd MAX_NUM_CLASS) ;; ret (Some l)
     else ret None) ;;
  ret (mk freq ind configuration n_positions n_dims n_embd n_layer
          pred_type read_in backbone read_out false).

(** [_combine(self, xs_b, ys_b)]. *)
Definition _combine (self : t) (xs_b : tensor3 A) (ys_b : tensor2 A)
  : res (tensor3 A) :=
  combine_body (freq self) xs_b ys_b.

(** Reading [self._read_out]. *)
Definition get_read_out (self : t) : res (Layer A) :=
  match _read_out self with
  | Some l => Ok l
  | None => Raise AttributeError
  end.

(** The selection of the predictions at the feature positions, by
    [self._pred_type]. *)
Definition extract (self : t) (pred : tensor3 A) : res (prediction A) :=
  if _pred_type self =? "regression" then
    res_bind (slice_axis1_select0 (ind self) (freq self) pred)
             (fun y => Ok (Pred2 y))
  else if _pred_type self =? "classification" then
    Ok (Pred3 (slice_axis1 (ind self) (freq self) pred))
  else Raise NotImplementedError.

(** [forward(self, xs, ys, add_inputs_embeds=False)]. *)
Definition forward (self : t) (xs : tensor3 A) (ys : tensor2 A)
           (add_inputs_embeds : bool) : res (prediction A) :=
  res_bind (_combine self xs ys) (fun zs =>
  let embeds := _read_in self zs in
  let f_output := _backbone self (Kw_full false add_inputs_embeds) embeds in
  res_bind (get_read_out self) (fun read_out =>
  let pred := read_out f_output in
  extract self pred)).

End Def.
Arguments t A {_}.
End TransformerModel.

(** ** [class TransformerModelTying(TransformerModel)] *)

Module TransformerModelTying.
Section Def.
Context {A : Type} `{Scalar A} `{Framework A}.

Definition t : Type := TransformerModel.t A.

(** The constructor of the base class runs with its default [pred_type];
    the configuration is then set to one layer and the backbone is built
    again from it. *)
Definition __init__ (n_dims n_positions n_embd n_layer n_head : Z)
  : M RNG t :=
  self <- TransformerModel.__init__ n_dims n_positions n_embd n_layer n_head
                                    "regression" ;;
  let c := TransformerModel.configuration self in
  let configuration :=
    mkGPT2Config (block_size c) 1 (cfg_n_head c) (cfg_n_embd c)
                 (cfg_dropout c) (cfg_bias c) in
  backbone <- call (GPT2Model configuration) ;;
  ret (TransformerModel.mk
         (TransformerModel.freq self) (TransformerModel.ind self)
         configuration
         (TransformerModel.n_positions self) (TransformerModel.n_dims self)
         (TransformerModel.n_embd self) (TransformerModel.n_layer self)
         (TransformerModel._pred_type self)
         (TransformerModel._read_in self)
         backbone
         (TransformerModel._read_out self)
         false).

Definition f (self : t) (output : tensor3 A) : tensor3 A :=
  TransformerModel._backbone self Kw_inputs_embeds_only output.

(** [forward(self, xs, ys, add_inputs_embeds)]. *)
Definition forward (self : t) (xs : tensor3 A) (ys : tensor2 A)
           (add_inputs_embeds : bool) : res (tensor2 A) :=
  res_bind (TransformerModel._combine self xs ys) (fun zs =>
  let embeds := TransformerModel._read_in self zs in
  let output := embeds in
  let output :=
    fold_left (fun output (idx : Z) => f self output)
              (range (TransformerModel.n_layer self)) output in
  res_bind (TransformerModel.get_read_out self) (fun read_out =>
  let pred := read_out output in
  slice_axis1_select0 (TransformerModel.ind self)
                      (TransformerModel.freq self) pred)).

End Def.
End TransformerModelTying.

(** ** [dynamic_mask] *)

Section DynamicMask.
Context {A : Type} `{Scalar A} `{Framework A}.

Definition dynamic_mask (tensor : tensor3 A) (p : float)
  : M RNG (tensor3 A) :=
  r <- call (torch_rand_like tensor) ;;
  let mask := map3 (fun x => tensor_ge x p) r in
  ret (tensor_mul_mask tensor mask).

End DynamicMask.

(** An object together with the world around it. *)
Record ObjState (A : Type) `{Framework A} (Obj : Type) : Type := mkState {
  self : Obj;
  world : World A
}.

Arguments mkState {A _ Obj} _ _.
Arguments self {A _ Obj} _.
Arguments world {A _ Obj} _.

Section StateOps.
Context {A : Type} `{Framework A} {Obj : Type}.

(** Running a computation on the generator inside the whole state. *)
Definition with_rng {X : Type} (c : M RNG X) : M (ObjState A Obj) X :=
  fun s =>
    let (r, g) := c (rng (world s)) in
    (r, mkState (self s) (mkWorld g (stdout (world s)))).

Definition print (v : Z) : M (ObjState A Obj) unit :=
  modify (fun s =>
            mkState (self s)
                    (mkWorld (rng (world s)) (stdout (world s) ++ [v]))).

Definition get_self : M (ObjState A Obj) Obj :=
  fun s => (Ok (self s), s).

Definition set_self (g : Obj -> Obj) : M (ObjState A Obj) unit :=
  modify (fun s => mkState (g (self s)) (world s)).

End StateOps.

(** The membership test [x in l] on strings. *)
Definition str_in (x : string) (l : list string) : bool :=
  existsb (String.eqb x) l.

(** ** The loop of the looped models

    [forward(self, xs, ys, n_loop_start, n_loops)] has the same text in
    [TransformerModelLooped] and in [MambaModelLooped]; what differs is the
    base class behind [self] and the method [f].  The attributes and methods
    the text uses are gathered in an interface. *)

Record LoopedClass (A : Type) `{Framework A} (Obj : Type) : Type :=
  mkLoopedClass {
  cls_combine : Obj -> tensor3 A -> tensor2 A -> res (tensor3 A);
  cls_read_in : Obj -> Layer A;
  cls_get_read_out : Obj -> res (Layer A);
  cls_extract : Obj -> tensor3 A -> res (prediction A);
  cls_loop_func : Obj -> string;
  cls_print_flag : Obj -> bool;
  cls_set_print_flag : bool -> Obj -> Obj;
  cls_f : tensor3 A -> tensor3 A -> M (ObjState A Obj) (tensor3 A)
}.

Arguments mkLoopedClass {A _ Obj} _ _ _ _ _ _ _ _.
Arguments cls_combine {A _ Obj} _ _ _ _.
Arguments cls_read_in {A _ Obj} _ _.
Arguments cls_get_read_out {A _ Obj} _ _.
Arguments cls_extract {A _ Obj} _ _ _.
Arguments cls_loop_func {A _ Obj} _ _.
Arguments cls_print_flag {A _ Obj} _ _.
Arguments cls_set_print_flag {A _ Obj} _ _ _.
Arguments cls_f {A _ Obj} _ _ _.

Section LoopedForward.
Context {A : Type} `{Scalar A} `{Framework A} {Obj : Type}.
Variable cls : LoopedClass A Obj.

Definition LSt : Type := ObjState A Obj.

(** The choice of the initial state. *)
Definition initial_output (embeds : tensor3 A) : M LSt (tensor3 A) :=
  self <- get_self ;;
  if str_in (cls_loop_func cls self) ["z=f(x+z)"] then
    ret (torch_zeros_like embeds)
  else if str_in (cls_loop_func cls self) ["z=f(x*z)"] then
    ret (torch_ones_like embeds)
  else raise NotImplementedError.

(** The one-time print at the end of an iteration. *)
Definition print_once (idx : Z) : M LSt unit :=
  self <- get_self ;;
  if negb (cls_print_flag cls self) then
    print idx ;;; set_self (cls_set_print_flag cls true)
  else ret tt.

(** One iteration of the loop; the accumulator is the state [output] and
    [pred_list].  The first branch runs under [torch.no_grad()], which
    changes what is kept for differentiation and not the values. *)
Definition loop_body (embeds : tensor3 A) (n_loop_start : Z) (idx : Z)
           (acc : tensor3 A * list (prediction A))
  : M LSt (tensor3 A * list (prediction A)) :=
  let (output, pred_list) := acc in
  acc' <-
    (if (idx <? n_loop_start)%Z then
       output <- cls_f cls output embeds ;;
       ret (output, pred_list)
     else
       output <- cls_f cls output embeds ;;
       self <- get_self ;;
       read_out <- lift (cls_get_read_out cls self) ;;
       let pred := read_out output in
       y <- lift (cls_extract cls self pred) ;;
       ret (output, (pred_list ++ [y])%list)) ;;
  print_once idx ;;;
  ret acc'.

Definition looped_forward (xs : tensor3 A) (ys : tensor2 A)
           (n_loop_start n_loops : Z) : M LSt (list (prediction A)) :=
  self <- get_self ;;
  zs <- lift (cls_combine cls self xs ys) ;;
  let embeds := cls_read_in cls self zs in
  output <- initial_output embeds ;;
  acc <- for_each (range n_loops) (loop_body embeds n_loop_start)
                  (output, []) ;;
  ret (snd acc).

End LoopedForward.

(** ** [class TransformerModelLooped(TransformerModel)] *)

Module TransformerModelLooped.
Section Def.
Context {A : Type} `{Scalar A} `{Framework A}.

Record t : Type := mk {
  base : TransformerModel.t A;
  loop_func : string;
  p : float;
  apply_input_mask : bool;
  truncate_state : bool;
  p_state : float;
  fixed_truncate : bool;
  tokens_to_trunc : Z
}.

Definition __init__ (n_dims n_positions n_embd n_layer n_head : Z)
           (loop_func pred_type : string) (apply_input_mask : bool)
           (p : float) (truncate_state : bool) (p_state : float)
           (fixed_truncate : bool) (tokens_to_trunc : Z) : M RNG t :=
  b <- TransformerModel.__init__ n_dims n_positions n_embd n_layer n_head
                                 pred_type ;;
  ret (mk b loop_func p apply_input_mask truncate_state p_state
          fixed_truncate tokens_to_trunc).

(** [self.tokens_to_trunc = v] and [self.print_flag = v]. *)
Definition set_tokens_to_trunc (v : Z) (s : t) : t :=
  mk (base s) (loop_func s) (p s) (apply_input_mask s) (truncate_state s)
     (p_state s) (fixed_truncate s) v.

Definition set_print_flag (v : bool) (s : t) : t :=
  let b := base s in
  mk (TransformerModel.mk
        (TransformerModel.freq b) (TransformerModel.ind b)
        (TransformerModel.configuration b)
        (TransformerModel.n_positions b) (TransformerModel.n_dims b)
        (TransformerModel.n_embd b) (TransformerModel.n_layer b)
        (TransformerModel._pred_type b) (TransformerModel._read_in b)
        (TransformerModel._backbone b) (TransformerModel._read_out b) v)
     (loop_func s) (p s) (apply_input_mask s) (truncate_state s)
     (p_state s) (fixed_truncate s) (tokens_to_trunc s).

Definition St : Type := ObjState A t.

(** The masking of the input embeddings in [f]. *)
Definition mask_input (embeds : tensor3 A) : M St (tensor3 A) :=
  self <- get_self ;;
  if apply_input_mask self then
    embeds <- with_rng (dynamic_mask embeds (p self)) ;;
    if loop_func self =? "z=f(x*z)" then
      ret (torch_where (map3 eq_zero embeds) (torch_ones_like embeds) embeds)
    else ret embeds
  else ret embeds.

(** The masking of the previous output state in [f]. *)
Definition mask_state (output : tensor3 A) : M St (tensor3 A) :=
  self <- get_self ;;
  if truncate_state self then
    let B := dimB output in
    let n := dimN output in
    let d := dimD output in
    (if negb (fixed_truncate self) then
       set_self (set_tokens_to_trunc
                   (math_ceil_mul (Z.of_nat n) (p_state self)))
     else ret tt) ;;;
    self <- get_self ;;
    let mask := full3 one B n d in
    let mask := assign_prefix_axis1 (tokens_to_trunc self) zero mask in
    ret (tensor_mul output mask)
  else ret output.

(** [f(self, output, embeds)]. *)
Definition f (output embeds : tensor3 A) : M St (tensor3 A) :=
  embeds <- mask_input embeds ;;
  output <- mask_state output ;;
  self <- get_self ;;
  let backbone := TransformerModel._backbone (base self) in
  if loop_func self =? "z=f(x+z)" then
    ret (backbone Kw_inputs_embeds_only (tensor_add output embeds))
  else if loop_func self =? "z=f(x*z)" then
    ret (backbone Kw_inputs_embeds_only (tensor_mul output embeds))
  else raise NotImplementedError.

(** The class as the loop of [forward] sees it. *)
Definition cls : LoopedClass A t :=
  mkLoopedClass
    (fun self => TransformerModel._combine (base self))
    (fun self => TransformerModel._read_in (base self))
    (fun self => TransformerModel.get_read_out (base self))
    (fun self => TransformerModel.extract (base self))
    loop_func
    (fun self => TransformerModel.print_flag (base self))
    set_print_flag
    f.

(** [forward(self, xs, ys, n_loop_start, n_loops)]. *)
Definition forward (xs : tensor3 A) (ys : tensor2 A)
           (n_loop_start n_loops : Z) : M St (list (prediction A)) :=
  looped_forward cls xs ys n_loop_start n_loops.

End Def.
Arguments t A {_}.
Arguments St A {_}.
End TransformerModelLooped.

(** ** [class MambaModel] *)

Module MambaModel.
Section Def.
Context {A : Type} `{Scalar A} `{Framework A}.

Record t : Type := mk {
  freq : nat;
  ind : nat;
  configuration : MambaConfig;
  n_positions : Z;
  n_dims : Z;
  n_embd : Z;
  n_layer : Z;
  _pred_type : string;
  _read_in : Layer A;
  _backbone : Layer A;
  _read_out : option (Layer A);
  print_flag : bool
}.

Definition __init__ (n_dims n_positions n_embd n_layer d_state expand
                       d_conv : Z) (pred_type : string) : M RNG t :=
  let freq := 2%nat in
  let ind := 0%nat in
  let configuration :=
    mkMambaConfig n_embd n_layer d_state expand dt_rank_auto d_conv in
  read_in <- call (nn_Linear n_dims n_embd) ;;
  backbone <- call (Mamba configuration) ;;
  read_out <-
    (if pred_type =? "regression" then
       l <- call (nn_Linear n_embd 1) ;; ret (Some l)
     else if pred_type =? "classification" then
       l <- call (nn_Linear n_embd MAX_NUM_CLASS) ;; ret (Some l)
     else ret None) ;;
  ret (mk freq ind configuration n_positions n_dims n_embd n_layer
          pred_type read_in backbone read_out false).

(** [_combine(self, xs_b, ys_b)]. *)
Definition _combine (self : t) (xs_b : tensor3 A) (ys_b : tensor2 A)
  : res (tensor3 A) :=
  combine_body (freq self) xs_b ys_b.

Definition get_read_out (self : t) : res (Layer A) :=
  match _read_out self with
  | Some l => Ok l
  | None => Raise AttributeError
  end.

Definition extract (self : t) (pred : tensor3 A) : res (prediction A) :=
  if _pred_type self =? "regression" then
    res_bind (slice_axis1_select0 (ind self) (freq self) pred)
             (fun y => Ok (Pred2 y))
  else if _pred_type self =? "classification" then
    Ok (Pred3 (slice_axis1 (ind self) (freq self) pred))
  else Raise NotImplementedError.

(** [forward(self, xs, ys, add_inputs_embeds=False)]. *)
Definition forward (self : t) (xs : tensor3 A) (ys : tensor2 A)
           (add_inputs_embeds : bool) : res (prediction A) :=
  res_bind (_combine self xs ys) (fun zs =>
  let embeds := _read_in self zs in
  let f_output := _backbone self embeds in
  res_bind (get_read_out self) (fun read_out =>
  let pred := read_out f_output in
  extract self pred)).

End Def.
Arguments t A : clear implicits.
End MambaModel.

(** ** [class MambaModelLooped(MambaModel)] *)

Module MambaModelLooped.
Section Def.
Context {A : Type} `{Scalar A} `{Framework A}.

Record t : Type := mk {
  base : MambaModel.t A;
  loop_func : string
}.

Definition __init__ (n_dims n_positions n_embd n_layer d_state expand
                       d_conv : Z) (loop_func pred_type : string)
  : M RNG t :=
  b <- MambaModel.__init__ n_dims n_positions n_embd n_layer d_state expand
                           d_conv pred_type ;;
  ret (mk b loop_func).

Definition set_print_flag (v : bool) (s : t) : t :=
  let b := base s in
  mk (MambaModel.mk
        (MambaModel.freq b) (MambaModel.ind b) (MambaModel.configuration b)
        (MambaModel.n_positions b) (MambaModel.n_dims b)
        (MambaModel.n_embd b) (MambaModel.n_layer b)
        (MambaModel._pred_type b) (MambaModel._read_in b)
        (MambaModel._backbone b) (MambaModel._read_out b) v)
     (loop_func s).

Definition St : Type := ObjState A t.

(** [f(self, output, embeds)]. *)
Definition f (output embeds : tensor3 A) : M St (tensor3 A) :=
  self <- get_self ;;
  let backbone := MambaModel._backbone (base self) in
  if loop_func self =? "z=f(x+z)" then
    ret (backbone (tensor_add output embeds))
  else if loop_func self =? "z=f(x*z)" then
    ret (backbone (tensor_mul output embeds))
  else raise NotImplementedError.

(** The class as the loop of [forward] sees it. *)
Definition cls : LoopedClass A t :=
  mkLoopedClass
    (fun self => MambaModel._combine (base self))
    (fun self => MambaModel._read_in (base self))
    (fun self => MambaModel.get_read_out (base self))
    (fun self => MambaModel.extract (base self))
    loop_func
    (fun self => MambaModel.print_flag (base self))
    set_print_flag
    f.

(** [forward(self, xs, ys, n_loop_start, n_loops)]. *)
Definition forward (xs : tensor3 A) (ys : tensor2 A)
           (n_loop_start n_loops : Z) : M St (list (prediction A)) :=
  looped_forward cls xs ys n_loop_start n_loops.

End Def.
Arguments t A : clear implicits.
Arguments St A {_}.
End MambaModelLooped.

(** ** [build_model] *)

(** The configuration object [conf], with the attributes [build_model]
    reads. *)
Module Conf.

Record t (F : Type) : Type := mk {
  family : string;
  n_dims : Z;
  n_positions : Z;
  n_embd : Z;
  n_layer : Z;
  n_head : Z;
  d_state : Z;
  expand : Z;
  d_conv : Z;
  loop_func : string;
  pred_type : string;
  apply_input_mask : bool;
  p : F;
  truncate_state : bool;
  p_state : F;
  fixed_truncate : bool;
  tokens_to_trunc : Z
}.

Arguments mk {F} _ _ _ _ _ _ _ _ _ _ _ _ _ _ _ _ _.
Arguments family {F} _.
Arguments n_dims {F} _.
Arguments n_positions {F} _.
Arguments n_embd {F} _.
Arguments n_layer {F} _.
Arguments n_head {F} _.
Arguments d_state {F} _.
Arguments expand {F} _.
Arguments d_conv {F} _.
Arguments loop_func {F} _.
Arguments pred_type {F} _.
Arguments apply_input_mask {F} _.
Arguments p {F} _.
Arguments truncate_state {F} _.
Arguments p_state {F} _.
Arguments fixed_truncate {F} _.
Arguments tokens_to_trunc {F} _.

End Conf.

Section BuildModel.
Context {A : Type} `{Scalar A} `{Framework A}.

(** A model of one of the five classes. *)
Inductive Model : Type :=
| Is_TransformerModel (m : TransformerModel.t A)
| Is_TransformerModelLooped (m : TransformerModelLooped.t A)
| Is_TransformerModelTying (m : TransformerModel.t A)
| Is_MambaModel (m : MambaModel.t A)
| Is_MambaModelLooped (m : MambaModelLooped.t A).

(** [build_model(conf)]. *)
Definition build_model (conf : Conf.t float) : M RNG Model :=
  if Conf.family conf =? "gpt2" then
    model <- TransformerModel.__init__
               (Conf.n_dims conf) (Conf.n_positions conf) (Conf.n_embd conf)
               (Conf.n_layer conf) (Conf.n_head conf) (Conf.pred_type conf) ;;
    ret (Is_TransformerModel model)
  else if Conf.family conf =? "gpt2_loop" then
    model <- TransformerModelLooped.__init__
               (Conf.n_dims conf) (Conf.n_positions conf) (Conf.n_embd conf)
               (Conf.n_layer conf) (Conf.n_head conf) (Conf.loop_func conf)
               (Conf.pred_type conf) (Conf.apply_input_mask conf)
               (Conf.p conf) (Conf.truncate_state conf) (Conf.p_state conf)
               (Conf.fixed_truncate conf) (Conf.tokens_to_trunc conf) ;;
    ret (Is_TransformerModelLooped model)
  else if Conf.family conf =? "gpt2_tying" then
    model <- TransformerModelTying.__init__
               (Conf.n_dims conf) (Conf.n_positions conf) (Conf.n_embd conf)
               (Conf.n_layer conf) (Conf.n_head conf) ;;
    ret (Is_TransformerModelTying model)
  else if Conf.family conf =? "mamba" then
    model <- MambaModel.__init__
               (Conf.n_dims conf) (Conf.n_positions conf) (Conf.n_embd conf)
               (Conf.n_layer conf) (Conf.d_state conf) (Conf.expand conf)
               (Conf.d_conv conf) (Conf.pred_type conf) ;;
    ret (Is_MambaModel model)
  else if Conf.family conf =? "mamba_loop" then
    model <- MambaModelLooped.__init__
               (Conf.n_dims conf) (Conf.n_positions conf) (Conf.n_embd conf)
               (Conf.n_layer conf) (Conf.d_state conf) (Conf.expand conf)
               (Conf.d_conv conf) (Conf.loop_func conf)
               (Conf.pred_type conf) ;;
    ret (Is_MambaModelLooped model)
  else raise NotImplementedError.

End BuildModel.

Arguments Model A {_}.

(** ** A concrete framework, for evaluating the models

    Scalars are integers and host floats are rationals.  The generator is
    the stream of values [torch.rand_like] will return, scaled by 100 and
    consumed in row-major order (a missing value reads as 0); a linear layer
    maps every token to [out_features] copies of the sum of its entries, and
    a backbone adds 1 to every entry. *)

Module Concrete.

Fixpoint fill1 (l : list Z) (g : list Z) : list Z * list Z :=
  match l with
  | [] => ([], g)
  | _ :: l' =>
      let (r, g') := fill1 l' (tl g) in (hd 0%Z g :: r, g')
  end.

Fixpoint fill_rows {X Y : Type} (fill : X -> list Z -> Y * list Z)
         (l : list X) (g : list Z) : list Y * list Z :=
  match l with
  | [] => ([], g)
  | x :: l' =>
      let (y, g1) := fill x g in
      let (r, g2) := fill_rows fill l' g1 in
      (y :: r, g2)
  end.

Definition rand_like (t : tensor3 Z) (g : list Z) : tensor3 Z * list Z :=
  let (e, g') := fill_rows (fill_rows fill1) (elems3 t) g in
  (mk3 (dimB t) (dimN t) (dimD t) e, g').

Definition sum (l : list Z) : Z := fold_right Z.add 0%Z l.

Definition linear (i o : Z) (t : tensor3 Z) : tensor3 Z :=
  mk3 (dimB t) (dimN t) (Z.to_nat o)
      (map (map (fun tok => repeat (sum tok) (Z.to_nat o))) (elems3 t)).

Definition succ_layer (t : tensor3 Z) : tensor3 Z := map3 Z.succ t.

#[export] Instance framework : Framework Z := {
  float := Q;
  float_zero := 0%Q;
  RNG := list Z;
  torch_rand_like := rand_like;
  tensor_ge := fun x q => Qle_bool q (inject_Z x / 100);
  math_ceil_mul := fun n q => Qceiling (inject_Z n * q);
  nn_Linear := fun i o g => (linear i o, g);
  GPT2Model := fun _ g => (fun _ => succ_layer, g);
  Mamba := fun _ g => (succ_layer, g)
}.

(** Example inputs: one sequence of two steps with three features. *)
Definition xs0 : tensor3 Z := mk3 1 2 3 [[[1; 2; 3]; [4; 5; 6]]]%Z.
Definition ys0 : tensor2 Z := mk2 1 2 [[7; 8]]%Z.

(** The models the constructors build in this framework for 3 features,
    2 positions, 4 embedding dimensions and 12 layers. *)
Definition transformer (pred_type : string) : TransformerModel.t Z :=
  TransformerModel.mk
    2 0 (mkGPT2Config 5 12 4 4 0%Q true) 2 3 4 12 pred_type
    (linear 3 4) (fun _ => succ_layer)
    (if pred_type =? "regression" then Some (linear 4 1)
     else if pred_type =? "classification" then Some (linear 4 MAX_NUM_CLASS)
     else None)
    false.

Definition mamba (pred_type : string) : MambaModel.t Z :=
  MambaModel.mk
    2 0 (mkMambaConfig 4 12 16 2 dt_rank_auto 4) 2 3 4 12 pred_type
    (linear 3 4) succ_layer
    (if pred_type =? "regression" then Some (linear 4 1)
     else if pred_type =? "classification" then Some (linear 4 MAX_NUM_CLASS)
     else None)
    false.

Definition looped (loop_func pred_type : string)
           (apply_input_mask truncate_state fixed_truncate : bool)
  : TransformerModelLooped.t Z :=
  TransformerModelLooped.mk
    (transformer pred_type) loop_func (15 # 100) apply_input_mask
    truncate_state (3 # 10) fixed_truncate 4.

Definition mamba_looped (loop_func pred_type : string)
  : MambaModelLooped.t Z :=
  MambaModelLooped.mk (mamba pred_type) loop_func.

Definition state_of {Obj : Type} (o : Obj) (g : list Z) : ObjState Z Obj :=
  mkState o (mkWorld g []).

(** A configuration for the family [family] with the sizes of the models
    above. *)
Definition conf0 (family pred_type : string) : Conf.t Q :=
  Conf.mk family 3 2 4 12 4 16 2 4 "z=f(x+z)" pred_type
          false (15 # 100) false (3 # 10) false 4.

End Concrete.

(** * Vocabulary of the properties *)

Local Close Scope string_scope.
Local Close Scope Q_scope.
Local Open Scope nat_scope.

(** ** The combined sequence *)

Section RowVocabulary.
Context {T : Type}.

(** The tokens of two rows paired position by position. *)
Definition pair_up (l m : list T) : list (list T) :=
  zip_with (fun x y => [x; y]) l m.

End RowVocabulary.

Section CombinerVocabulary.
Context {A : Type} `{Scalar A}.

(** The label [y] widened to a token of [d] coordinates. *)
Definition widen (d : nat) (y : A) : list A := y :: repeat zero (d - 1).

(** The rows of the combined sequence. *)
Definition combined_rows (d : nat) (xs : list (list (list A)))
           (ys : list (list A)) : list (list (list A)) :=
  zip_with (fun xrow yrow => concat (pair_up xrow (map (widen d) yrow)))
           xs ys.

(** What the combiner has to return on [xs] and [ys]: the shape
    [[B, 2n, d]], the feature vectors at the even positions and the
    widened labels at the odd ones. *)
Definition interleaved (xs : tensor3 A) (ys : tensor2 A)
           (r : res (tensor3 A)) : Prop :=
  exists zs,
    r = Ok zs /\
    (dimB zs, dimN zs, dimD zs) = (dimB xs, 2 * dimN xs, dimD xs) /\
    wf3 zs /\
    forall b i, b < dimB xs -> i < dimN xs ->
      token3 zs b (2 * i) = token3 xs b i /\
      token3 zs b (2 * i + 1)
      = get2 zero ys b i :: repeat zero (dimD xs - 1).

End CombinerVocabulary.

(** ** The loop *)

(** A loop whose body cannot touch the state. *)
Fixpoint fold_res {X Acc : Type} (l : list X) (step : X -> Acc -> res Acc)
         (acc : Acc) : res Acc :=
  match l with
  | [] => Ok acc
  | x :: l' => res_bind (step x acc) (fold_res l' step)
  end.

(** The two loop functions the models know. *)
Definition supported (loop_func : string) : Prop :=
  loop_func = "z=f(x+z)"%string \/ loop_func = "z=f(x*z)"%string.

Section LoopVocabulary.
Context {A : Type} `{Scalar A} `{Framework A} {Obj : Type}.
Variable cls : LoopedClass A Obj.

(** The states the loop goes through: the result of [f] at every
    iteration, whether or not a prediction is recorded. *)
Fixpoint trajectory (idxs : list Z) (embeds output : tensor3 A)
  : M (LSt (Obj := Obj)) (list (tensor3 A)) :=
  match idxs with
  | [] => ret []
  | idx :: rest =>
      (output' <- cls_f cls output embeds ;;
       print_once cls idx ;;;
       outs <- trajectory rest embeds output' ;;
       ret (output' :: outs))%monad
  end.

(** [y] is the prediction read out of the state [out] by the model [o]. *)
Definition recorded (o : Obj) (out : tensor3 A) (y : prediction A) : Prop :=
  exists read_out,
    cls_get_read_out cls o = Ok read_out /\
    cls_extract cls o (read_out out) = Ok y.

(** Two objects with the same read-out, prediction type and loop
    function. *)
Definition same_config (o1 o2 : Obj) : Prop :=
  cls_get_read_out cls o1 = cls_get_read_out cls o2 /\
  cls_extract cls o1 = cls_extract cls o2 /\
  cls_loop_func cls o1 = cls_loop_func cls o2.

(** What the loop needs from a class: [f] and the setter of [print_flag]
    leave the configuration alone, and [f] raises exactly on an
    unsupported loop function. *)
Record LoopedClassOk : Prop := {
  f_config : forall o e s,
    same_config (self s) (self (snd (cls_f cls o e s)));
  flag_config : forall v o, same_config o (cls_set_print_flag cls v o);
  f_total : forall o e s,
    supported (cls_loop_func cls (self s)) ->
    exists out, fst (cls_f cls o e s) = Ok out;
  f_raises : forall o e s x,
    fst (cls_f cls o e s) = Raise x ->
    x = NotImplementedError /\ ~ supported (cls_loop_func cls (self s))
}.

(** The model [o] has a read-out and a prediction can be extracted from
    whatever it returns. *)
Definition readable (o : Obj) : Prop :=
  exists read_out,
    cls_get_read_out cls o = Ok read_out /\
    forall t, exists y, cls_extract cls o (read_out t) = Ok y.

(** With one iteration and no warm-up, the call returns the read-out of
    the backbone applied to the embeddings: the initial state is the
    identity of the combination. *)
Definition single_loop_reads_backbone
           (fwd : tensor3 A -> tensor2 A -> Z -> Z ->
                  M (ObjState A Obj) (list (prediction A)))
           (backbone : Layer A) (s : ObjState A Obj)
           (xs : tensor3 A) (ys : tensor2 A) : Prop :=
  forall zs,
    cls_combine cls (self s) xs ys = Ok zs ->
    let embeds := cls_read_in cls (self s) zs in
    (cls_loop_func cls (self s) = "z=f(x+z)"%string ->
     initial_output cls embeds s = (Ok (torch_zeros_like embeds), s) /\
     tensor_add (torch_zeros_like embeds) embeds = embeds) /\
    (cls_loop_func cls (self s) = "z=f(x*z)"%string ->
     initial_output cls embeds s = (Ok (torch_ones_like embeds), s) /\
     tensor_mul (torch_ones_like embeds) embeds = embeds) /\
    fst (fwd xs ys 0%Z 1%Z s)
    = res_bind (cls_get_read_out cls (self s)) (fun read_out =>
      res_bind (cls_extract cls (self s) (read_out (backbone embeds)))
               (fun y => Ok [y])).

End LoopVocabulary.

Section ActiveIterationsVocabulary.
Context {A : Type} `{Scalar A} `{Framework A} {Obj : Type}.

(** What a call [fwd xs ys n_loop_start n_loops] of a looped class promises
    from the state [s]: a call that returns gives one prediction for each
    iteration from [n_loop_start] on, in the order of the iterations, each
    read out of the state that iteration reached; and on a supported
    configuration the call returns. *)
Definition records_active_iterations
           (cls : LoopedClass A Obj)
           (fwd : tensor3 A -> tensor2 A -> Z -> Z ->
                  M (ObjState A Obj) (list (prediction A)))
           (s : ObjState A Obj) (xs : tensor3 A) (ys : tensor2 A)
           (n_loop_start n_loops : Z) : Prop :=
  (forall preds s',
      fwd xs ys n_loop_start n_loops s = (Ok preds, s') ->
      Z.of_nat (length preds) = Z.max 0 (n_loops - n_loop_start) /\
      exists zs output0 outs,
        cls_combine cls (self s) xs ys = Ok zs /\
        trajectory cls (range n_loops) (cls_read_in cls (self s) zs)
                   output0 s = (Ok outs, s') /\
        length outs = Z.to_nat n_loops /\
        Forall2 (recorded cls (self s))
                (skipn (Z.to_nat n_loop_start) outs) preds) /\
  (forall zs,
      cls_combine cls (self s) xs ys = Ok zs ->
      supported (cls_loop_func cls (self s)) ->
      ((n_loop_start < n_loops)%Z -> readable cls (self s)) ->
      exists preds s', fwd xs ys n_loop_start n_loops s = (Ok preds, s')).

End ActiveIterationsVocabulary.

(** ** The models without their state *)

Section ModelVocabulary.
Context {A : Type} `{Scalar A} `{Framework A}.

(** The combination step at the end of [f], as a function of the loop
    function. *)
Definition combine_step (self : TransformerModelLooped.t A)
           (output embeds : tensor3 A) : res (tensor3 A) :=
  let backbone :=
    TransformerModel._backbone (TransformerModelLooped.base self)
                               Kw_inputs_embeds_only in
  if String.eqb (TransformerModelLooped.loop_func self) "z=f(x+z)" then
    Ok (backbone (tensor_add output embeds))
  else if String.eqb (TransformerModelLooped.loop_func self) "z=f(x*z)" then
    Ok (backbone (tensor_mul output embeds))
  else Raise NotImplementedError.

(** [f] of the Mamba class reads the state and leaves it as it is. *)
Definition mamba_combine_step (self : MambaModelLooped.t A)
           (output embeds : tensor3 A) : res (tensor3 A) :=
  let backbone := MambaModel._backbone (MambaModelLooped.base self) in
  if String.eqb (MambaModelLooped.loop_func self) "z=f(x+z)" then
    Ok (backbone (tensor_add output embeds))
  else if String.eqb (MambaModelLooped.loop_func self) "z=f(x*z)" then
    Ok (backbone (tensor_mul output embeds))
  else Raise NotImplementedError.

(** The object with its two mutable attributes reset. *)
Definition norm (o : TransformerModelLooped.t A) : TransformerModelLooped.t A :=
  TransformerModelLooped.set_print_flag
    false (TransformerModelLooped.set_tokens_to_trunc 0%Z o).

(** Both masks of the transformer-looped model are disabled. *)
Definition masks_off (o : TransformerModelLooped.t A) : Prop :=
  TransformerModelLooped.apply_input_mask o = false /\
  TransformerModelLooped.truncate_state o = false.

(** The choice of the initial state, the body of the loop and the whole
    call as values, for a model whose [f] leaves the state alone. *)
Definition initial_value (o : TransformerModelLooped.t A)
           (embeds : tensor3 A) : res (tensor3 A) :=
  if str_in (TransformerModelLooped.loop_func o) ["z=f(x+z)"%string] then
    Ok (torch_zeros_like embeds)
  else if str_in (TransformerModelLooped.loop_func o) ["z=f(x*z)"%string]
  then Ok (torch_ones_like embeds)
  else Raise NotImplementedError.

Definition body_value (o : TransformerModelLooped.t A) (embeds : tensor3 A)
           (n_loop_start idx : Z) (acc : tensor3 A * list (prediction A))
  : res (tensor3 A * list (prediction A)) :=
  let (output, pred_list) := acc in
  res_bind (combine_step o output embeds) (fun out1 =>
  if (idx <? n_loop_start)%Z then Ok (out1, pred_list)
  else
    res_bind (TransformerModel.get_read_out (TransformerModelLooped.base o))
             (fun read_out =>
    res_bind (TransformerModel.extract (TransformerModelLooped.base o)
                                       (read_out out1))
             (fun y => Ok (out1, pred_list ++ [y])))).

(** The value of [forward] as a function of the object and the
    arguments. *)
Definition forward_value (o : TransformerModelLooped.t A)
           (xs : tensor3 A) (ys : tensor2 A) (n_loop_start n_loops : Z)
  : res (list (prediction A)) :=
  res_bind (TransformerModel._combine (TransformerModelLooped.base o) xs ys)
           (fun zs =>
  let embeds :=
    TransformerModel._read_in (TransformerModelLooped.base o) zs in
  res_bind (initial_value o embeds) (fun output0 =>
  res_bind (fold_res (range n_loops) (body_value o embeds n_loop_start)
                     (output0, []))
           (fun acc => Ok (snd acc)))).

(** The states a call goes through from [s]: the same object up to its
    two mutable attributes, and the same generator. *)
Definition around (s s' : TransformerModelLooped.St A) : Prop :=
  norm (self s') = norm (self s) /\ rng (world s') = rng (world s).

(** [k] applications of one layer, each to the output of the one
    before. *)
Fixpoint apply_times (k : nat) (layer : Layer A) (x : tensor3 A)
  : tensor3 A :=
  match k with
  | O => x
  | S k' => apply_times k' layer (layer x)
  end.

(** The weight-tied forward pass in the words of its description: read
    in, [k] applications of the single layer, one read-out of the last
    output, and the predictions at the feature positions. *)
Definition tying_spec (read_in single read_out : Layer A) (k : nat)
           (zs : tensor3 A) : res (tensor2 A) :=
  slice_axis1_select0 0 2 (read_out (apply_times k single (read_in zs))).

End ModelVocabulary.

(** ** Further vocabulary *)

(** The states [F x], [F (F x)], ... of [n] applications of [F]. *)
Fixpoint iterates {X : Type} (n : nat) (F : X -> X) (x : X) : list X :=
  match n with
  | O => []
  | S n' => F x :: iterates n' F (F x)
  end.

(** [g] on every element in order, up to the first that raises. *)
Fixpoint traverse {X Y : Type} (g : X -> res Y) (l : list X) : res (list Y) :=
  match l with
  | [] => Ok []
  | x :: l' =>
      res_bind (g x) (fun y => res_bind (traverse g l') (fun ys => Ok (y :: ys)))
  end.

(** The five families [build_model] knows. *)
Definition known_family (family : string) : Prop :=
  In family ["gpt2"; "gpt2_loop"; "gpt2_tying"; "mamba"; "mamba_loop"]%string.

Section PrintVocabulary.
Context {A : Type} `{Framework A} {Obj : Type}.
Variable cls : LoopedClass A Obj.

(** The output after the one-time print of [idx] from the state [s]. *)
Definition printed (s : ObjState A Obj) (idx : Z) : list Z :=
  stdout (world s) ++ (if cls_print_flag cls (self s) then [] else [idx]).

End PrintVocabulary.

Section UnrolledVocabulary.
Context {A : Type} `{Scalar A} `{Framework A}.

(** One iteration of the transformer-looped model without masks, for a
    supported loop function: the backbone on the state combined with the
    embeddings. *)
Definition loop_step (o : TransformerModelLooped.t A) (embeds z : tensor3 A)
  : tensor3 A :=
  TransformerModel._backbone (TransformerModelLooped.base o)
    Kw_inputs_embeds_only
    (if String.eqb (TransformerModelLooped.loop_func o) "z=f(x+z)"
     then tensor_add z embeds else tensor_mul z embeds).

(** The prediction the model reads out of a state. *)
Definition read_prediction (o : TransformerModelLooped.t A)
           (out : tensor3 A) : res (prediction A) :=
  res_bind (TransformerModel.get_read_out (TransformerModelLooped.base o))
           (fun read_out =>
  TransformerModel.extract (TransformerModelLooped.base o) (read_out out)).

(** What the masking step of [f] makes of an element [x] whose draw is
    [d]. *)
Definition masked_element (o : TransformerModelLooped.t A) (x d : A) : A :=
  if tensor_ge d (TransformerModelLooped.p o) then
    if String.eqb (TransformerModelLooped.loop_func o) "z=f(x*z)"
    then (if eq_zero x then one else x) else x
  else
    if String.eqb (TransformerModelLooped.loop_func o) "z=f(x*z)"
    then one else zero.

(** The states reachable from [s0]: the same object up to [print_flag] and
    [tokens_to_trunc], and the same generator when the input mask is
    off. *)
Definition kept (s0 s : TransformerModelLooped.St A) : Prop :=
  norm (self s) = norm (self s0) /\
  (TransformerModelLooped.apply_input_mask (self s0) = false ->
   rng (world s) = rng (world s0)).

End UnrolledVocabulary.

(** * Properties *)

(** Integers satisfy the laws of the scalars. *)
#[export] Instance ScalarLaws_Z : ScalarLaws Z.
Proof.
  constructor; cbn.
  - exact Z.add_0_l.
  - exact Z.mul_1_l.
  - exact Z.mul_1_r.
  - exact Z.mul_0_r.
  - reflexivity.
Qed.

(** ** Facts on row-major buffers *)

Section BufferFacts.
Context {T : Type}.


Lemma chunk_concat (size : nat) (ls : list (list T)) :
  Forall (fun r => length r = size) ls ->
  chunk (length ls) size (concat ls) = ls.
Proof.
  induction 1 as [|r ls Hr _ IH]; cbn; [reflexivity|].
  rewrite firstn_app, skipn_app, Hr, Nat.sub_diag.
  rewrite <- Hr at 1 3.
  rewrite firstn_all, skipn_all; cbn.
  rewrite app_nil_r. f_equal. exact IH.
Qed.

Lemma chunk_singletons (l : list T) :
  chunk (length l) 1 l = map (fun y => [y]) l.
Proof.
  induction l as [|x l IH]; cbn; [reflexivity|].
  f_equal. exact IH.
Qed.

Lemma concat_uniform_length (size : nat) (ls : list (list T)) :
  Forall (fun r => length r = size) ls ->
  length (concat ls) = length ls * size.
Proof.
  induction 1 as [|r ls Hr _ IH]; cbn; [reflexivity|].
  rewrite length_app, IH, Hr. reflexivity.
Qed.

Lemma concat_concat (l : list (list (list T))) :
  concat (concat l) = concat (map (@concat T) l).
Proof.
  induction l as [|x l IH]; cbn; [reflexivity|].
  rewrite concat_app, IH. reflexivity.
Qed.

End BufferFacts.

Section ZipFacts.
Context {T U V : Type}.

Lemma zip_with_length (g : T -> U -> V) (l : list T) (m : list U) :
  length l = length m -> length (zip_with g l m) = length l.
Proof.
  revert m; induction l as [|x l IH]; intros [|y m] E; cbn in *;
    try discriminate; [reflexivity|].
  f_equal. apply IH. now injection E.
Qed.

Lemma zip_with_nth (g : T -> U -> V) (l : list T) (m : list U)
      (i : nat) (dx : T) (dy : U) (dz : V) :
  i < length l -> i < length m ->
  nth i (zip_with g l m) dz = g (nth i l dx) (nth i m dy).
Proof.
  revert m i; induction l as [|x l IH]; intros [|y m] [|i] Hl Hm;
    cbn in *; try lia; [reflexivity|].
  apply IH; lia.
Qed.

Lemma zip_with_repeat_r (g : T -> U -> V) (l : list T) (c : U) :
  zip_with g l (repeat c (length l)) = map (fun x => g x c) l.
Proof.
  induction l as [|x l IH]; cbn; [reflexivity|].
  f_equal. exact IH.
Qed.

Lemma zip_with_repeat_l (g : T -> U -> V) (c : T) (m : list U) :
  zip_with g (repeat c (length m)) m = map (fun y => g c y) m.
Proof.
  induction m as [|y m IH]; cbn; [reflexivity|].
  f_equal. exact IH.
Qed.

Lemma zip_with_Forall (g : T -> U -> V) (P : V -> Prop)
      (l : list T) (m : list U) :
  (forall x y, In x l -> In y m -> P (g x y)) ->
  Forall P (zip_with g l m).
Proof.
  revert m; induction l as [|x l IH]; intros [|y m] Hg; cbn;
    try constructor.
  - apply Hg; now left.
  - apply IH. intros x' y' Hx Hy. apply Hg; now right.
Qed.

End ZipFacts.

(** The interleaving of two rows of tokens. *)
Section Interleave.
Context {T : Type}.

Lemma pair_up_length (l m : list T) :
  length l = length m -> length (pair_up l m) = length l.
Proof. apply zip_with_length. Qed.

Lemma pair_up_Forall (l m : list T) :
  Forall (fun r => length r = 2) (pair_up l m).
Proof. apply zip_with_Forall. reflexivity. Qed.

Lemma concat_pair_up_length (l m : list T) :
  length l = length m -> length (concat (pair_up l m)) = 2 * length l.
Proof.
  intros E. rewrite (concat_uniform_length 2 (pair_up l m) (pair_up_Forall l m)).
  rewrite pair_up_length by exact E. lia.
Qed.

Lemma concat_pair_up_even (l m : list T) (i : nat) (d : T) :
  length l = length m -> i < length l ->
  nth (2 * i) (concat (pair_up l m)) d = nth i l d.
Proof.
  revert m i; induction l as [|x l IH]; intros [|y m] i E Hi;
    cbn [length] in *; try lia.
  destruct i as [|i]; [reflexivity|].
  replace (2 * S i) with (S (S (2 * i))) by lia.
  cbn [pair_up zip_with concat app nth]. apply IH; lia.
Qed.

Lemma concat_pair_up_odd (l m : list T) (i : nat) (d : T) :
  length l = length m -> i < length l ->
  nth (2 * i + 1) (concat (pair_up l m)) d = nth i m d.
Proof.
  revert m i; induction l as [|x l IH]; intros [|y m] i E Hi;
    cbn [length] in *; try lia.
  destruct i as [|i]; [reflexivity|].
  replace (2 * S i + 1) with (S (S (2 * i + 1))) by lia.
  cbn [pair_up zip_with concat app nth]. apply IH; lia.
Qed.

Lemma concat_pair_up_In (P : T -> Prop) (l m : list T) :
  Forall P l -> Forall P m -> Forall P (concat (pair_up l m)).
Proof.
  intros Hl; revert m; induction Hl as [|x l Hx _ IH];
    intros m Hm; destruct Hm as [|y m Hy Hm]; cbn; try constructor.
  - exact Hx.
  - constructor; [exact Hy|]. apply IH. exact Hm.
Qed.

End Interleave.

(** ** The input combiner *)

Section CombineFacts.
Context {A : Type} `{Scalar A}.

Lemma view_labels (ys : tensor2 A) (B n : nat) :
  wf2 ys -> dim2_0 ys = B -> dim2_1 ys = n ->
  view3 (numel2 ys) (flatten2 ys) B n 1
  = Ok (mk3 B n 1 (map (map (fun y => [y])) (elems2 ys))).
Proof.
  intros [Hlen Hrows] HB Hn. unfold view3, numel2, flatten2.
  rewrite HB, Hn in *.
  replace (B * n * 1) with (B * n) by lia.
  rewrite Nat.eqb_refl. do 2 f_equal.
  replace (n * 1) with n by lia.
  rewrite <- Hlen, chunk_concat by exact Hrows.
  apply map_ext_in. intros r Hr.
  rewrite Forall_forall in Hrows. rewrite <- (Hrows r Hr).
  apply chunk_singletons.
Qed.

Lemma cat_rows (z : list A) (n : nat) (ys : list (list A)) :
  Forall (fun r => length r = n) ys ->
  zip_with (zip_with (@app A)) (map (map (fun y => [y])) ys)
           (repeat (repeat z n) (length ys))
  = map (map (fun y => y :: z)) ys.
Proof.
  induction 1 as [|r ys Hr _ IH]; cbn; [reflexivity|].
  f_equal; [|exact IH].
  rewrite <- Hr. clear. induction r as [|y r IH]; cbn; [reflexivity|].
  f_equal. exact IH.
Qed.

Lemma stack_rows_view (d n : nat) (xs ws : list (list (list A))) :
  length xs = length ws ->
  Forall (wf_rows n d) xs -> Forall (wf_rows n d) ws ->
  map (chunk (2 * n) d)
      (chunk (length xs) (2 * n * d)
             (concat (concat (concat
                (zip_with (zip_with (fun x y => [x; y])) xs ws)))))
  = zip_with (fun xrow wrow => concat (pair_up xrow wrow)) xs ws.
Proof.
  intros E Hx Hw.
  assert (Hrows : Forall (wf_rows (2 * n) d)
                    (zip_with (fun xrow wrow => concat (pair_up xrow wrow))
                              xs ws)).
  { apply zip_with_Forall. intros xr wr Hxr Hwr.
    rewrite Forall_forall in Hx, Hw.
    destruct (Hx xr Hxr) as [Lx Fx], (Hw wr Hwr) as [Lw Fw]. split.
    - rewrite concat_pair_up_length by congruence. lia.
    - apply concat_pair_up_In; assumption. }
  set (rows := zip_with (fun xrow wrow => concat (pair_up xrow wrow)) xs ws)
    in *.
  assert (Hcc : concat (concat (zip_with (zip_with (fun x y => [x; y]))
                                         xs ws))
                = concat rows).
  { subst rows. clear. revert ws; induction xs as [|xr xs IH];
      intros [|wr ws]; cbn; try reflexivity.
    rewrite concat_app, IH. reflexivity. }
  rewrite Hcc.
  assert (Hlen : length rows = length xs)
    by (subst rows; apply zip_with_length; exact E).
  rewrite concat_concat, <- Hlen, <- (length_map (@concat _)).
  rewrite chunk_concat.
  - rewrite map_map. rewrite <- (map_id rows) at 2.
    apply map_ext_in. intros r Hr.
    rewrite Forall_forall in Hrows. destruct (Hrows r Hr) as [Lr Fr].
    rewrite <- Lr. apply chunk_concat. exact Fr.
  - rewrite Forall_map. eapply Forall_impl; [|exact Hrows].
    intros r [Lr Fr]. rewrite (concat_uniform_length d r Fr), Lr.
    reflexivity.
Qed.

End CombineFacts.

Section CombineSpec.
Context {A : Type} `{Scalar A}.

Lemma combine_body_rows (xs : tensor3 A) (ys : tensor2 A) :
  wf3 xs -> wf2 ys ->
  dim2_0 ys = dimB xs -> dim2_1 ys = dimN xs -> 1 <= dimD xs ->
  combine_body 2 xs ys
  = Ok (mk3 (dimB xs) (2 * dimN xs) (dimD xs)
            (combined_rows (dimD xs) (elems3 xs) (elems2 ys))).
Proof.
  intros [Lx Fx] Wy HB Hn Hd. unfold combine_body.
  rewrite (view_labels ys (dimB xs) (dimN xs) Wy HB Hn). cbn [res_bind].
  unfold torch_zeros.
  destruct (Z.ltb_spec (Z.of_nat (dimD xs) - 1) 0) as [Hneg|_]; [lia|].
  cbn [res_bind]. unfold torch_cat_axis2, full3.
  cbn [dimB dimN dimD elems3]. rewrite !Nat.eqb_refl. cbn [andb res_bind].
  replace (Z.to_nat (Z.of_nat (dimD xs) - 1)) with (dimD xs - 1) by lia.
  destruct Wy as [Ly Fy]. rewrite HB in Ly. rewrite Hn in Fy.
  pose proof (cat_rows (repeat zero (dimD xs - 1)) (dimN xs) (elems2 ys) Fy)
    as Hc.
  rewrite Ly in Hc. rewrite Hc. clear Hc.
  unfold torch_stack_dim2. cbn [dimB dimN dimD elems3].
  rewrite !Nat.eqb_refl.
  replace (Nat.eqb (dimD xs) (1 + (dimD xs - 1))) with true
    by (symmetry; apply Nat.eqb_eq; lia).
  cbn [andb res_bind]. unfold view3, numel4, flatten4.
  cbn [dim4_0 dim4_1 dim4_2 dim4_3 elems4].
  replace (Nat.eqb (dimB xs * dimN xs * 2 * dimD xs)
                   (dimB xs * (2 * dimN xs) * dimD xs)) with true
    by (symmetry; apply Nat.eqb_eq; lia).
  do 2 f_equal. rewrite <- Lx.
  assert (Fw : Forall (wf_rows (dimN xs) (dimD xs))
                      (map (map (widen (dimD xs))) (elems2 ys))).
  { rewrite Forall_map. eapply Forall_impl; [|exact Fy].
    intros r Lr. split; [now rewrite length_map|].
    rewrite Forall_map. apply Forall_forall. intros y _.
    unfold widen. cbn [length]. rewrite repeat_length. lia. }
  change (map (map (fun y => y :: repeat zero (dimD xs - 1))) (elems2 ys))
    with (map (map (widen (dimD xs))) (elems2 ys)).
  rewrite (stack_rows_view (dimD xs) (dimN xs)); try assumption.
  - unfold combined_rows. clear. generalize (elems2 ys) as l.
    induction (elems3 xs) as [|xr e IH]; intros [|yr l]; cbn;
      try reflexivity.
    f_equal. apply IH.
  - rewrite length_map. congruence.
Qed.

Lemma combine_body_interleaved (xs : tensor3 A) (ys : tensor2 A) :
  wf3 xs -> wf2 ys ->
  dim2_0 ys = dimB xs -> dim2_1 ys = dimN xs -> 1 <= dimD xs ->
  interleaved xs ys (combine_body 2 xs ys).
Proof.
  intros Wx Wy HB Hn Hd.
  eexists. split; [apply combine_body_rows; assumption|].
  destruct Wx as [Lx Fx], Wy as [Ly Fy]. rewrite HB in Ly. rewrite Hn in Fy.
  cbn [dimB dimN dimD]. split; [reflexivity|].
  rewrite Forall_forall in Fx, Fy.
  split.
  - split; cbn [dimB dimN dimD elems3]; unfold combined_rows.
    + rewrite zip_with_length; congruence.
    + apply zip_with_Forall. intros xr yr Hxr Hyr.
      destruct (Fx xr Hxr) as [Lr Fr]. split.
      * rewrite concat_pair_up_length; rewrite ?length_map, ?(Fy yr Hyr);
          lia.
      * apply concat_pair_up_In; [exact Fr|].
        rewrite Forall_map. apply Forall_forall. intros y _.
        unfold widen. cbn [length]. rewrite repeat_length. lia.
  - intros b i Hb Hi. unfold token3, get2. cbn [elems3].
    unfold combined_rows.
    rewrite (zip_with_nth _ _ _ _ [] [] []) by lia.
    assert (Lxr : length (nth b (elems3 xs) []) = dimN xs)
      by (apply Fx, nth_In; lia).
    assert (Lyr : length (nth b (elems2 ys) []) = dimN xs)
      by (apply Fy, nth_In; lia).
    split.
    + apply concat_pair_up_even; rewrite ?length_map; lia.
    + rewrite concat_pair_up_odd by (rewrite ?length_map; lia).
      rewrite (nth_indep _ [] (widen (dimD xs) zero))
        by (rewrite length_map; lia).
      rewrite map_nth. reflexivity.
Qed.

End CombineSpec.

(** ** What the constructors establish *)

Section Constructors.
Context {A : Type} `{Scalar A} `{Framework A}.

Lemma TransformerModel_init_ok
      (n_dims n_positions n_embd n_layer n_head : Z) (pred_type : string)
      (g : RNG) :
  exists self g',
    TransformerModel.__init__ n_dims n_positions n_embd n_layer n_head
                              pred_type g = (Ok self, g') /\
    TransformerModel.freq self = 2 /\
    TransformerModel.ind self = 0 /\
    TransformerModel.n_layer self = n_layer /\
    TransformerModel._pred_type self = pred_type /\
    TransformerModel.print_flag self = false.
Proof.
  unfold TransformerModel.__init__, bind, call, ret.
  destruct (nn_Linear n_dims n_embd g) as [ri g1].
  destruct (GPT2Model _ g1) as [bb g2].
  destruct (String.eqb pred_type "regression");
    [|destruct (String.eqb pred_type "classification")].
  - destruct (nn_Linear n_embd 1 g2) as [ro g3]. cbn.
    do 2 eexists. repeat split.
  - destruct (nn_Linear n_embd MAX_NUM_CLASS g2) as [ro g3]. cbn.
    do 2 eexists. repeat split.
  - cbn. do 2 eexists. repeat split.
Qed.

Lemma MambaModel_init_ok
      (n_dims n_positions n_embd n_layer d_state expand d_conv : Z)
      (pred_type : string) (g : RNG) :
  exists self g',
    MambaModel.__init__ n_dims n_positions n_embd n_layer d_state expand
                        d_conv pred_type g = (Ok self, g') /\
    MambaModel.freq self = 2 /\
    MambaModel.ind self = 0 /\
    MambaModel._pred_type self = pred_type /\
    MambaModel.print_flag self = false.
Proof.
  unfold MambaModel.__init__, bind, call, ret.
  destruct (nn_Linear n_dims n_embd g) as [ri g1].
  destruct (Mamba _ g1) as [bb g2].
  destruct (String.eqb pred_type "regression");
    [|destruct (String.eqb pred_type "classification")].
  - destruct (nn_Linear n_embd 1 g2) as [ro g3]. cbn.
    do 2 eexists. repeat split.
  - destruct (nn_Linear n_embd MAX_NUM_CLASS g2) as [ro g3]. cbn.
    do 2 eexists. repeat split.
  - cbn. do 2 eexists. repeat split.
Qed.

End Constructors.

#[local] Existing Instance Concrete.framework.

Lemma Concrete_transformer_built (pred_type : string) (g : list Z) :
  TransformerModel.__init__ 3 2 4 12 4 pred_type g
  = (Ok (Concrete.transformer pred_type), g).
Proof.
  unfold TransformerModel.__init__, Concrete.transformer, bind, call, ret.
  cbn.
  destruct (String.eqb pred_type "regression");
    [|destruct (String.eqb pred_type "classification")]; reflexivity.
Qed.

Lemma Concrete_mamba_built (pred_type : string) (g : list Z) :
  MambaModel.__init__ 3 2 4 12 16 2 4 pred_type g
  = (Ok (Concrete.mamba pred_type), g).
Proof.
  unfold MambaModel.__init__, Concrete.mamba, bind, call, ret. cbn.
  destruct (String.eqb pred_type "regression");
    [|destruct (String.eqb pred_type "classification")]; reflexivity.
Qed.

(** ** C1: the input combiner *)

Section CombinerClaim.
Context {A : Type} `{Scalar A} `{Framework A}.

(** C1.  For a feature batch [xs] of shape [[B, n, d]] with [d >= 1] and a
    label batch [ys] of shape [[B, n]], [_combine] of a transformer model and
    of a Mamba model (whose [freq] is the constructor's 2) returns a tensor of
    shape [[B, 2n, d]] whose position [2i] is the [i]-th feature vector and
    whose position [2i+1] is the [i]-th label followed by [d-1] zeros. *)
Theorem combine_interleaves
        (tm : TransformerModel.t A) (mm : MambaModel.t A)
        (xs : tensor3 A) (ys : tensor2 A) :
  TransformerModel.freq tm = 2 -> MambaModel.freq mm = 2 ->
  wf3 xs -> wf2 ys ->
  dim2_0 ys = dimB xs -> dim2_1 ys = dimN xs -> 1 <= dimD xs ->
  interleaved xs ys (TransformerModel._combine tm xs ys) /\
  interleaved xs ys (MambaModel._combine mm xs ys).
Proof.
  intros Ft Fm Wx Wy HB Hn Hd.
  unfold TransformerModel._combine, MambaModel._combine.
  rewrite Ft, Fm.
  split; apply combine_body_interleaved; assumption.
Qed.

End CombinerClaim.

Lemma combine_interleaves_witness :
  interleaved Concrete.xs0 Concrete.ys0
    (TransformerModel._combine (Concrete.transformer "regression")
                               Concrete.xs0 Concrete.ys0) /\
  interleaved Concrete.xs0 Concrete.ys0
    (MambaModel._combine (Concrete.mamba "regression")
                         Concrete.xs0 Concrete.ys0).
Proof.
  apply (combine_interleaves (Concrete.transformer "regression")
                             (Concrete.mamba "regression")
                             Concrete.xs0 Concrete.ys0).
  - reflexivity.
  - reflexivity.
  - split; [reflexivity|]. repeat constructor.
  - split; [reflexivity|]. repeat constructor.
  - reflexivity.
  - reflexivity.
  - cbn. lia.
Defined.

(** ** The loop of the looped models *)

Section MonadFacts.
Context {S : Type}.

Lemma bind_ok {X Y : Type} (c : M S X) (k : X -> M S Y) (s s' : S) (y : Y) :
  bind c k s = (Ok y, s') ->
  exists x s1, c s = (Ok x, s1) /\ k x s1 = (Ok y, s').
Proof.
  unfold bind. destruct (c s) as [[x|e] s1]; [|discriminate].
  intros E. now exists x, s1.
Qed.

Lemma bind_step {X Y : Type} (c : M S X) (k : X -> M S Y) (s s1 : S)
      (x : X) :
  c s = (Ok x, s1) -> bind c k s = k x s1.
Proof. unfold bind. now intros ->. Qed.

Lemma bind_raise {X Y : Type} (c : M S X) (k : X -> M S Y) (s s1 : S)
      (e : exn) :
  c s = (Raise e, s1) -> bind c k s = (Raise e, s1).
Proof. unfold bind. now intros ->. Qed.

End MonadFacts.

Section LoopFacts.
Context {A : Type} `{Scalar A} `{Framework A} {Obj : Type}.
Variable cls : LoopedClass A Obj.

Lemma same_config_refl (o : Obj) : same_config cls o o.
Proof. repeat split. Qed.

Lemma same_config_trans (o1 o2 o3 : Obj) :
  same_config cls o1 o2 -> same_config cls o2 o3 -> same_config cls o1 o3.
Proof.
  intros (a & b & c) (a' & b' & c'). repeat split; congruence.
Qed.

Lemma print_once_ok (idx : Z) (s : LSt) :
  exists s', print_once cls idx s = (Ok tt, s') /\
             (self s' = self s \/
              self s' = cls_set_print_flag cls true (self s)).
Proof.
  unfold print_once, bind, get_self.
  destruct (negb (cls_print_flag cls (self s))); cbn.
  - eexists; split; [reflexivity|]. now right.
  - eexists; split; [reflexivity|]. now left.
Qed.

Hypothesis Hcls : LoopedClassOk cls.

Lemma print_once_config (o0 : Obj) (idx : Z) (s s' : LSt) (u : unit) :
  same_config cls o0 (self s) ->
  print_once cls idx s = (Ok u, s') -> same_config cls o0 (self s').
Proof.
  intros Hc E. destruct u.
  destruct (print_once_ok idx s) as (s2 & E2 & D).
  rewrite E2 in E. injection E as E. subst s'.
  destruct D as [D|D]; rewrite D; [exact Hc|].
  eapply same_config_trans; [exact Hc|]. apply (flag_config cls Hcls).
Qed.

Lemma loop_trace (o0 : Obj) (embeds : tensor3 A) (nls : Z) (len : nat) :
  forall (a : nat) (output : tensor3 A) (pl : list (prediction A))
         (s s' : LSt) (acc : tensor3 A * list (prediction A)),
    same_config cls o0 (self s) ->
    for_each (map Z.of_nat (seq a len)) (loop_body cls embeds nls)
             (output, pl) s = (Ok acc, s') ->
    exists outs ys,
      trajectory cls (map Z.of_nat (seq a len)) embeds output s = (Ok outs, s')
      /\ length outs = len
      /\ snd acc = pl ++ ys
      /\ Forall2 (recorded cls o0) (skipn (Z.to_nat nls - a) outs) ys.
Proof.
  induction len as [|len IH]; intros a output pl s s' acc Hc Hfor.
  - cbn in Hfor. injection Hfor as <- <-. exists [], [].
    cbn. rewrite app_nil_r, skipn_nil. repeat split. constructor.
  - cbn [seq map for_each] in Hfor.
    apply bind_ok in Hfor. destruct Hfor as (acc1 & s1 & Hbody & Hrest).
    unfold loop_body in Hbody.
    apply bind_ok in Hbody. destruct Hbody as ([out1 pl1] & s2 & Hiter & Hp).
    apply bind_ok in Hp. destruct Hp as (u & s3 & Hprint & Hret).
    injection Hret as <- <-.
    assert (Hf : exists sf, cls_f cls output embeds s = (Ok out1, sf) /\
                  same_config cls o0 (self sf) /\
                  s2 = sf /\
                  ((Z.of_nat a <? nls)%Z = true /\ pl1 = pl \/
                   (Z.of_nat a <? nls)%Z = false /\
                   exists y, pl1 = pl ++ [y] /\ recorded cls o0 out1 y)).
    { destruct (Z.of_nat a <? nls)%Z.
      - apply bind_ok in Hiter. destruct Hiter as (o1 & sf & Ef & Er).
        assert (Hcf : same_config cls o0 (self sf)).
        { eapply same_config_trans; [exact Hc|].
          pose proof (f_config cls Hcls output embeds s) as Hs.
          now rewrite Ef in Hs. }
        injection Er as <- <- <-. exists sf.
        split; [exact Ef|]. split; [exact Hcf|]. split; [reflexivity|].
        left. split; reflexivity.
      - apply bind_ok in Hiter. destruct Hiter as (o1 & sf & Ef & Er).
        assert (Hcf : same_config cls o0 (self sf)).
        { eapply same_config_trans; [exact Hc|].
          pose proof (f_config cls Hcls output embeds s) as Hs.
          now rewrite Ef in Hs. }
        apply bind_ok in Er. destruct Er as (o' & s4 & Eg & Er).
        unfold get_self in Eg. injection Eg as <- <-.
        apply bind_ok in Er. destruct Er as (ro & s5 & Ero & Er).
        unfold lift in Ero. injection Ero as Ero <-.
        apply bind_ok in Er. destruct Er as (y & s6 & Ey & Er).
        unfold lift in Ey. injection Ey as Ey <-.
        injection Er as <- <- <-.
        exists sf.
        split; [exact Ef|]. split; [exact Hcf|]. split; [reflexivity|].
        right. split; [reflexivity|].
        exists y. split; [reflexivity|].
        destruct Hcf as (Hro & Hex & _).
        exists ro. split; [congruence|]. rewrite Hex. exact Ey. }
    destruct Hf as (sf & Ef & Hcf & -> & Hcase).
    assert (Hc3 : same_config cls o0 (self s3))
      by (eapply print_once_config; eassumption).
    destruct (IH (S a) out1 pl1 s3 s' acc Hc3 Hrest)
      as (outs & ys & Htr & Hlen & Hacc & Hrec).
    assert (Htraj : trajectory cls (map Z.of_nat (seq a (S len))) embeds
                               output s = (Ok (out1 :: outs), s')).
    { cbn [seq map trajectory].
      rewrite (bind_step _ _ _ _ _ Ef).
      rewrite (bind_step _ _ _ _ _ Hprint).
      rewrite (bind_step _ _ _ _ _ Htr). reflexivity. }
    destruct Hcase as [[Hw ->]|[Hw (y & -> & Hy)]].
    + exists (out1 :: outs), ys.
      split; [exact Htraj|]. split; [cbn [length]; congruence|].
      split; [exact Hacc|].
      apply Z.ltb_lt in Hw.
      replace (Z.to_nat nls - a) with (S (Z.to_nat nls - S a)) by lia.
      exact Hrec.
    + exists (out1 :: outs), (y :: ys). apply Z.ltb_ge in Hw.
      split; [exact Htraj|]. split; [cbn [length]; congruence|].
      split; [rewrite Hacc, <- app_assoc; reflexivity|].
      replace (Z.to_nat nls - a) with 0 by lia.
      replace (Z.to_nat nls - S a) with 0 in Hrec by lia.
      cbn [skipn] in *. constructor; assumption.
Qed.

End LoopFacts.

Section LoopedForwardFacts.
Context {A : Type} `{Scalar A} `{Framework A} {Obj : Type}.
Variable cls : LoopedClass A Obj.
Hypothesis Hcls : LoopedClassOk cls.

Lemma loop_total (o0 : Obj) (embeds : tensor3 A) (nls : Z) (len : nat) :
  supported (cls_loop_func cls o0) ->
  forall (a : nat) (output : tensor3 A) (pl : list (prediction A))
         (s : LSt),
    (Z.to_nat nls < a + len -> readable cls o0) ->
    same_config cls o0 (self s) ->
    exists acc s',
      for_each (map Z.of_nat (seq a len)) (loop_body cls embeds nls)
               (output, pl) s = (Ok acc, s').
Proof.
  intros Hsup. induction len as [|len IH]; intros a output pl s Hrd Hc.
  - cbn. do 2 eexists. reflexivity.
  - cbn [seq map for_each].
    assert (Hsup' : supported (cls_loop_func cls (self s))).
    { destruct Hc as (_ & _ & <-). exact Hsup. }
    destruct (f_total cls Hcls output embeds s Hsup') as (out1 & Ef).
    destruct (cls_f cls output embeds s) as [r sf] eqn:Efs.
    cbn in Ef. subst r.
    assert (Hcf : same_config cls o0 (self sf)).
    { eapply same_config_trans; [exact Hc|].
      pose proof (f_config cls Hcls output embeds s) as Hs.
      now rewrite Efs in Hs. }
    destruct (print_once_ok cls (Z.of_nat a) sf) as (s3 & Ep & _).
    assert (Hc3 : same_config cls o0 (self s3))
      by (eapply print_once_config; eassumption).
    assert (Hbody : exists pl1,
               loop_body cls embeds nls (Z.of_nat a) (output, pl) s
               = (Ok (out1, pl1), s3)).
    { unfold loop_body. destruct (Z.ltb_spec (Z.of_nat a) nls) as [Hw|Hw].
      - exists pl. unfold bind, ret. cbv beta iota.
        rewrite Efs. cbv beta iota. rewrite Ep. reflexivity.
      - destruct Hrd as (ro & Ero & Hex); [lia|].
        destruct (Hex out1) as (y & Ey).
        destruct Hcf as (Hro & Hexq & _).
        exists (pl ++ [y]).
        unfold bind, ret, get_self, lift. cbv beta iota.
        rewrite Efs. cbv beta iota. rewrite <- Hro, Ero. cbv beta iota.
        rewrite <- Hexq, Ey. cbv beta iota. rewrite Ep. reflexivity. }
    destruct Hbody as (pl1 & Hbody).
    rewrite (bind_step _ _ _ _ _ Hbody).
    apply IH; [|exact Hc3]. intros Hlt. apply Hrd. lia.
Qed.

Lemma range_seq (n : Z) : range n = map Z.of_nat (seq 0 (Z.to_nat n)).
Proof. reflexivity. Qed.

(** The result of a call that returns: the states of all iterations, and
    one prediction for each of them from [n_loop_start] on. *)
Lemma looped_forward_trace (xs : tensor3 A) (ys : tensor2 A)
      (n_loop_start n_loops : Z) (s s' : LSt)
      (preds : list (prediction A)) :
  looped_forward cls xs ys n_loop_start n_loops s = (Ok preds, s') ->
  exists zs output0 outs,
    cls_combine cls (self s) xs ys = Ok zs /\
    initial_output cls (cls_read_in cls (self s) zs) s = (Ok output0, s) /\
    trajectory cls (range n_loops) (cls_read_in cls (self s) zs) output0 s
    = (Ok outs, s') /\
    length outs = Z.to_nat n_loops /\
    Forall2 (recorded cls (self s)) (skipn (Z.to_nat n_loop_start) outs)
            preds.
Proof.
  unfold looped_forward. intros E.
  apply bind_ok in E. destruct E as (o & s1 & Eg & E).
  unfold get_self in Eg. injection Eg as <- <-.
  apply bind_ok in E. destruct E as (zs & s1 & Ez & E).
  unfold lift in Ez. injection Ez as Ez <-.
  apply bind_ok in E. destruct E as (output0 & s1 & Ei & E).
  assert (s1 = s).
  { revert Ei. unfold initial_output, bind, get_self, ret, raise.
    repeat match goal with |- context [if ?c then _ else _] =>
                             destruct c end; congruence. }
  subst s1.
  apply bind_ok in E. destruct E as (acc & s2 & Ef & E).
  injection E as <- <-.
  rewrite range_seq in Ef.
  destruct (loop_trace cls Hcls (self s) _ _ _ _ _ _ _ _ _
                       (same_config_refl cls (self s)) Ef)
    as (outs & ys' & Htr & Hlen & Hacc & Hrec).
  exists zs, output0, outs. rewrite Nat.sub_0_r in Hrec.
  cbn [app] in Hacc. rewrite Hacc.
  repeat split; assumption.
Qed.

Lemma looped_forward_length (xs : tensor3 A) (ys : tensor2 A)
      (n_loop_start n_loops : Z) (s s' : LSt)
      (preds : list (prediction A)) :
  (0 <= n_loop_start)%Z -> (0 <= n_loops)%Z ->
  looped_forward cls xs ys n_loop_start n_loops s = (Ok preds, s') ->
  Z.of_nat (length preds) = Z.max 0 (n_loops - n_loop_start).
Proof.
  intros H1 H2 E.
  destruct (looped_forward_trace _ _ _ _ _ _ _ E)
    as (zs & o0 & outs & _ & _ & _ & Hlen & Hrec).
  apply Forall2_length in Hrec. rewrite <- Hrec, length_skipn, Hlen. lia.
Qed.

Lemma looped_forward_total (xs : tensor3 A) (ys : tensor2 A)
      (n_loop_start n_loops : Z) (s : LSt) (zs : tensor3 A) :
  cls_combine cls (self s) xs ys = Ok zs ->
  supported (cls_loop_func cls (self s)) ->
  ((n_loop_start < n_loops)%Z -> readable cls (self s)) ->
  exists preds s',
    looped_forward cls xs ys n_loop_start n_loops s = (Ok preds, s').
Proof.
  intros Ez Hsup Hrd. unfold looped_forward.
  unfold bind at 1. unfold get_self at 1.
  unfold bind at 1. unfold lift at 1. rewrite Ez.
  assert (Ei : exists output0,
             initial_output cls (cls_read_in cls (self s) zs) s
             = (Ok output0, s)).
  { unfold initial_output, bind, get_self, str_in. cbn [existsb].
    destruct Hsup as [-> | ->]; cbn; eexists; reflexivity. }
  destruct Ei as (output0 & Ei). rewrite (bind_step _ _ _ _ _ Ei).
  destruct (loop_total (self s) (cls_read_in cls (self s) zs) n_loop_start
                       (Z.to_nat n_loops) Hsup 0 output0 [] s)
    as (acc & s' & Ef).
  - intros Hlt. apply Hrd. lia.
  - apply same_config_refl.
  - rewrite range_seq, (bind_step _ _ _ _ _ Ef). do 2 eexists. reflexivity.
Qed.

End LoopedForwardFacts.

(** ** The two looped classes *)

Lemma supported_dec (lf : string) :
  {lf = "z=f(x+z)"%string} + {lf = "z=f(x*z)"%string}
  + {~ supported lf}.
Proof.
  destruct (string_dec lf "z=f(x+z)") as [E|N1]; [left; now left|].
  destruct (string_dec lf "z=f(x*z)") as [E|N2]; [left; now right|].
  right. intros [E|E]; contradiction.
Qed.

Section TransformerLoopedFacts.
Context {A : Type} `{Scalar A} `{Framework A}.

Lemma set_tokens_to_trunc_same (self : TransformerModelLooped.t A) :
  TransformerModelLooped.set_tokens_to_trunc
    (TransformerModelLooped.tokens_to_trunc self) self = self.
Proof. now destruct self. Qed.

Lemma mask_input_shape (embeds : tensor3 A) (s : TransformerModelLooped.St A) :
  exists embeds' g',
    TransformerModelLooped.mask_input embeds s
    = (Ok embeds', mkState (self s) (mkWorld g' (stdout (world s)))) /\
    (TransformerModelLooped.apply_input_mask (self s) = false ->
     embeds' = embeds /\ g' = rng (world s)).
Proof.
  unfold TransformerModelLooped.mask_input, bind, get_self.
  destruct s as [o [g out]]. cbn [self world rng stdout].
  destruct (TransformerModelLooped.apply_input_mask o).
  - unfold with_rng, dynamic_mask, bind, call, ret.
    cbn [self world rng stdout].
    destruct (torch_rand_like embeds g) as [r g1].
    destruct (String.eqb _ _); do 2 eexists; (split; [reflexivity|]);
      discriminate.
  - do 2 eexists. split; [reflexivity|]. now split.
Qed.

Lemma mask_state_shape (output : tensor3 A) (s : TransformerModelLooped.St A) :
  exists output' k,
    TransformerModelLooped.mask_state output s
    = (Ok output',
       mkState (TransformerModelLooped.set_tokens_to_trunc k (self s))
               (world s)) /\
    (TransformerModelLooped.truncate_state (self s) = false ->
     output' = output /\ k = TransformerModelLooped.tokens_to_trunc (self s)).
Proof.
  unfold TransformerModelLooped.mask_state, bind, get_self.
  destruct s as [o w]. cbn [self world].
  destruct (TransformerModelLooped.truncate_state o) eqn:Et.
  - destruct (TransformerModelLooped.fixed_truncate o) eqn:Ef; cbn.
    + exists (tensor_mul output
                (assign_prefix_axis1
                   (TransformerModelLooped.tokens_to_trunc o) zero
                   (full3 one (dimB output) (dimN output) (dimD output)))),
        (TransformerModelLooped.tokens_to_trunc o).
      rewrite set_tokens_to_trunc_same. split; [reflexivity|discriminate].
    + do 2 eexists. split; [reflexivity|discriminate].
  - exists output, (TransformerModelLooped.tokens_to_trunc o).
    rewrite set_tokens_to_trunc_same. split; [reflexivity|]. now split.
Qed.

Lemma f_shape (output embeds : tensor3 A) (s : TransformerModelLooped.St A) :
  exists output' embeds' k g',
    TransformerModelLooped.f output embeds s
    = (combine_step (self s) output' embeds',
       mkState (TransformerModelLooped.set_tokens_to_trunc k (self s))
               (mkWorld g' (stdout (world s)))) /\
    (TransformerModelLooped.apply_input_mask (self s) = false ->
     embeds' = embeds /\ g' = rng (world s)) /\
    (TransformerModelLooped.truncate_state (self s) = false ->
     output' = output /\ k = TransformerModelLooped.tokens_to_trunc (self s)).
Proof.
  destruct (mask_input_shape embeds s) as (e' & g' & Em & Hm).
  destruct (mask_state_shape
              output (mkState (self s) (mkWorld g' (stdout (world s)))))
    as (o' & k & Es & Hs).
  cbn [self world] in Es, Hs.
  exists o', e', k, g'. split; [|split; assumption].
  unfold TransformerModelLooped.f.
  rewrite (bind_step _ _ _ _ _ Em), (bind_step _ _ _ _ _ Es).
  unfold bind, get_self, combine_step, ret, raise. cbn [self world].
  cbn [TransformerModelLooped.loop_func TransformerModelLooped.base
       TransformerModelLooped.set_tokens_to_trunc].
  repeat match goal with |- context [if ?c then _ else _] =>
                           destruct c end; reflexivity.
Qed.

Lemma combine_step_supported (self : TransformerModelLooped.t A)
      (output embeds : tensor3 A) :
  (supported (TransformerModelLooped.loop_func self) ->
   exists out, combine_step self output embeds = Ok out) /\
  (forall x, combine_step self output embeds = Raise x ->
             x = NotImplementedError /\
             ~ supported (TransformerModelLooped.loop_func self)).
Proof.
  unfold combine_step.
  destruct (String.eqb_spec (TransformerModelLooped.loop_func self)
                            "z=f(x+z)") as [E1|N1];
    [|destruct (String.eqb_spec (TransformerModelLooped.loop_func self)
                                "z=f(x*z)") as [E2|N2]].
  - split; [eexists; reflexivity|discriminate].
  - split; [eexists; reflexivity|discriminate].
  - split.
    + intros [E|E]; contradiction.
    + intros x [= <-]. split; [reflexivity|]. intros [E|E]; contradiction.
Qed.

Lemma TransformerModelLooped_ok : LoopedClassOk TransformerModelLooped.cls.
Proof.
  constructor.
  - intros o e s. destruct (f_shape o e s) as (o' & e' & k & g' & E & _).
    cbn [cls_f TransformerModelLooped.cls]. rewrite E. repeat split.
  - intros v o. repeat split.
  - intros o e s Hsup.
    destruct (f_shape o e s) as (o' & e' & k & g' & E & _).
    cbn [cls_f TransformerModelLooped.cls]. rewrite E. cbn [fst].
    now apply combine_step_supported.
  - intros o e s x.
    destruct (f_shape o e s) as (o' & e' & k & g' & E & _).
    cbn [cls_f TransformerModelLooped.cls]. rewrite E. cbn [fst].
    apply combine_step_supported.
Qed.

End TransformerLoopedFacts.

Section MambaLoopedFacts.
Context {A : Type} `{Scalar A} `{Framework A}.

Lemma mamba_f_shape (output embeds : tensor3 A) (s : MambaModelLooped.St A) :
  MambaModelLooped.f output embeds s
  = (mamba_combine_step (self s) output embeds, s).
Proof.
  unfold MambaModelLooped.f, mamba_combine_step, bind, get_self, ret, raise.
  repeat match goal with |- context [if ?c then _ else _] =>
                           destruct c end; reflexivity.
Qed.

Lemma mamba_combine_step_supported (self : MambaModelLooped.t A)
      (output embeds : tensor3 A) :
  (supported (MambaModelLooped.loop_func self) ->
   exists out, mamba_combine_step self output embeds = Ok out) /\
  (forall x, mamba_combine_step self output embeds = Raise x ->
             x = NotImplementedError /\
             ~ supported (MambaModelLooped.loop_func self)).
Proof.
  unfold mamba_combine_step.
  destruct (String.eqb_spec (MambaModelLooped.loop_func self)
                            "z=f(x+z)") as [E1|N1];
    [|destruct (String.eqb_spec (MambaModelLooped.loop_func self)
                                "z=f(x*z)") as [E2|N2]].
  - split; [eexists; reflexivity|discriminate].
  - split; [eexists; reflexivity|discriminate].
  - split.
    + intros [E|E]; contradiction.
    + intros x [= <-]. split; [reflexivity|]. intros [E|E]; contradiction.
Qed.

Lemma MambaModelLooped_ok : LoopedClassOk MambaModelLooped.cls.
Proof.
  constructor.
  - intros o e s. cbn [cls_f MambaModelLooped.cls].
    rewrite mamba_f_shape. repeat split.
  - intros v o. repeat split.
  - intros o e s Hsup. cbn [cls_f MambaModelLooped.cls].
    rewrite mamba_f_shape. cbn [fst].
    now apply mamba_combine_step_supported.
  - intros o e s x. cbn [cls_f MambaModelLooped.cls].
    rewrite mamba_f_shape. cbn [fst].
    apply mamba_combine_step_supported.
Qed.

End MambaLoopedFacts.

(** ** C2: one prediction per active iteration *)

Section ActiveIterations.
Context {A : Type} `{Scalar A} `{Framework A} {Obj : Type}.

Lemma looped_forward_records (cls : LoopedClass A Obj)
      (Hcls : LoopedClassOk cls) (s : ObjState A Obj)
      (xs : tensor3 A) (ys : tensor2 A) (n_loop_start n_loops : Z) :
  (0 <= n_loop_start)%Z -> (0 <= n_loops)%Z ->
  records_active_iterations cls (looped_forward cls) s xs ys
                            n_loop_start n_loops.
Proof.
  intros H1 H2. split.
  - intros preds s' E. split.
    + eapply looped_forward_length; eassumption.
    + destruct (looped_forward_trace cls Hcls _ _ _ _ _ _ _ E)
        as (zs & o0 & outs & Ez & _ & Htr & Hlen & Hrec).
      exists zs, o0, outs. repeat split; assumption.
  - intros zs Ez Hsup Hrd.
    eapply looped_forward_total; eassumption.
Qed.

End ActiveIterations.

Section ActiveIterationsClaim.
Context {A : Type} `{Scalar A} `{Framework A}.

(** C2.  For [n_loop_start >= 0] and [n_loops >= 0], a call of [forward] of
    the transformer-looped or of the Mamba-looped model that returns gives
    a list of exactly [max(0, n_loops - n_loop_start)] predictions: one for
    each iteration [idx >= n_loop_start], in increasing order of [idx], read
    out of the state that iteration produced, and none for the iterations
    before [n_loop_start]; on a supported configuration the call returns. *)
Theorem forward_records_active_iterations
        (st : TransformerModelLooped.St A) (sm : MambaModelLooped.St A)
        (xs : tensor3 A) (ys : tensor2 A) (n_loop_start n_loops : Z) :
  (0 <= n_loop_start)%Z -> (0 <= n_loops)%Z ->
  records_active_iterations TransformerModelLooped.cls
                            TransformerModelLooped.forward
                            st xs ys n_loop_start n_loops /\
  records_active_iterations MambaModelLooped.cls MambaModelLooped.forward
                            sm xs ys n_loop_start n_loops.
Proof.
  intros H1 H2. split.
  - apply (looped_forward_records TransformerModelLooped.cls
                                  TransformerModelLooped_ok); assumption.
  - apply (looped_forward_records MambaModelLooped.cls MambaModelLooped_ok);
      assumption.
Qed.

End ActiveIterationsClaim.

Lemma forward_records_active_iterations_witness :
  records_active_iterations
    TransformerModelLooped.cls TransformerModelLooped.forward
    (Concrete.state_of
       (Concrete.looped "z=f(x+z)" "regression" true true false)
       [100; 0; 50; 7]%Z)
    Concrete.xs0 Concrete.ys0 1 3 /\
  records_active_iterations
    MambaModelLooped.cls MambaModelLooped.forward
    (Concrete.state_of (Concrete.mamba_looped "z=f(x*z)" "classification") [])
    Concrete.xs0 Concrete.ys0 1 3.
Proof.
  apply forward_records_active_iterations; lia.
Defined.

(** The same calls evaluated: two predictions for three iterations of which
    the first is a warm-up. *)
Example forward_two_of_three :
  fst (TransformerModelLooped.forward
         Concrete.xs0 Concrete.ys0 1 3
         (Concrete.state_of
            (Concrete.looped "z=f(x+z)" "regression" false false false) []))
  = Ok [Pred2 (mk2 1 2 [[56; 128]]%Z); Pred2 (mk2 1 2 [[84; 192]]%Z)].
Proof. vm_compute. reflexivity. Qed.

(** ** The loop without masks *)

Lemma for_each_pure {S X Acc : Type} (P : S -> Prop)
      (body : X -> Acc -> M S Acc) (step : X -> Acc -> res Acc) :
  (forall x acc s, P s -> exists s', body x acc s = (step x acc, s') /\ P s') ->
  forall l acc s, P s ->
    exists s', for_each l body acc s = (fold_res l step acc, s') /\ P s'.
Proof.
  intros Hbody. induction l as [|x l IH]; intros acc s Hs.
  - exists s. now split.
  - cbn [for_each fold_res].
    destruct (Hbody x acc s Hs) as (s1 & E1 & H1).
    unfold bind. rewrite E1.
    destruct (step x acc) as [acc1|e]; cbn [res_bind].
    + apply IH. exact H1.
    + exists s1. now split.
Qed.

Section TransformerPureLoop.
Context {A : Type} `{Scalar A} `{Framework A}.

Lemma norm_set_print_flag (v : bool) (o : TransformerModelLooped.t A) :
  norm (TransformerModelLooped.set_print_flag v o) = norm o.
Proof. reflexivity. Qed.

Lemma masks_off_norm (o1 o2 : TransformerModelLooped.t A) :
  norm o1 = norm o2 -> masks_off o1 -> masks_off o2.
Proof.
  intros E [Ha Ht]. split.
  - change (TransformerModelLooped.apply_input_mask (norm o2) = false).
    rewrite <- E. exact Ha.
  - change (TransformerModelLooped.truncate_state (norm o2) = false).
    rewrite <- E. exact Ht.
Qed.

Lemma forward_value_norm (o : TransformerModelLooped.t A) :
  forward_value o = forward_value (norm o).
Proof. reflexivity. Qed.

Lemma body_value_norm (o : TransformerModelLooped.t A) :
  body_value o = body_value (norm o).
Proof. reflexivity. Qed.

Lemma f_masks_off (output embeds : tensor3 A)
      (s : TransformerModelLooped.St A) :
  masks_off (self s) ->
  TransformerModelLooped.f output embeds s
  = (combine_step (self s) output embeds, s).
Proof.
  intros [Ha Ht].
  destruct (f_shape output embeds s) as (o' & e' & k & g' & E & Hm & Hs).
  destruct (Hm Ha) as [-> ->]. destruct (Hs Ht) as [-> ->].
  rewrite E, set_tokens_to_trunc_same. now destruct s as [o [g out]].
Qed.

Lemma loop_body_masks_off (o : TransformerModelLooped.t A)
      (s0 : TransformerModelLooped.St A)
      (embeds : tensor3 A) (n_loop_start idx : Z)
      (acc : tensor3 A * list (prediction A))
      (s : TransformerModelLooped.St A) :
  masks_off (self s0) ->
  around s0 s ->
  exists s',
    loop_body TransformerModelLooped.cls embeds n_loop_start idx acc s
    = (body_value (norm (self s0)) embeds n_loop_start idx acc, s') /\
    around s0 s'.
Proof.
  intros Hoff [Hn Hg].
  assert (Hoff' : masks_off (self s))
    by (eapply masks_off_norm; [symmetry; exact Hn|exact Hoff]).
  rewrite <- Hn, <- body_value_norm.
  destruct acc as [output pl]. unfold loop_body, body_value.
  destruct (print_once_ok TransformerModelLooped.cls idx s)
    as (s3 & Ep & Hself).
  assert (Har : around s0 s3).
  { split.
    - destruct Hself as [-> | ->]; [exact Hn|].
      cbn [cls_set_print_flag TransformerModelLooped.cls].
      rewrite norm_set_print_flag. exact Hn.
    - rewrite <- Hg. revert Ep.
      unfold print_once, bind, get_self, print, set_self, modify, ret.
      destruct (negb _); intros [= <-]; reflexivity. }
  cbn [cls_f cls_get_read_out cls_extract TransformerModelLooped.cls].
  unfold bind, ret, get_self, lift.
  destruct (idx <? n_loop_start)%Z; cbv beta iota;
    rewrite (f_masks_off output embeds s Hoff');
    (destruct (combine_step (self s) output embeds) as [out1|e];
     cbn [res_bind]; [|exists s; split; [reflexivity|now split]]).
  - rewrite Ep. exists s3. now split.
  - destruct (TransformerModel.get_read_out
                (TransformerModelLooped.base (self s))) as [ro|e];
      cbn [res_bind]; [|exists s; split; [reflexivity|now split]].
    destruct (TransformerModel.extract _ (ro out1)) as [y|e];
      cbn [res_bind]; [|exists s; split; [reflexivity|now split]].
    rewrite Ep. exists s3. now split.
Qed.

Lemma forward_masks_off (xs : tensor3 A) (ys : tensor2 A)
      (n_loop_start n_loops : Z) (s : TransformerModelLooped.St A) :
  masks_off (self s) ->
  exists s',
    TransformerModelLooped.forward xs ys n_loop_start n_loops s
    = (forward_value (self s) xs ys n_loop_start n_loops, s') /\
    around s s'.
Proof.
  intros Hoff.
  assert (Hrefl : around s s) by now split.
  unfold TransformerModelLooped.forward, looped_forward, forward_value.
  unfold bind at 1. unfold get_self at 1.
  unfold bind at 1. unfold lift at 1.
  cbn [cls_combine cls_read_in TransformerModelLooped.cls].
  destruct (TransformerModel._combine _ xs ys) as [zs|e]; cbn [res_bind];
    [|exists s; now split].
  set (embeds := TransformerModel._read_in
                   (TransformerModelLooped.base (self s)) zs).
  assert (Ei : initial_output TransformerModelLooped.cls embeds s
               = (initial_value (self s) embeds, s)).
  { unfold initial_output, initial_value, bind, get_self, ret, raise.
    cbn [cls_loop_func TransformerModelLooped.cls].
    repeat match goal with |- context [if ?c then _ else _] =>
                             destruct c end; reflexivity. }
  unfold bind at 1. rewrite Ei.
  destruct (initial_value (self s) embeds) as [output0|e]; cbn [res_bind];
    [|exists s; now split].
  destruct (for_each_pure
              (around s)
              (loop_body TransformerModelLooped.cls embeds n_loop_start)
              (body_value (norm (self s)) embeds n_loop_start)
              (fun x acc s1 => loop_body_masks_off (self s) s embeds
                                 n_loop_start x acc s1 Hoff)
              (range n_loops) (output0, []) s Hrefl)
    as (s' & Ef & Har).
  exists s'. split; [|exact Har].
  unfold bind. unfold TransformerModelLooped.St, LSt in *.
  rewrite Ef. rewrite <- body_value_norm.
  destruct (fold_res _ _ _) as [acc|e]; reflexivity.
Qed.

End TransformerPureLoop.

(** ** The identity elements of the two combinations *)

Section IdentityState.
Context {A : Type} `{Scalar A}.
Hypothesis laws : ScalarLaws A.

Lemma zip_with_map_same {T : Type} (g : T -> T -> T) (h : T -> T)
      (l : list T) :
  (forall x, g (h x) x = x) -> zip_with g (map h l) l = l.
Proof.
  intros Hg. induction l as [|x l IH]; cbn; [reflexivity|].
  now rewrite Hg, IH.
Qed.

Lemma zip3_const_identity (op : A -> A -> A) (c : A) (t : tensor3 A) :
  (forall x, op c x = x) -> zip3 op (map3 (fun _ => c) t) t = t.
Proof.
  intros Hop. destruct t as [b n d e]. unfold zip3, map3.
  cbn [dimB dimN dimD elems3]. f_equal.
  apply zip_with_map_same. intros rows.
  apply zip_with_map_same. intros tok.
  apply zip_with_map_same. exact Hop.
Qed.

Lemma add_zeros_like (embeds : tensor3 A) :
  tensor_add (torch_zeros_like embeds) embeds = embeds.
Proof. apply zip3_const_identity, add_zero_l. Qed.

Lemma mul_ones_like (embeds : tensor3 A) :
  tensor_mul (torch_ones_like embeds) embeds = embeds.
Proof. apply zip3_const_identity, mul_one_l. Qed.

End IdentityState.

(** ** C3: a single iteration from the initial state *)

Section SingleIteration.
Context {A : Type} `{Scalar A} `{Framework A} {Obj : Type}.
Variable cls : LoopedClass A Obj.

Lemma initial_output_value (embeds : tensor3 A) (s : LSt) :
  (cls_loop_func cls (self s) = "z=f(x+z)"%string ->
   initial_output cls embeds s = (Ok (torch_zeros_like embeds), s)) /\
  (cls_loop_func cls (self s) = "z=f(x*z)"%string ->
   initial_output cls embeds s = (Ok (torch_ones_like embeds), s)) /\
  (~ supported (cls_loop_func cls (self s)) ->
   initial_output cls embeds s = (Raise NotImplementedError, s)).
Proof.
  unfold initial_output, bind, get_self, str_in, ret, raise.
  cbn [existsb]. rewrite !orb_false_r.
  destruct (String.eqb_spec (cls_loop_func cls (self s)) "z=f(x+z)")
    as [E1|N1];
    [|destruct (String.eqb_spec (cls_loop_func cls (self s)) "z=f(x*z)")
       as [E2|N2]].
  - split; [intros _; reflexivity|].
    split; [intros E; rewrite E1 in E; discriminate|].
    intros N. exfalso. apply N. now left.
  - split; [intros E; contradiction|].
    split; [intros _; reflexivity|].
    intros N. exfalso. apply N. now right.
  - split; [intros E; contradiction|].
    split; [intros E; contradiction|].
    intros _. reflexivity.
Qed.

Lemma single_iteration (xs : tensor3 A) (ys : tensor2 A) (s : LSt)
      (zs output0 output1 : tensor3 A) :
  cls_combine cls (self s) xs ys = Ok zs ->
  initial_output cls (cls_read_in cls (self s) zs) s = (Ok output0, s) ->
  cls_f cls output0 (cls_read_in cls (self s) zs) s = (Ok output1, s) ->
  fst (looped_forward cls xs ys 0 1 s)
  = res_bind (cls_get_read_out cls (self s)) (fun read_out =>
    res_bind (cls_extract cls (self s) (read_out output1)) (fun y =>
    Ok [y])).
Proof.
  intros Ez Ei Ef. unfold looped_forward.
  unfold bind at 1. unfold get_self at 1.
  unfold bind at 1. unfold lift at 1. rewrite Ez.
  unfold bind at 1. rewrite Ei.
  change (range 1) with [0%Z]. cbn [for_each].
  unfold loop_body. change (0 <? 0)%Z with false. cbv beta iota.
  destruct (print_once_ok cls 0 s) as (s3 & Ep & _).
  unfold bind, get_self, lift, ret. rewrite Ef.
  destruct (cls_get_read_out cls (self s)) as [ro|e]; cbn [res_bind];
    [|reflexivity].
  destruct (cls_extract cls (self s) (ro output1)) as [y|e];
    cbn [res_bind]; [|reflexivity].
  rewrite Ep. reflexivity.
Qed.

End SingleIteration.

Section SingleIterationClaim.
Context {A : Type} `{Scalar A} `{Framework A}.
Hypothesis laws : ScalarLaws A.

Lemma combine_step_identity (o : TransformerModelLooped.t A)
      (embeds : tensor3 A) :
  (TransformerModelLooped.loop_func o = "z=f(x+z)"%string ->
   combine_step o (torch_zeros_like embeds) embeds
   = Ok (TransformerModel._backbone (TransformerModelLooped.base o)
                                    Kw_inputs_embeds_only embeds)) /\
  (TransformerModelLooped.loop_func o = "z=f(x*z)"%string ->
   combine_step o (torch_ones_like embeds) embeds
   = Ok (TransformerModel._backbone (TransformerModelLooped.base o)
                                    Kw_inputs_embeds_only embeds)).
Proof.
  unfold combine_step. split; intros ->; cbn.
  - now rewrite add_zeros_like.
  - now rewrite mul_ones_like.
Qed.

Lemma mamba_combine_step_identity (o : MambaModelLooped.t A)
      (embeds : tensor3 A) :
  (MambaModelLooped.loop_func o = "z=f(x+z)"%string ->
   mamba_combine_step o (torch_zeros_like embeds) embeds
   = Ok (MambaModel._backbone (MambaModelLooped.base o) embeds)) /\
  (MambaModelLooped.loop_func o = "z=f(x*z)"%string ->
   mamba_combine_step o (torch_ones_like embeds) embeds
   = Ok (MambaModel._backbone (MambaModelLooped.base o) embeds)).
Proof.
  unfold mamba_combine_step. split; intros ->; cbn.
  - now rewrite add_zeros_like.
  - now rewrite mul_ones_like.
Qed.

(** C3.  With the masks disabled (for the transformer; the Mamba class has
    none), [n_loop_start = 0] and [n_loops = 1], the value of [forward] is
    the one prediction read out of [backbone(embeddings)]: the initial state
    is all zeros for [z=f(x+z)] and all ones for [z=f(x*z)], the identity of
    the combination, so that the combined input of the first iteration is
    the embeddings. *)
Theorem single_loop_is_backbone_readout
        (st : TransformerModelLooped.St A) (sm : MambaModelLooped.St A)
        (xs : tensor3 A) (ys : tensor2 A) :
  TransformerModelLooped.apply_input_mask (self st) = false ->
  TransformerModelLooped.truncate_state (self st) = false ->
  supported (TransformerModelLooped.loop_func (self st)) ->
  supported (MambaModelLooped.loop_func (self sm)) ->
  single_loop_reads_backbone
    TransformerModelLooped.cls TransformerModelLooped.forward
    (TransformerModel._backbone (TransformerModelLooped.base (self st))
                                Kw_inputs_embeds_only)
    st xs ys /\
  single_loop_reads_backbone
    MambaModelLooped.cls MambaModelLooped.forward
    (MambaModel._backbone (MambaModelLooped.base (self sm)))
    sm xs ys.
Proof.
  intros Ha Ht Hst Hsm. split; intros zs Ez embeds.
  - destruct (initial_output_value TransformerModelLooped.cls embeds st)
      as (Iadd & Imul & _).
    destruct (combine_step_identity (self st) embeds) as (Cadd & Cmul).
    split; [|split].
    + intros E. split; [now apply Iadd|apply add_zeros_like, laws].
    + intros E. split; [now apply Imul|apply mul_ones_like, laws].
    + unfold TransformerModelLooped.forward.
      destruct Hst as [E|E].
      * apply (single_iteration TransformerModelLooped.cls xs ys st zs
                                (torch_zeros_like embeds)); auto.
        cbn [cls_f TransformerModelLooped.cls].
        rewrite f_masks_off by (now split).
        f_equal. exact (Cadd E).
      * apply (single_iteration TransformerModelLooped.cls xs ys st zs
                                (torch_ones_like embeds)); auto.
        cbn [cls_f TransformerModelLooped.cls].
        rewrite f_masks_off by (now split).
        f_equal. exact (Cmul E).
  - destruct (initial_output_value MambaModelLooped.cls embeds sm)
      as (Iadd & Imul & _).
    destruct (mamba_combine_step_identity (self sm) embeds) as (Cadd & Cmul).
    split; [|split].
    + intros E. split; [now apply Iadd|apply add_zeros_like, laws].
    + intros E. split; [now apply Imul|apply mul_ones_like, laws].
    + unfold MambaModelLooped.forward.
      destruct Hsm as [E|E].
      * apply (single_iteration MambaModelLooped.cls xs ys sm zs
                                (torch_zeros_like embeds)); auto.
        cbn [cls_f MambaModelLooped.cls].
        rewrite mamba_f_shape. f_equal. exact (Cadd E).
      * apply (single_iteration MambaModelLooped.cls xs ys sm zs
                                (torch_ones_like embeds)); auto.
        cbn [cls_f MambaModelLooped.cls].
        rewrite mamba_f_shape. f_equal. exact (Cmul E).
Qed.

End SingleIterationClaim.

Lemma single_loop_is_backbone_readout_witness :
  single_loop_reads_backbone
    TransformerModelLooped.cls TransformerModelLooped.forward
    (fun t => Concrete.succ_layer t)
    (Concrete.state_of
       (Concrete.looped "z=f(x+z)" "regression" false false false) [])
    Concrete.xs0 Concrete.ys0 /\
  single_loop_reads_backbone
    MambaModelLooped.cls MambaModelLooped.forward
    (fun t => Concrete.succ_layer t)
    (Concrete.state_of (Concrete.mamba_looped "z=f(x*z)" "regression") [])
    Concrete.xs0 Concrete.ys0.
Proof.
  apply (single_loop_is_backbone_readout
           ScalarLaws_Z
           (Concrete.state_of
              (Concrete.looped "z=f(x+z)" "regression" false false false) [])
           (Concrete.state_of
              (Concrete.mamba_looped "z=f(x*z)" "regression") [])
           Concrete.xs0 Concrete.ys0).
  - reflexivity.
  - reflexivity.
  - left. reflexivity.
  - right. reflexivity.
Defined.

(** ** C8: an unsupported loop function *)

Section UnsupportedLoopFunc.
Context {A : Type} `{Scalar A} `{Framework A}.

Lemma looped_forward_unsupported {Obj : Type} (cls : LoopedClass A Obj)
      (xs : tensor3 A) (ys : tensor2 A) (n_loop_start n_loops : Z)
      (s : ObjState A Obj) (zs : tensor3 A) :
  cls_combine cls (self s) xs ys = Ok zs ->
  ~ supported (cls_loop_func cls (self s)) ->
  looped_forward cls xs ys n_loop_start n_loops s
  = (Raise NotImplementedError, s).
Proof.
  intros Ez Hns. unfold looped_forward.
  unfold bind at 1. unfold get_self at 1.
  unfold bind at 1. unfold lift at 1. rewrite Ez.
  destruct (initial_output_value cls (cls_read_in cls (self s) zs) s)
    as (_ & _ & Ei).
  unfold bind at 1. rewrite (Ei Hns). reflexivity.
Qed.

(** C8.  When [loop_func] is neither ["z=f(x+z)"] nor ["z=f(x*z)"],
    [forward] of both looped classes raises [NotImplementedError] at the
    choice of the initial state, before any iteration (the object, the
    generator and the output are as they were), and a call of [f] raises
    [NotImplementedError] at its combination step. *)
Theorem unsupported_loop_func_raises
        (st : TransformerModelLooped.St A) (sm : MambaModelLooped.St A)
        (xs : tensor3 A) (ys : tensor2 A) (n_loop_start n_loops : Z)
        (zt zm output embeds : tensor3 A) :
  ~ supported (TransformerModelLooped.loop_func (self st)) ->
  ~ supported (MambaModelLooped.loop_func (self sm)) ->
  TransformerModel._combine (TransformerModelLooped.base (self st)) xs ys
  = Ok zt ->
  MambaModel._combine (MambaModelLooped.base (self sm)) xs ys = Ok zm ->
  TransformerModelLooped.forward xs ys n_loop_start n_loops st
  = (Raise NotImplementedError, st) /\
  fst (TransformerModelLooped.f output embeds st) = Raise NotImplementedError /\
  MambaModelLooped.forward xs ys n_loop_start n_loops sm
  = (Raise NotImplementedError, sm) /\
  MambaModelLooped.f output embeds sm = (Raise NotImplementedError, sm).
Proof.
  intros Nt Nm Et Em. repeat split.
  - exact (looped_forward_unsupported TransformerModelLooped.cls xs ys
             n_loop_start n_loops st zt Et Nt).
  - destruct (f_shape output embeds st) as (o' & e' & k & g' & E & _).
    rewrite E. cbn [fst]. unfold combine_step.
    destruct (String.eqb_spec (TransformerModelLooped.loop_func (self st))
                              "z=f(x+z)") as [E1|N1];
      [exfalso; apply Nt; now left|].
    destruct (String.eqb_spec (TransformerModelLooped.loop_func (self st))
                              "z=f(x*z)") as [E2|N2];
      [exfalso; apply Nt; now right|].
    reflexivity.
  - exact (looped_forward_unsupported MambaModelLooped.cls xs ys
             n_loop_start n_loops sm zm Em Nm).
  - rewrite mamba_f_shape. unfold mamba_combine_step.
    destruct (String.eqb_spec (MambaModelLooped.loop_func (self sm))
                              "z=f(x+z)") as [E1|N1];
      [exfalso; apply Nm; now left|].
    destruct (String.eqb_spec (MambaModelLooped.loop_func (self sm))
                              "z=f(x*z)") as [E2|N2];
      [exfalso; apply Nm; now right|].
    reflexivity.
Qed.

End UnsupportedLoopFunc.

Lemma unsupported_loop_func_raises_witness :
  let st := Concrete.state_of
              (Concrete.looped "z=f(x-z)" "regression" true true false)
              [100; 0; 50; 7]%Z in
  let sm := Concrete.state_of
              (Concrete.mamba_looped "z=f(z)" "regression") [] in
  TransformerModelLooped.forward Concrete.xs0 Concrete.ys0 1 3 st
  = (Raise NotImplementedError, st) /\
  fst (TransformerModelLooped.f Concrete.xs0 Concrete.xs0 st)
  = Raise NotImplementedError /\
  MambaModelLooped.forward Concrete.xs0 Concrete.ys0 1 3 sm
  = (Raise NotImplementedError, sm) /\
  MambaModelLooped.f Concrete.xs0 Concrete.xs0 sm
  = (Raise NotImplementedError, sm).
Proof.
  intros st sm.
  apply (unsupported_loop_func_raises
           st sm Concrete.xs0 Concrete.ys0 1 3
           (mk3 1 4 3 [[[1; 2; 3]; [7; 0; 0]; [4; 5; 6]; [8; 0; 0]]]%Z)
           (mk3 1 4 3 [[[1; 2; 3]; [7; 0; 0]; [4; 5; 6]; [8; 0; 0]]]%Z)
           Concrete.xs0 Concrete.xs0).
  - intros [E|E]; discriminate E.
  - intros [E|E]; discriminate E.
  - reflexivity.
  - reflexivity.
Defined.

(** ** C9: no randomness without masks *)

Section Determinism.
Context {A : Type} `{Scalar A} `{Framework A}.

(** C9.  With [apply_input_mask = False] and [truncate_state = False], the
    value of [forward] of the transformer-looped model is a function of the
    weights, the configuration and the arguments alone: two calls from
    states with the same object up to [print_flag] and [tokens_to_trunc],
    whatever their generators and outputs, have the same result; the call
    leaves the generator as it was, and calling again after it gives the
    same result once more. *)
Theorem forward_deterministic
        (s1 s2 : TransformerModelLooped.St A)
        (xs : tensor3 A) (ys : tensor2 A) (n_loop_start n_loops : Z) :
  TransformerModelLooped.apply_input_mask (self s1) = false ->
  TransformerModelLooped.truncate_state (self s1) = false ->
  norm (self s2) = norm (self s1) ->
  let call := TransformerModelLooped.forward xs ys n_loop_start n_loops in
  fst (call s1) = fst (call s2) /\
  rng (world (snd (call s1))) = rng (world s1) /\
  fst (call (snd (call s1))) = fst (call s1).
Proof.
  intros Ha Ht En call.
  assert (Hoff1 : masks_off (self s1)) by now split.
  assert (Hoff2 : masks_off (self s2))
    by (eapply masks_off_norm; [symmetry; exact En|exact Hoff1]).
  destruct (forward_masks_off xs ys n_loop_start n_loops s1 Hoff1)
    as (s1' & E1 & Hn1 & Hg1).
  destruct (forward_masks_off xs ys n_loop_start n_loops s2 Hoff2)
    as (s2' & E2 & _).
  assert (Hoff1' : masks_off (self s1'))
    by (eapply masks_off_norm; [symmetry; exact Hn1|exact Hoff1]).
  destruct (forward_masks_off xs ys n_loop_start n_loops s1' Hoff1')
    as (s1'' & E3 & _).
  unfold call. rewrite E1, E2. cbn [fst snd]. rewrite E3. cbn [fst].
  rewrite (forward_value_norm (self s1)), (forward_value_norm (self s2)),
    (forward_value_norm (self s1')), En, Hn1.
  repeat split. exact Hg1.
Qed.

End Determinism.

Lemma forward_deterministic_witness :
  let o := Concrete.looped "z=f(x+z)" "regression" false false false in
  let s1 := mkState o (mkWorld [100; 0; 50; 7]%Z []) in
  let s2 := mkState (TransformerModelLooped.set_print_flag true o)
                    (mkWorld [3; 1; 4]%Z [0%Z]) in
  let call := TransformerModelLooped.forward Concrete.xs0 Concrete.ys0 1 3 in
  fst (call s1) = fst (call s2) /\
  rng (world (snd (call s1))) = rng (world s1) /\
  fst (call (snd (call s1))) = fst (call s1).
Proof.
  intros o s1 s2.
  apply (forward_deterministic s1 s2 Concrete.xs0 Concrete.ys0 1 3).
  - reflexivity.
  - reflexivity.
  - reflexivity.
Defined.

(** ** C5 and C10: the weight-tied model *)

Section Tying.
Context {A : Type} `{Scalar A} `{Framework A}.

Lemma fold_left_apply_times {X : Type} (layer : Layer A) (l : list X)
      (x : tensor3 A) :
  fold_left (fun output (_ : X) => layer output) l x
  = apply_times (length l) layer x.
Proof.
  revert x; induction l as [|i l IH]; intros x; cbn; [reflexivity|].
  apply IH.
Qed.

Lemma range_length (n : Z) : length (range n) = Z.to_nat n.
Proof. unfold range. now rewrite length_map, length_seq. Qed.

Lemma tying_forward_unfolds (self : TransformerModelTying.t)
      (xs : tensor3 A) (ys : tensor2 A) (add_inputs_embeds : bool) :
  TransformerModelTying.forward self xs ys add_inputs_embeds
  = res_bind (TransformerModel._combine self xs ys) (fun zs =>
    res_bind (TransformerModel.get_read_out self) (fun read_out =>
    slice_axis1_select0
      (TransformerModel.ind self) (TransformerModel.freq self)
      (read_out
         (apply_times (Z.to_nat (TransformerModel.n_layer self))
                      (TransformerModel._backbone self Kw_inputs_embeds_only)
                      (TransformerModel._read_in self zs))))).
Proof.
  unfold TransformerModelTying.forward.
  destruct (TransformerModel._combine self xs ys) as [zs|e];
    cbn [res_bind]; [|reflexivity].
  unfold TransformerModelTying.f.
  now rewrite fold_left_apply_times, range_length.
Qed.

(** C5.  The weight-tied model constructed with [n_layer = k] holds a
    backbone built from a configuration of one layer, and its [forward]
    computes the read-in embeddings, applies that backbone [k] times, each
    application to the output of the one before and to nothing else, and
    applies the read-out once, to the last output. *)
Theorem tying_is_self_composition
        (n_dims n_positions n_embd k n_head : Z) (g : RNG) :
  exists self g' gb read_out single,
    TransformerModelTying.__init__ n_dims n_positions n_embd k n_head g
    = (Ok self, g') /\
    single
    = fst (GPT2Model (mkGPT2Config (2 * n_positions + 1) 1 n_head n_embd
                                   float_zero true) gb)
          Kw_inputs_embeds_only /\
    TransformerModel._backbone self Kw_inputs_embeds_only = single /\
    TransformerModel._read_out self = Some read_out /\
    TransformerModel.n_layer self = k /\
    forall xs ys add_inputs_embeds,
      TransformerModelTying.forward self xs ys add_inputs_embeds
      = res_bind (TransformerModel._combine self xs ys)
                 (tying_spec (TransformerModel._read_in self) single read_out
                             (Z.to_nat k)).
Proof.
  unfold TransformerModelTying.__init__, TransformerModel.__init__.
  unfold bind, call, ret.
  destruct (nn_Linear n_dims n_embd g) as [ri g1].
  destruct (GPT2Model _ g1) as [bb g2].
  change (String.eqb "regression" "regression") with true. cbv beta iota.
  destruct (nn_Linear n_embd 1 g2) as [ro g3].
  cbn [TransformerModel.configuration block_size cfg_n_head cfg_n_embd
       cfg_dropout cfg_bias].
  destruct (GPT2Model
              (mkGPT2Config (Z.of_nat 2 * n_positions + 1) 1 n_head n_embd
                            float_zero true) g3) as [single g4] eqn:Eb.
  exists (TransformerModel.mk
            2 0 (mkGPT2Config (Z.of_nat 2 * n_positions + 1) 1 n_head n_embd
                              float_zero true)
            n_positions n_dims n_embd k "regression" ri single (Some ro)
            false), g4, g3, ro, (single Kw_inputs_embeds_only).
  split; [reflexivity|].
  split; [change (Z.of_nat 2) with 2%Z in Eb; now rewrite Eb|].
  split; [reflexivity|]. split; [reflexivity|]. split; [reflexivity|].
  intros xs ys a. rewrite tying_forward_unfolds. reflexivity.
Qed.

(** C10.  [forward] of the weight-tied model does not use its argument
    [add_inputs_embeds]: the backbone is called with [inputs_embeds] alone
    at every application, the value of the call is an expression in which
    the argument does not occur, and two calls that differ in it alone
    return the same. *)
Theorem tying_ignores_add_inputs_embeds
        (self : TransformerModelTying.t) (xs : tensor3 A) (ys : tensor2 A)
        (a1 a2 : bool) :
  TransformerModelTying.forward self xs ys a1
  = TransformerModelTying.forward self xs ys a2 /\
  TransformerModelTying.forward self xs ys a1
  = res_bind (TransformerModel._combine self xs ys) (fun zs =>
    res_bind (TransformerModel.get_read_out self) (fun read_out =>
    slice_axis1_select0
      (TransformerModel.ind self) (TransformerModel.freq self)
      (read_out
         (apply_times (Z.to_nat (TransformerModel.n_layer self))
                      (TransformerModel._backbone self Kw_inputs_embeds_only)
                      (TransformerModel._read_in self zs))))).
Proof.
  split.
  - rewrite (tying_forward_unfolds self xs ys a1).
    rewrite (tying_forward_unfolds self xs ys a2).
    reflexivity.
  - apply tying_forward_unfolds.
Qed.

End Tying.

(** ** C4: an unsupported prediction type *)

Section UnsupportedPredType.
Context {A : Type} `{Scalar A} `{Framework A}.

(** C4, as the code has it.  For a [pred_type] other than ["regression"] and
    ["classification"] the constructors of [TransformerModel] and of
    [MambaModel] do not raise: they return a model that records the
    [pred_type] and has no [_read_out]. *)
Theorem unsupported_pred_type_constructs
        (n_dims n_positions n_embd n_layer n_head d_state expand d_conv : Z)
        (pred_type : string) (g : RNG) :
  pred_type <> "regression"%string ->
  pred_type <> "classification"%string ->
  (exists self g',
      TransformerModel.__init__ n_dims n_positions n_embd n_layer n_head
                                pred_type g = (Ok self, g') /\
      TransformerModel._pred_type self = pred_type /\
      TransformerModel._read_out self = None) /\
  (exists self g',
      MambaModel.__init__ n_dims n_positions n_embd n_layer d_state expand
                          d_conv pred_type g = (Ok self, g') /\
      MambaModel._pred_type self = pred_type /\
      MambaModel._read_out self = None).
Proof.
  intros N1 N2. apply String.eqb_neq in N1, N2. split.
  - unfold TransformerModel.__init__, bind, call, ret.
    destruct (nn_Linear n_dims n_embd g) as [ri g1].
    destruct (GPT2Model _ g1) as [bb g2].
    rewrite N1, N2. do 2 eexists. repeat split.
  - unfold MambaModel.__init__, bind, call, ret.
    destruct (nn_Linear n_dims n_embd g) as [ri g1].
    destruct (Mamba _ g1) as [bb g2].
    rewrite N1, N2. do 2 eexists. repeat split.
Qed.

(** The branch of [forward] that raises [NotImplementedError] is behind
    the read of [_read_out]: on a model without it the call stops there. *)
Lemma forward_without_read_out (self : TransformerModel.t A)
      (xs : tensor3 A) (ys : tensor2 A) (zs : tensor3 A) (a : bool) :
  TransformerModel._read_out self = None ->
  TransformerModel._combine self xs ys = Ok zs ->
  TransformerModel.forward self xs ys a = Raise AttributeError.
Proof.
  intros Hro Ez. unfold TransformerModel.forward.
  rewrite Ez. cbn [res_bind]. unfold TransformerModel.get_read_out.
  now rewrite Hro.
Qed.

End UnsupportedPredType.

Lemma unsupported_pred_type_constructs_witness :
  (exists self g',
      TransformerModel.__init__ 3 2 4 12 4 "ranking" [] = (Ok self, g') /\
      TransformerModel._pred_type self = "ranking"%string /\
      TransformerModel._read_out self = None) /\
  (exists self g',
      MambaModel.__init__ 3 2 4 12 16 2 4 "ranking" [] = (Ok self, g') /\
      MambaModel._pred_type self = "ranking"%string /\
      MambaModel._read_out self = None).
Proof.
  apply (@unsupported_pred_type_constructs
           Z Concrete.framework 3 2 4 12 4 16 2 4 "ranking" []).
  - discriminate.
  - discriminate.
Defined.

(** Constructing a transformer model with [pred_type = "ranking"] returns a
    model and does not raise [NotImplementedError]; [forward] on it raises
    [AttributeError]. *)
Lemma unsupported_pred_type_counterexample :
  fst (TransformerModel.__init__ 3 2 4 12 4 "ranking" [])
  = Ok (Concrete.transformer "ranking") /\
  fst (TransformerModel.__init__ 3 2 4 12 4 "ranking" [])
  <> Raise NotImplementedError /\
  TransformerModel.forward (Concrete.transformer "ranking")
                           Concrete.xs0 Concrete.ys0 false
  = Raise AttributeError.
Proof.
  rewrite Concrete_transformer_built. cbn [fst].
  split; [reflexivity|]. split; [discriminate|]. reflexivity.
Qed.

(** ** C6: the input mask *)

Section MapZipFacts.
Context {T U W V : Type}.

Lemma zip_with_map_self (g : U -> T -> V) (h : T -> U) (f : T -> V)
      (l : list T) :
  (forall x, g (h x) x = f x) -> zip_with g (map h l) l = map f l.
Proof.
  intros Hg. induction l as [|x l IH]; cbn; [reflexivity|].
  now rewrite Hg, IH.
Qed.

Lemma zip_with_map_both (g : U -> W -> V) (h : T -> U) (k : T -> W)
      (f : T -> V) (l : list T) :
  (forall x, g (h x) (k x) = f x) ->
  zip_with g (map h l) (map k l) = map f l.
Proof.
  intros Hg. induction l as [|x l IH]; cbn; [reflexivity|].
  now rewrite Hg, IH.
Qed.

End MapZipFacts.

Section InputMask.
Context {A : Type} `{Scalar A}.

Lemma zip3_map3_self {T U V : Type} (g : U -> T -> V) (h : T -> U)
      (t : tensor3 T) :
  zip3 g (map3 h t) t = map3 (fun x => g (h x) x) t.
Proof.
  unfold zip3, map3. cbn [dimB dimN dimD elems3]. f_equal.
  apply zip_with_map_self. intros rows.
  apply zip_with_map_self. intros tok.
  apply zip_with_map_self. reflexivity.
Qed.

Lemma zip3_map3_both {T U W V : Type} (g : U -> W -> V) (h : T -> U)
      (k : T -> W) (t : tensor3 T) :
  zip3 g (map3 h t) (map3 k t) = map3 (fun x => g (h x) (k x)) t.
Proof.
  unfold zip3, map3. cbn [dimB dimN dimD elems3]. f_equal.
  apply zip_with_map_both. intros rows.
  apply zip_with_map_both. intros tok.
  apply zip_with_map_both. reflexivity.
Qed.

(** What the remapping of the multiplicative case does: every element
    that is zero becomes one, whether the mask or the input made it
    zero. *)
Lemma remap_zero_to_one (embeds : tensor3 A) :
  torch_where (map3 eq_zero embeds) (torch_ones_like embeds) embeds
  = map3 (fun x => if eq_zero x then one else x) embeds.
Proof.
  unfold torch_where, torch_ones_like.
  rewrite (zip3_map3_self (fun x y => (x, y)) (fun _ => one) embeds).
  rewrite (zip3_map3_both
             (fun (c : bool) (xy : A * A) => if c then fst xy else snd xy)
             eq_zero (fun x => (one, x)) embeds).
  reflexivity.
Qed.

End InputMask.

(** C6, at an input where the code departs from it.  The embeddings are
    [[0, 5]] and the generator returns 0.5 twice, so that with [p = 0.15]
    the mask keeps both elements and [dynamic_mask] returns the embeddings
    as they are; with [loop_func = "z=f(x*z)"] the masking step of [f] still
    turns the first element, which the mask did not zero, into 1. *)
Theorem input_mask_remaps_unmasked_zero :
  let embeds := mk3 1 1 2 [[[0; 5]]]%Z in
  let p := (15 # 100)%Q in
  let s := Concrete.state_of
             (Concrete.looped "z=f(x*z)" "regression" true false false)
             [50; 50]%Z in
  map3 (fun x => tensor_ge x p) (fst (Concrete.rand_like embeds [50; 50]%Z))
  = mk3 1 1 2 [[[true; true]]] /\
  fst (dynamic_mask embeds p [50; 50]%Z) = Ok embeds /\
  fst (TransformerModelLooped.mask_input embeds s)
  = Ok (mk3 1 1 2 [[[1; 5]]]%Z).
Proof. vm_compute. repeat split. Qed.

(** ** C7: the truncation of the state *)

Section RepeatFacts.
Context {T : Type}.

Lemma firstn_repeat_min (x : T) (k n : nat) :
  firstn k (repeat x n) = repeat x (Nat.min k n).
Proof.
  revert n; induction k as [|k IH]; intros [|n]; cbn; try reflexivity.
  now rewrite IH.
Qed.

Lemma skipn_repeat_sub (x : T) (k n : nat) :
  skipn k (repeat x n) = repeat x (n - k).
Proof.
  revert n; induction k as [|k IH]; intros [|n]; cbn; try reflexivity.
  apply IH.
Qed.

Lemma nth_repeat_app (x y d : T) (a b i : nat) :
  i < a + b ->
  nth i (repeat x a ++ repeat y b) d = if Nat.ltb i a then x else y.
Proof.
  intros Hi. destruct (Nat.ltb_spec i a) as [Hlt|Hge].
  - rewrite app_nth1 by (rewrite repeat_length; exact Hlt).
    apply nth_repeat_lt. exact Hlt.
  - rewrite app_nth2 by (rewrite repeat_length; exact Hge).
    rewrite repeat_length. apply nth_repeat_lt. lia.
Qed.

End RepeatFacts.

Section Truncation.
Context {A : Type} `{Scalar A} `{Framework A}.
Hypothesis laws : ScalarLaws A.

(** The mask [torch.ones((B, n, d))] after [mask[:, :k, :] = 0]. *)
Lemma prefix_mask_rows (k : Z) (B n d : nat) :
  elems3 (assign_prefix_axis1 k zero (full3 one B n d))
  = repeat (repeat (repeat zero d) (slice_stop n k)
            ++ repeat (repeat one d) (n - slice_stop n k)) B.
Proof.
  unfold assign_prefix_axis1, full3. cbn [dimB dimN dimD elems3].
  rewrite map_repeat. f_equal.
  rewrite firstn_repeat_min, skipn_repeat_sub, !map_repeat.
  f_equal. f_equal. unfold slice_stop.
  destruct (k <? 0)%Z; lia.
Qed.

Lemma slice_stop_nonneg (n : nat) (k : Z) (i : nat) :
  (0 <= k)%Z -> i < n ->
  Nat.ltb i (slice_stop n k) = (Z.of_nat i <? k)%Z.
Proof.
  intros Hk Hi. unfold slice_stop.
  destruct (Z.ltb_spec k 0) as [Hneg|_]; [lia|].
  destruct (Nat.ltb_spec i (Nat.min (Z.to_nat k) n)),
           (Z.ltb_spec (Z.of_nat i) k); try reflexivity; lia.
Qed.

Lemma truncated_element (k : Z) (output : tensor3 A) (b i j : nat) :
  wf3 output -> (0 <= k)%Z ->
  b < dimB output -> i < dimN output -> j < dimD output ->
  get3 zero
       (tensor_mul output
          (assign_prefix_axis1
             k zero (full3 one (dimB output) (dimN output) (dimD output))))
       b i j
  = if (Z.of_nat i <? k)%Z then zero else get3 zero output b i j.
Proof.
  intros [Lo Fo] Hk Hb Hi Hj. unfold get3, tensor_mul, zip3.
  cbn [elems3]. rewrite prefix_mask_rows.
  rewrite Forall_forall in Fo.
  assert (Wb : wf_rows (dimN output) (dimD output)
                       (nth b (elems3 output) []))
    by (apply Fo, nth_In; lia).
  destruct Wb as [Lb Fb]. rewrite Forall_forall in Fb.
  assert (Lt : length (nth i (nth b (elems3 output) []) []) = dimD output)
    by (apply Fb, nth_In; lia).
  set (stop := slice_stop (dimN output) k).
  assert (Hstop : stop <= dimN output).
  { unfold stop, slice_stop. destruct (k <? 0)%Z; lia. }
  rewrite (zip_with_nth _ _ _ _ [] [] [])
    by (rewrite ?repeat_length; lia).
  rewrite nth_repeat_lt by lia.
  rewrite (zip_with_nth _ _ _ _ [] [] [])
    by (rewrite ?length_app, ?repeat_length; lia).
  rewrite nth_repeat_app by lia.
  rewrite (zip_with_nth _ _ _ _ zero zero zero);
    [|lia|destruct (Nat.ltb i stop); rewrite repeat_length; lia].
  unfold stop. rewrite (slice_stop_nonneg _ _ _ Hk Hi).
  destruct (Z.of_nat i <? k)%Z; rewrite nth_repeat_lt by lia.
  - apply mul_zero_r.
  - apply mul_one_r.
Qed.

(** C7.  With [truncate_state] enabled, [f] zeroes the first [K] token
    positions of the state, in every batch and every embedding dimension,
    and leaves the other positions as they are, before it combines the state
    with the embeddings; [K] is [tokens_to_trunc] when [fixed_truncate] is
    set, whatever the number of tokens, and otherwise
    [ceil(n_tokens * p_state)], computed from the state at hand and stored
    in [tokens_to_trunc] at every call.  [K] is a count: [0 <= K]. *)
Theorem truncation_zeroes_prefix
        (s : TransformerModelLooped.St A) (output embeds : tensor3 A) :
  TransformerModelLooped.truncate_state (self s) = true ->
  wf3 output ->
  let K :=
    if TransformerModelLooped.fixed_truncate (self s)
    then TransformerModelLooped.tokens_to_trunc (self s)
    else math_ceil_mul (Z.of_nat (dimN output))
                       (TransformerModelLooped.p_state (self s)) in
  (0 <= K)%Z ->
  exists output',
    TransformerModelLooped.mask_state output s
    = (Ok output',
       mkState (TransformerModelLooped.set_tokens_to_trunc K (self s))
               (world s)) /\
    (dimB output', dimN output', dimD output')
    = (dimB output, dimN output, dimD output) /\
    (forall b i j,
        b < dimB output -> i < dimN output -> j < dimD output ->
        get3 zero output' b i j
        = if (Z.of_nat i <? K)%Z then zero else get3 zero output b i j) /\
    exists embeds',
      fst (TransformerModelLooped.f output embeds s)
      = combine_step (self s) output' embeds'.
Proof.
  intros Ht Wo K HK.
  set (output' :=
         tensor_mul output
           (assign_prefix_axis1
              K zero (full3 one (dimB output) (dimN output) (dimD output)))).
  assert (Es : forall w,
             TransformerModelLooped.mask_state output (mkState (self s) w)
             = (Ok output',
                mkState (TransformerModelLooped.set_tokens_to_trunc K (self s))
                        w)).
  { intros w. unfold TransformerModelLooped.mask_state, bind, get_self.
    cbn [self world]. rewrite Ht.
    subst output' K.
    destruct (TransformerModelLooped.fixed_truncate (self s)) eqn:Ef;
      cbn [negb]; unfold set_self, modify, ret; cbn [self world].
    - rewrite set_tokens_to_trunc_same. reflexivity.
    - reflexivity. }
  exists output'. split; [|split; [|split]].
  - specialize (Es (world s)). destruct s as [o w]. exact Es.
  - reflexivity.
  - intros b i j Hb Hi Hj. apply truncated_element; assumption.
  - destruct (mask_input_shape embeds s) as (e' & g' & Em & _).
    exists e'. unfold TransformerModelLooped.f.
    rewrite (bind_step _ _ _ _ _ Em), (bind_step _ _ _ _ _ (Es _)).
    unfold bind, get_self, combine_step, ret, raise. cbn [self world].
    cbn [TransformerModelLooped.loop_func TransformerModelLooped.base
         TransformerModelLooped.set_tokens_to_trunc].
    repeat match goal with |- context [if ?c then _ else _] =>
                             destruct c end; reflexivity.
Qed.

End Truncation.

Lemma truncation_zeroes_prefix_witness :
  let s := Concrete.state_of
             (Concrete.looped "z=f(x+z)" "regression" false true false) [] in
  let output := mk3 1 4 2 [[[1; 2]; [3; 4]; [5; 6]; [7; 8]]]%Z in
  exists output',
    TransformerModelLooped.mask_state output s
    = (Ok output',
       mkState (TransformerModelLooped.set_tokens_to_trunc 2 (self s))
               (world s)) /\
    (dimB output', dimN output', dimD output') = (1, 4, 2) /\
    (forall b i j,
        b < 1 -> i < 4 -> j < 2 ->
        get3 0%Z output' b i j
        = if (Z.of_nat i <? 2)%Z then 0%Z else get3 0%Z output b i j) /\
    exists embeds',
      fst (TransformerModelLooped.f output Concrete.xs0 s)
      = combine_step (self s) output' embeds'.
Proof.
  intros s output.
  apply (truncation_zeroes_prefix ScalarLaws_Z s output Concrete.xs0).
  - reflexivity.
  - split; [reflexivity|]. repeat constructor.
  - vm_compute. discriminate.
Defined.

(** With a fixed count the same four tokens lose their first three
    positions, and a count beyond the sequence zeroes all of it. *)
Example truncation_fixed_count :
  let o := TransformerModelLooped.set_tokens_to_trunc
             3 (Concrete.looped "z=f(x+z)" "regression" false true true) in
  let o9 := TransformerModelLooped.set_tokens_to_trunc 9 o in
  let output := mk3 1 4 2 [[[1; 2]; [3; 4]; [5; 6]; [7; 8]]]%Z in
  fst (TransformerModelLooped.mask_state output (Concrete.state_of o []))
  = Ok (mk3 1 4 2 [[[0; 0]; [0; 0]; [0; 0]; [7; 8]]]%Z) /\
  fst (TransformerModelLooped.mask_state output (Concrete.state_of o9 []))
  = Ok (mk3 1 4 2 [[[0; 0]; [0; 0]; [0; 0]; [0; 0]]]%Z).
Proof. vm_compute. split; reflexivity. Qed.

(** * Further properties of the code *)

(** ** The combiner on other inputs *)

Section ChunkFacts.
Context {T : Type}.




End ChunkFacts.

Section CombineOtherInputs.
Context {A : Type} `{Scalar A} `{Framework A}.





End CombineOtherInputs.



(** ** The predictions of the single-pass models *)

Section StrideFacts.
Context {T : Type}.

Lemma stride_nth (step : nat) (l : list T) :
  forall (k i : nat) (d : T),
    nth i (stride (S step) k l) d = nth (k + i * S step) l d.
Proof.
  induction l as [|x l IH]; intros k i d.
  - cbn. now destruct i, (k + _).
  - cbn [stride]. destruct k as [|k].
    + destruct i as [|i]; [reflexivity|].
      cbn [nth]. rewrite IH.
      replace (0 + S i * S step) with (S (S step - 1 + i * S step)) by lia.
      reflexivity.
    + rewrite IH. reflexivity.
Qed.

Lemma stride_two_length (m : nat) :
  forall l : list T, length l = 2 * m -> length (stride 2 0 l) = m.
Proof.
  induction m as [|m IH]; intros l Hl.
  - destruct l; [reflexivity|discriminate].
  - destruct l as [|x [|y l]]; cbn in Hl; try lia.
    cbn [stride Nat.sub length]. f_equal. apply IH. lia.
Qed.

End StrideFacts.

Lemma nth_map_lt {T U : Type} (g : T -> U) (l : list T) (i : nat)
      (d : T) (d' : U) :
  i < length l -> nth i (map g l) d' = g (nth i l d).
Proof.
  intros Hi. rewrite (nth_indep _ d' (g d)) by (now rewrite length_map).
  apply map_nth.
Qed.

Section PredictionPositions.
Context {A : Type} `{Scalar A} `{Framework A}.

Lemma combine_body_error (freq : nat) (xs : tensor3 A) (ys : tensor2 A)
      (e : exn) :
  combine_body freq xs ys = Raise e -> e = RuntimeError.
Proof.
  unfold combine_body, view3, torch_zeros, torch_cat_axis2,
    torch_stack_dim2.
  repeat match goal with
         | |- context [if ?c then _ else _] => destruct c; cbn [res_bind]
         end; congruence.
Qed.

(** X3.  The predictions of [TransformerModel.forward] are taken at the
    positions of the feature tokens: for a read-out of shape [[B, 2n, k]]
    the regression result has shape [[B, n]] with entry [(b, i)] equal to
    coordinate 0 of position [2i], and the classification result has shape
    [[B, n, k]] with token [i] equal to position [2i]; the positions of the
    labels are never read. *)
Theorem forward_reads_feature_positions
        (self : TransformerModel.t A) (xs : tensor3 A) (ys : tensor2 A)
        (add_inputs_embeds : bool) (zs : tensor3 A) (read_out : Layer A)
        (n : nat) :
  TransformerModel.freq self = 2 -> TransformerModel.ind self = 0 ->
  TransformerModel._read_out self = Some read_out ->
  TransformerModel._combine self xs ys = Ok zs ->
  let pred :=
    read_out (TransformerModel._backbone
                self (Kw_full false add_inputs_embeds)
                (TransformerModel._read_in self zs)) in
  wf3 pred -> dimN pred = 2 * n -> 1 <= dimD pred ->
  (TransformerModel._pred_type self = "regression"%string ->
   exists y,
     TransformerModel.forward self xs ys add_inputs_embeds = Ok (Pred2 y) /\
     (dim2_0 y, dim2_1 y) = (dimB pred, n) /\
     forall b i, b < dimB pred -> i < n ->
       get2 zero y b i = get3 zero pred b (2 * i) 0) /\
  (TransformerModel._pred_type self = "classification"%string ->
   exists y,
     TransformerModel.forward self xs ys add_inputs_embeds = Ok (Pred3 y) /\
     (dimB y, dimN y, dimD y) = (dimB pred, n, dimD pred) /\
     forall b i, b < dimB pred -> i < n ->
       token3 y b i = token3 pred b (2 * i)).
Proof.
  intros Hf Hi Hro Ez pred [Lp Fp] Hn Hd.
  assert (Efw : TransformerModel.forward self xs ys add_inputs_embeds
                = TransformerModel.extract self pred).
  { unfold TransformerModel.forward. rewrite Ez. cbn [res_bind].
    unfold TransformerModel.get_read_out. rewrite Hro. reflexivity. }
  rewrite Efw. unfold TransformerModel.extract. rewrite Hf, Hi.
  assert (Hdim : (dimN pred - 0 + (2 - 1)) / 2 = n).
  { rewrite Hn. replace (2 * n - 0 + (2 - 1)) with (1 + n * 2) by lia.
    rewrite Nat.div_add by lia. reflexivity. }
  assert (Hrow : forall b, b < dimB pred ->
                           length (nth b (elems3 pred) []) = 2 * n).
  { intros b Hb. rewrite Forall_forall in Fp.
    rewrite <- Hn. apply Fp, nth_In. lia. }
  split; intros Hpt; rewrite Hpt.
  - change (String.eqb "regression" "regression") with true. cbv beta iota.
    unfold slice_axis1_select0.
    destruct (Nat.eqb_spec (dimD pred) 0) as [E0|_]; [lia|].
    cbn [res_bind]. eexists. split; [reflexivity|].
    cbn [dim2_0 dim2_1 slice_axis1 dimB dimN elems3].
    split; [now rewrite Hdim|].
    intros b i Hb Hlt. unfold get2, get3. cbn [elems2].
    rewrite (nth_map_lt _ _ _ []) by (rewrite length_map; lia).
    rewrite (nth_map_lt _ _ _ [])
      by (rewrite (nth_map_lt _ _ _ []) by lia;
          rewrite (stride_two_length n); [exact Hlt|now apply Hrow]).
    rewrite (nth_map_lt _ _ _ []) by lia.
    rewrite stride_nth. do 2 f_equal. lia.
  - change (String.eqb "classification" "regression") with false.
    change (String.eqb "classification" "classification") with true.
    cbv beta iota. eexists. split; [reflexivity|].
    cbn [slice_axis1 dimB dimN dimD elems3].
    split; [now rewrite Hdim|].
    intros b i Hb Hlt. unfold token3, slice_axis1. cbn [elems3].
    rewrite (nth_map_lt _ _ _ []) by lia.
    rewrite stride_nth. f_equal. lia.
Qed.

(** What the constructor makes of [pred_type]. *)
Lemma TransformerModel_init_read_out
      (n_dims n_positions n_embd n_layer n_head : Z) (pred_type : string)
      (g g' : RNG) (self : TransformerModel.t A) :
  TransformerModel.__init__ n_dims n_positions n_embd n_layer n_head
                            pred_type g = (Ok self, g') ->
  TransformerModel.freq self = 2 /\ TransformerModel.ind self = 0 /\
  TransformerModel._pred_type self = pred_type /\
  (TransformerModel._read_out self = None <->
   pred_type <> "regression"%string /\ pred_type <> "classification"%string).
Proof.
  unfold TransformerModel.__init__, bind, call, ret.
  destruct (nn_Linear n_dims n_embd g) as [ri g1].
  destruct (GPT2Model _ g1) as [bb g2].
  destruct (String.eqb_spec pred_type "regression") as [E1|N1];
    [|destruct (String.eqb_spec pred_type "classification") as [E2|N2]].
  - destruct (nn_Linear n_embd 1 g2) as [ro g3]. intros [= <- <-].
    cbn. repeat split; try discriminate; intros [N _]; contradiction.
  - destruct (nn_Linear n_embd MAX_NUM_CLASS g2) as [ro g3].
    intros [= <- <-].
    cbn. repeat split; try discriminate; intros [_ N]; contradiction.
  - intros [= <- <-]. cbn. repeat split; assumption.
Qed.

Lemma MambaModel_init_read_out
      (n_dims n_positions n_embd n_layer d_state expand d_conv : Z)
      (pred_type : string) (g g' : RNG) (self : MambaModel.t A) :
  MambaModel.__init__ n_dims n_positions n_embd n_layer d_state expand
                      d_conv pred_type g = (Ok self, g') ->
  MambaModel.freq self = 2 /\ MambaModel.ind self = 0 /\
  MambaModel._pred_type self = pred_type /\
  (MambaModel._read_out self = None <->
   pred_type <> "regression"%string /\ pred_type <> "classification"%string).
Proof.
  unfold MambaModel.__init__, bind, call, ret.
  destruct (nn_Linear n_dims n_embd g) as [ri g1].
  destruct (Mamba _ g1) as [bb g2].
  destruct (String.eqb_spec pred_type "regression") as [E1|N1];
    [|destruct (String.eqb_spec pred_type "classification") as [E2|N2]].
  - destruct (nn_Linear n_embd 1 g2) as [ro g3]. intros [= <- <-].
    cbn. repeat split; try discriminate; intros [N _]; contradiction.
  - destruct (nn_Linear n_embd MAX_NUM_CLASS g2) as [ro g3].
    intros [= <- <-].
    cbn. repeat split; try discriminate; intros [_ N]; contradiction.
  - intros [= <- <-]. cbn. repeat split; assumption.
Qed.

(** X4.  On a model that its constructor returned, [forward] of
    [TransformerModel] and of [MambaModel] never raises
    [NotImplementedError]: a [pred_type] that would reach the raising branch
    has left the model without [_read_out], and the read of that attribute
    comes first. *)
Theorem constructed_forward_never_not_implemented
        (n_dims n_positions n_embd n_layer n_head d_state expand d_conv : Z)
        (pred_type : string) (g gt gm : RNG)
        (tm : TransformerModel.t A) (mm : MambaModel.t A)
        (xs : tensor3 A) (ys : tensor2 A) (add_inputs_embeds : bool) :
  TransformerModel.__init__ n_dims n_positions n_embd n_layer n_head
                            pred_type g = (Ok tm, gt) ->
  MambaModel.__init__ n_dims n_positions n_embd n_layer d_state expand
                      d_conv pred_type g = (Ok mm, gm) ->
  TransformerModel.forward tm xs ys add_inputs_embeds
  <> Raise NotImplementedError /\
  MambaModel.forward mm xs ys add_inputs_embeds <> Raise NotImplementedError.
Proof.
  intros Et Em.
  destruct (TransformerModel_init_read_out _ _ _ _ _ _ _ _ _ Et)
    as (_ & _ & Hpt & Hro).
  destruct (MambaModel_init_read_out _ _ _ _ _ _ _ _ _ _ _ Em)
    as (_ & _ & Hpm & Hrm).
  split.
  - unfold TransformerModel.forward, TransformerModel._combine.
    destruct (combine_body _ xs ys) as [zs|e] eqn:Ez; cbn [res_bind];
      [|apply combine_body_error in Ez; subst e; discriminate].
    unfold TransformerModel.get_read_out.
    destruct (TransformerModel._read_out tm) as [ro|] eqn:Er;
      cbn [res_bind]; [|discriminate].
    unfold TransformerModel.extract. rewrite Hpt.
    destruct (String.eqb_spec pred_type "regression") as [E1|N1].
    + unfold slice_axis1_select0.
      destruct (Nat.eqb _ 0); cbn [res_bind]; discriminate.
    + destruct (String.eqb_spec pred_type "classification") as [E2|N2];
        [discriminate|].
      assert (Hnone : Some ro = None) by (apply Hro; now split).
      discriminate.
  - unfold MambaModel.forward, MambaModel._combine.
    destruct (combine_body _ xs ys) as [zs|e] eqn:Ez; cbn [res_bind];
      [|apply combine_body_error in Ez; subst e; discriminate].
    unfold MambaModel.get_read_out.
    destruct (MambaModel._read_out mm) as [ro|] eqn:Er;
      cbn [res_bind]; [|discriminate].
    unfold MambaModel.extract. rewrite Hpm.
    destruct (String.eqb_spec pred_type "regression") as [E1|N1].
    + unfold slice_axis1_select0.
      destruct (Nat.eqb _ 0); cbn [res_bind]; discriminate.
    + destruct (String.eqb_spec pred_type "classification") as [E2|N2];
        [discriminate|].
      assert (Hnone : Some ro = None) by (apply Hrm; now split).
      discriminate.
Qed.

End PredictionPositions.

Lemma forward_reads_feature_positions_witness :
  let self := Concrete.transformer "regression" in
  let pred := mk3 1 4 1 [[[28]; [32]; [64]; [36]]]%Z in
  (TransformerModel._pred_type self = "regression"%string ->
   exists y,
     TransformerModel.forward self Concrete.xs0 Concrete.ys0 false
     = Ok (Pred2 y) /\
     (dim2_0 y, dim2_1 y) = (1, 2) /\
     forall b i, b < 1 -> i < 2 ->
       get2 0%Z y b i = get3 0%Z pred b (2 * i) 0) /\
  (TransformerModel._pred_type self = "classification"%string ->
   exists y,
     TransformerModel.forward self Concrete.xs0 Concrete.ys0 false
     = Ok (Pred3 y) /\
     (dimB y, dimN y, dimD y) = (1, 2, 1) /\
     forall b i, b < 1 -> i < 2 -> token3 y b i = token3 pred b (2 * i)).
Proof.
  intros self pred.
  assert (Hwf : wf3 pred) by (split; [reflexivity|repeat constructor]).
  assert (Hd : 1 <= dimD pred) by (cbn; lia).
  exact (forward_reads_feature_positions
           self Concrete.xs0 Concrete.ys0 false
           (mk3 1 4 3 [[[1; 2; 3]; [7; 0; 0]; [4; 5; 6]; [8; 0; 0]]]%Z)
           (Concrete.linear 4 1) 2
           eq_refl eq_refl eq_refl eq_refl Hwf eq_refl Hd).
Defined.

Lemma constructed_forward_never_not_implemented_witness :
  TransformerModel.forward (Concrete.transformer "ranking")
                           Concrete.xs0 Concrete.ys0 false
  <> Raise NotImplementedError /\
  MambaModel.forward (Concrete.mamba "ranking")
                     Concrete.xs0 Concrete.ys0 false
  <> Raise NotImplementedError.
Proof.
  apply (@constructed_forward_never_not_implemented
           Z Scalar_Z Concrete.framework
           3 2 4 12 4 16 2 4 "ranking" [] [] []).
  - apply Concrete_transformer_built.
  - apply Concrete_mamba_built.
Defined.

(** ** [build_model] *)

Section BuildModelFacts.
Context {A : Type} `{Scalar A} `{Framework A}.

Lemma TransformerModelTying_init_ok
      (n_dims n_positions n_embd n_layer n_head : Z) (g : RNG) :
  exists self g' read_out,
    TransformerModelTying.__init__ n_dims n_positions n_embd n_layer n_head g
    = (Ok self, g') /\
    TransformerModel._pred_type self = "regression"%string /\
    TransformerModel._read_out self = Some read_out /\
    cfg_n_layer (TransformerModel.configuration self) = 1%Z /\
    TransformerModel.n_layer self = n_layer.
Proof.
  unfold TransformerModelTying.__init__, TransformerModel.__init__.
  unfold bind, call, ret.
  destruct (nn_Linear n_dims n_embd g) as [ri g1].
  destruct (GPT2Model _ g1) as [bb g2].
  change (String.eqb "regression" "regression") with true. cbv beta iota.
  destruct (nn_Linear n_embd 1 g2) as [ro g3].
  cbn [TransformerModel.configuration block_size cfg_n_head cfg_n_embd
       cfg_dropout cfg_bias].
  destruct (GPT2Model _ g3) as [single g4].
  do 3 eexists. split; [reflexivity|]. cbn. repeat split.
Qed.

Lemma TransformerModelLooped_init_ok
      (n_dims n_positions n_embd n_layer n_head : Z)
      (loop_func pred_type : string) (apply_input_mask : bool) (p : float)
      (truncate_state : bool) (p_state : float) (fixed_truncate : bool)
      (tokens_to_trunc : Z) (g : RNG) :
  exists self g',
    TransformerModelLooped.__init__
      n_dims n_positions n_embd n_layer n_head loop_func pred_type
      apply_input_mask p truncate_state p_state fixed_truncate
      tokens_to_trunc g = (Ok self, g') /\
    TransformerModelLooped.loop_func self = loop_func /\
    TransformerModel._pred_type (TransformerModelLooped.base self)
    = pred_type.
Proof.
  unfold TransformerModelLooped.__init__.
  destruct (TransformerModel_init_ok n_dims n_positions n_embd n_layer
                                     n_head pred_type g)
    as (b & g' & E & _ & _ & _ & Hpt & _).
  rewrite (bind_step _ _ _ _ _ E). do 2 eexists.
  split; [reflexivity|]. cbn. split; [reflexivity|exact Hpt].
Qed.

Lemma MambaModelLooped_init_ok
      (n_dims n_positions n_embd n_layer d_state expand d_conv : Z)
      (loop_func pred_type : string) (g : RNG) :
  exists self g',
    MambaModelLooped.__init__ n_dims n_positions n_embd n_layer d_state
                              expand d_conv loop_func pred_type g
    = (Ok self, g') /\
    MambaModelLooped.loop_func self = loop_func /\
    MambaModel._pred_type (MambaModelLooped.base self) = pred_type.
Proof.
  unfold MambaModelLooped.__init__.
  destruct (MambaModel_init_ok n_dims n_positions n_embd n_layer d_state
                               expand d_conv pred_type g)
    as (b & g' & E & _ & _ & Hpt & _).
  rewrite (bind_step _ _ _ _ _ E). do 2 eexists.
  split; [reflexivity|]. cbn. split; [reflexivity|exact Hpt].
Qed.

(** X5.  [build_model] returns a model exactly for the five families
    ["gpt2"], ["gpt2_loop"], ["gpt2_tying"], ["mamba"] and ["mamba_loop"],
    whatever [pred_type] and [loop_func] the configuration holds: neither
    is checked when a model is built.  For any other family it raises
    [NotImplementedError] before a layer is constructed, the generator
    being left as it was. *)
Theorem build_model_families (conf : Conf.t float) (g : RNG) :
  (known_family (Conf.family conf) ->
   exists model g', build_model conf g = (Ok model, g')) /\
  (~ known_family (Conf.family conf) ->
   build_model conf g = (Raise NotImplementedError, g)).
Proof.
  unfold build_model, known_family. cbn [In].
  destruct (String.eqb_spec (Conf.family conf) "gpt2") as [E1|N1].
  { split; [intros _|intros N; exfalso; apply N; auto].
    destruct (TransformerModel_init_ok
                (Conf.n_dims conf) (Conf.n_positions conf)
                (Conf.n_embd conf) (Conf.n_layer conf) (Conf.n_head conf)
                (Conf.pred_type conf) g) as (m & g' & E & _).
    rewrite (bind_step _ _ _ _ _ E). do 2 eexists. reflexivity. }
  destruct (String.eqb_spec (Conf.family conf) "gpt2_loop") as [E2|N2].
  { split; [intros _|intros N; exfalso; apply N; auto].
    destruct (TransformerModelLooped_init_ok
                (Conf.n_dims conf) (Conf.n_positions conf)
                (Conf.n_embd conf) (Conf.n_layer conf) (Conf.n_head conf)
                (Conf.loop_func conf) (Conf.pred_type conf)
                (Conf.apply_input_mask conf) (Conf.p conf)
                (Conf.truncate_state conf) (Conf.p_state conf)
                (Conf.fixed_truncate conf) (Conf.tokens_to_trunc conf) g)
      as (m & g' & E & _).
    rewrite (bind_step _ _ _ _ _ E). do 2 eexists. reflexivity. }
  destruct (String.eqb_spec (Conf.family conf) "gpt2_tying") as [E3|N3].
  { split; [intros _|intros N; exfalso; apply N; auto].
    destruct (TransformerModelTying_init_ok
                (Conf.n_dims conf) (Conf.n_positions conf)
                (Conf.n_embd conf) (Conf.n_layer conf) (Conf.n_head conf) g)
      as (m & g' & ro & E & _).
    rewrite (bind_step _ _ _ _ _ E). do 2 eexists. reflexivity. }
  destruct (String.eqb_spec (Conf.family conf) "mamba") as [E4|N4].
  { split; [intros _|intros N; exfalso; apply N; auto].
    destruct (MambaModel_init_ok
                (Conf.n_dims conf) (Conf.n_positions conf)
                (Conf.n_embd conf) (Conf.n_layer conf) (Conf.d_state conf)
                (Conf.expand conf) (Conf.d_conv conf) (Conf.pred_type conf) g)
      as (m & g' & E & _).
    rewrite (bind_step _ _ _ _ _ E). do 2 eexists. reflexivity. }
  destruct (String.eqb_spec (Conf.family conf) "mamba_loop") as [E5|N5].
  { split; [intros _|intros N; exfalso; apply N; auto 6].
    destruct (MambaModelLooped_init_ok
                (Conf.n_dims conf) (Conf.n_positions conf)
                (Conf.n_embd conf) (Conf.n_layer conf) (Conf.d_state conf)
                (Conf.expand conf) (Conf.d_conv conf) (Conf.loop_func conf)
                (Conf.pred_type conf) g) as (m & g' & E & _).
    rewrite (bind_step _ _ _ _ _ E). do 2 eexists. reflexivity. }
  split; [|intros _; reflexivity].
  intros [E|[E|[E|[E|[E|[]]]]]]; symmetry in E; contradiction.
Qed.

(** X6.  For the family ["gpt2_tying"], [build_model] does not hand
    [conf.pred_type] to the constructor: the model is a regression model
    with a read-out, whatever prediction type the configuration asks for,
    and its backbone configuration has one layer while the model keeps
    [conf.n_layer] as its number of applications. *)
Theorem build_model_tying_is_regression (conf : Conf.t float) (g : RNG) :
  Conf.family conf = "gpt2_tying"%string ->
  exists m g' read_out,
    build_model conf g = (Ok (Is_TransformerModelTying m), g') /\
    TransformerModel._pred_type m = "regression"%string /\
    TransformerModel._read_out m = Some read_out /\
    cfg_n_layer (TransformerModel.configuration m) = 1%Z /\
    TransformerModel.n_layer m = Conf.n_layer conf.
Proof.
  intros Ef. unfold build_model. rewrite Ef.
  change (String.eqb "gpt2_tying" "gpt2") with false.
  change (String.eqb "gpt2_tying" "gpt2_loop") with false.
  change (String.eqb "gpt2_tying" "gpt2_tying") with true. cbv beta iota.
  destruct (TransformerModelTying_init_ok
              (Conf.n_dims conf) (Conf.n_positions conf)
              (Conf.n_embd conf) (Conf.n_layer conf) (Conf.n_head conf) g)
    as (m & g' & ro & E & Hpt & Hro & Hc & Hn).
  rewrite (bind_step _ _ _ _ _ E). exists m, g', ro.
  split; [reflexivity|]. repeat split; assumption.
Qed.

End BuildModelFacts.

Lemma build_model_families_witness :
  (exists model g',
      build_model (Concrete.conf0 "mamba_loop" "ranking") [] = (Ok model, g'))
  /\ build_model (Concrete.conf0 "lstm" "regression") [5; 6]%Z
     = (Raise NotImplementedError, [5; 6]%Z).
Proof.
  split.
  - apply (@build_model_families Z Concrete.framework
                                 (Concrete.conf0 "mamba_loop" "ranking") []).
    unfold known_family. cbn. auto 6.
  - apply (@build_model_families Z Concrete.framework
                                 (Concrete.conf0 "lstm" "regression")
                                 [5; 6]%Z).
    unfold known_family. cbn.
    intros [E|[E|[E|[E|[E|[]]]]]]; discriminate E.
Defined.

Lemma build_model_tying_is_regression_witness :
  exists m g' read_out,
    build_model (Concrete.conf0 "gpt2_tying" "classification") []
    = (Ok (Is_TransformerModelTying m), g') /\
    TransformerModel._pred_type m = "regression"%string /\
    TransformerModel._read_out m = Some read_out /\
    cfg_n_layer (TransformerModel.configuration m) = 1%Z /\
    TransformerModel.n_layer m = 12%Z.
Proof.
  apply (@build_model_tying_is_regression
           Z Concrete.framework
           (Concrete.conf0 "gpt2_tying" "classification") []).
  reflexivity.
Defined.

(** ** How the calls of the looped models relate *)

Section ForEachFacts.
Context {S X Acc : Type}.

Lemma for_each_ext (l : list X) (b1 b2 : X -> Acc -> M S Acc) :
  (forall x, In x l -> forall acc s, b1 x acc s = b2 x acc s) ->
  forall acc s, for_each l b1 acc s = for_each l b2 acc s.
Proof.
  induction l as [|x l IH]; intros Hb acc s; [reflexivity|].
  cbn [for_each]. unfold bind. rewrite (Hb x (or_introl eq_refl)).
  destruct (b2 x acc s) as [[acc1|e] s1]; [|reflexivity].
  apply IH. intros y Hy. apply Hb. now right.
Qed.

Lemma for_each_app (l1 l2 : list X) (body : X -> Acc -> M S Acc)
      (acc : Acc) (s : S) :
  for_each (l1 ++ l2) body acc s
  = bind (for_each l1 body acc) (for_each l2 body) s.
Proof.
  revert acc s; induction l1 as [|x l1 IH]; intros acc s.
  - reflexivity.
  - cbn [app for_each]. unfold bind.
    destruct (body x acc s) as [[acc1|e] s1]; [|reflexivity].
    rewrite IH. reflexivity.
Qed.

End ForEachFacts.

Lemma range_In_nonneg (n x : Z) : In x (range n) -> (0 <= x)%Z.
Proof.
  unfold range. rewrite in_map_iff. intros (k & <- & _). lia.
Qed.

Lemma range_split (n1 n2 : Z) :
  (n1 <= n2)%Z ->
  range n2
  = range n1
    ++ map Z.of_nat (seq (Z.to_nat n1) (Z.to_nat n2 - Z.to_nat n1)).
Proof.
  intros Hle. unfold range. rewrite <- map_app. f_equal.
  replace (Z.to_nat n2) with (Z.to_nat n1 + (Z.to_nat n2 - Z.to_nat n1))
    at 1 by lia.
  apply seq_app.
Qed.

Section LoopComposition.
Context {A : Type} `{Scalar A} `{Framework A} {Obj : Type}.
Variable cls : LoopedClass A Obj.

Lemma looped_forward_negative_start (xs : tensor3 A) (ys : tensor2 A)
      (n_loop_start n_loops : Z) (s : LSt) :
  (n_loop_start <= 0)%Z ->
  looped_forward cls xs ys n_loop_start n_loops s
  = looped_forward cls xs ys 0 n_loops s.
Proof.
  intros Hneg. unfold looped_forward, bind, get_self, lift.
  destruct (cls_combine cls (self s) xs ys) as [zs|e]; [|reflexivity].
  destruct (initial_output cls (cls_read_in cls (self s) zs) s)
    as [[output|e] s3]; [|reflexivity].
  rewrite (for_each_ext
             (range n_loops)
             (loop_body cls (cls_read_in cls (self s) zs) n_loop_start)
             (loop_body cls (cls_read_in cls (self s) zs) 0));
    [reflexivity|].
  intros x Hx acc s4. apply range_In_nonneg in Hx. unfold loop_body.
  replace (x <? n_loop_start)%Z with false by (symmetry; apply Z.ltb_ge; lia).
  replace (x <? 0)%Z with false by (symmetry; apply Z.ltb_ge; lia).
  reflexivity.
Qed.

(** An iteration that records, taken apart. *)
Lemma active_body_ok (embeds : tensor3 A) (idx : Z)
      (output : tensor3 A) (pl : list (prediction A)) (s s' : LSt)
      (acc : tensor3 A * list (prediction A)) :
  loop_body cls embeds 0 idx (output, pl) s = (Ok acc, s') ->
  (0 <= idx)%Z ->
  exists out1 sf read_out y u,
    cls_f cls output embeds s = (Ok out1, sf) /\
    cls_get_read_out cls (self sf) = Ok read_out /\
    cls_extract cls (self sf) (read_out out1) = Ok y /\
    print_once cls idx sf = (Ok u, s') /\
    acc = (out1, pl ++ [y]).
Proof.
  intros Hbody Hidx. unfold loop_body in Hbody.
  replace (idx <? 0)%Z with false in Hbody
    by (symmetry; apply Z.ltb_ge; lia).
  apply bind_ok in Hbody. destruct Hbody as ([o1 p1] & s2 & Hiter & Hp).
  apply bind_ok in Hp. destruct Hp as (u & s3 & Hprint & Hret).
  injection Hret as <- <-.
  apply bind_ok in Hiter. destruct Hiter as (out1 & sf & Ef & Er).
  apply bind_ok in Er. destruct Er as (o' & s4 & Eg & Er).
  unfold get_self in Eg. injection Eg as <- <-.
  apply bind_ok in Er. destruct Er as (ro & s5 & Ero & Er).
  unfold lift in Ero. injection Ero as Ero <-.
  apply bind_ok in Er. destruct Er as (y & s6 & Ey & Er).
  unfold lift in Ey. injection Ey as Ey <-.
  injection Er as <- <- <-.
  exists out1, sf, ro, y, u. repeat split; assumption.
Qed.

Lemma loop_suffix (embeds : tensor3 A) (n_loop_start : Z) (len : nat) :
  forall (a : nat) (output : tensor3 A) (pl0 pl : list (prediction A))
         (s s' : LSt) (acc0 : tensor3 A * list (prediction A)),
    for_each (map Z.of_nat (seq a len)) (loop_body cls embeds 0)
             (output, pl0) s = (Ok acc0, s') ->
    exists ys,
      snd acc0 = pl0 ++ ys /\
      for_each (map Z.of_nat (seq a len)) (loop_body cls embeds n_loop_start)
               (output, pl) s
      = (Ok (fst acc0, pl ++ skipn (Z.to_nat n_loop_start - a) ys), s').
Proof.
  induction len as [|len IH]; intros a output pl0 pl s s' acc0 Hfor.
  - cbn in Hfor. injection Hfor as <- <-. exists [].
    cbn. rewrite skipn_nil, !app_nil_r. split; reflexivity.
  - cbn [seq map for_each] in Hfor |- *.
    apply bind_ok in Hfor. destruct Hfor as (acc1 & s1 & Hbody & Hrest).
    destruct (active_body_ok _ _ _ _ _ _ _ Hbody (Nat2Z.is_nonneg a))
      as (out1 & sf & ro & y & u & Ef & Ero & Ey & Ep & ->).
    destruct (Z.ltb_spec (Z.of_nat a) n_loop_start) as [Hw|Hw].
    + destruct (IH (S a) out1 (pl0 ++ [y]) pl s1 s' acc0 Hrest)
        as (ys & Hacc & Hrun).
      exists (y :: ys). split; [rewrite Hacc, <- app_assoc; reflexivity|].
      assert (Hb : loop_body cls embeds n_loop_start (Z.of_nat a)
                             (output, pl) s = (Ok (out1, pl), s1)).
      { unfold loop_body.
        replace (Z.of_nat a <? n_loop_start)%Z with true
          by (symmetry; apply Z.ltb_lt; lia).
        unfold bind, ret. rewrite Ef, Ep. reflexivity. }
      rewrite (bind_step _ _ _ _ _ Hb), Hrun.
      replace (Z.to_nat n_loop_start - a)
        with (S (Z.to_nat n_loop_start - S a)) by lia.
      reflexivity.
    + destruct (IH (S a) out1 (pl0 ++ [y]) (pl ++ [y]) s1 s' acc0 Hrest)
        as (ys & Hacc & Hrun).
      exists (y :: ys). split; [rewrite Hacc, <- app_assoc; reflexivity|].
      assert (Hb : loop_body cls embeds n_loop_start (Z.of_nat a)
                             (output, pl) s = (Ok (out1, pl ++ [y]), s1)).
      { unfold loop_body.
        replace (Z.of_nat a <? n_loop_start)%Z with false
          by (symmetry; apply Z.ltb_ge; lia).
        unfold bind, ret, get_self, lift. rewrite Ef, Ero, Ey, Ep.
        reflexivity. }
      rewrite (bind_step _ _ _ _ _ Hb), Hrun.
      replace (Z.to_nat n_loop_start - a) with 0 by lia.
      replace (Z.to_nat n_loop_start - S a) with 0 by lia.
      cbn [skipn]. rewrite <- app_assoc. reflexivity.
Qed.

Lemma looped_forward_suffix (xs : tensor3 A) (ys : tensor2 A)
      (n_loop_start n_loops : Z) (s s' : LSt) (l : list (prediction A)) :
  looped_forward cls xs ys 0 n_loops s = (Ok l, s') ->
  looped_forward cls xs ys n_loop_start n_loops s
  = (Ok (skipn (Z.to_nat n_loop_start) l), s').
Proof.
  unfold looped_forward. intros E.
  apply bind_ok in E. destruct E as (o & s1 & Eg & E).
  rewrite (bind_step _ _ _ _ _ Eg).
  apply bind_ok in E. destruct E as (zs & s2 & Ez & E).
  rewrite (bind_step _ _ _ _ _ Ez).
  apply bind_ok in E. destruct E as (output0 & s3 & Ei & E).
  rewrite (bind_step _ _ _ _ _ Ei).
  apply bind_ok in E. destruct E as (acc & s4 & Ef & E).
  injection E as <- <-.
  destruct (loop_suffix _ n_loop_start _ _ _ _ [] _ _ _ Ef)
    as (ys' & Hacc & Hrun).
  unfold range in *. rewrite (bind_step _ _ _ _ _ Hrun).
  cbn [app] in *. rewrite Nat.sub_0_r, Hacc. reflexivity.
Qed.

Hypothesis Hcls : LoopedClassOk cls.

Lemma looped_forward_prefix (xs : tensor3 A) (ys : tensor2 A)
      (n_loop_start n1 n2 : Z) (s s2 : LSt) (l2 : list (prediction A)) :
  (0 <= n_loop_start)%Z -> (0 <= n1 <= n2)%Z ->
  looped_forward cls xs ys n_loop_start n2 s = (Ok l2, s2) ->
  exists s1,
    looped_forward cls xs ys n_loop_start n1 s
    = (Ok (firstn (Z.to_nat n1 - Z.to_nat n_loop_start) l2), s1).
Proof.
  intros Hs Hn. unfold looped_forward. intros E.
  apply bind_ok in E. destruct E as (o & s0 & Eg & E).
  rewrite (bind_step _ _ _ _ _ Eg).
  apply bind_ok in E. destruct E as (zs & s0' & Ez & E).
  rewrite (bind_step _ _ _ _ _ Ez).
  apply bind_ok in E. destruct E as (output0 & s3 & Ei & E).
  rewrite (bind_step _ _ _ _ _ Ei).
  apply bind_ok in E. destruct E as (acc2 & s4 & Ef & E).
  injection E as <- <-.
  rewrite (range_split n1 n2) in Ef by lia.
  rewrite for_each_app in Ef.
  apply bind_ok in Ef. destruct Ef as ([o1 p1] & s1 & E1 & E2).
  exists s1. rewrite (bind_step _ _ _ _ _ E1). unfold ret. cbn [snd].
  do 2 f_equal.
  unfold range in E1.
  destruct (loop_trace cls Hcls (self s3) _ _ _ _ _ _ _ _ _
                       (same_config_refl cls (self s3)) E1)
    as (outs1 & ys1 & _ & Hlen1 & Hacc1 & Hrec1).
  destruct (loop_trace cls Hcls (self s1) _ _ _ _ _ _ _ _ _
                       (same_config_refl cls (self s1)) E2)
    as (outs2 & ys2 & _ & _ & Hacc2 & _).
  cbn [snd app] in Hacc1, Hacc2. subst p1. rewrite Hacc2.
  apply Forall2_length in Hrec1.
  rewrite length_skipn, Hlen1, Nat.sub_0_r in Hrec1.
  rewrite Hrec1, firstn_app, firstn_all, Nat.sub_diag.
  cbn [firstn]. now rewrite app_nil_r.
Qed.

End LoopComposition.

Section LoopCompositionClaims.
Context {A : Type} `{Scalar A} `{Framework A}.

(** X7.  A negative [n_loop_start] is the same as 0: every iteration has
    [idx >= 0 > n_loop_start] and records a prediction, in both looped
    classes. *)
Theorem negative_loop_start_is_zero
        (st : TransformerModelLooped.St A) (sm : MambaModelLooped.St A)
        (xs : tensor3 A) (ys : tensor2 A) (n_loop_start n_loops : Z) :
  (n_loop_start <= 0)%Z ->
  TransformerModelLooped.forward xs ys n_loop_start n_loops st
  = TransformerModelLooped.forward xs ys 0 n_loops st /\
  MambaModelLooped.forward xs ys n_loop_start n_loops sm
  = MambaModelLooped.forward xs ys 0 n_loops sm.
Proof.
  intros Hneg. split; apply looped_forward_negative_start; exact Hneg.
Qed.

(** X8.  The warm-up only hides predictions: when the call with
    [n_loop_start = 0] returns the list [l], the call with another
    [n_loop_start] from the same state returns [l] without its first
    [n_loop_start] entries and ends in the same state (object, generator and
    output), with the masks on or off. *)
Theorem warm_up_hides_predictions
        (st st' : TransformerModelLooped.St A)
        (sm sm' : MambaModelLooped.St A)
        (xs : tensor3 A) (ys : tensor2 A) (n_loop_start n_loops : Z)
        (lt lm : list (prediction A)) :
  TransformerModelLooped.forward xs ys 0 n_loops st = (Ok lt, st') ->
  MambaModelLooped.forward xs ys 0 n_loops sm = (Ok lm, sm') ->
  TransformerModelLooped.forward xs ys n_loop_start n_loops st
  = (Ok (skipn (Z.to_nat n_loop_start) lt), st') /\
  MambaModelLooped.forward xs ys n_loop_start n_loops sm
  = (Ok (skipn (Z.to_nat n_loop_start) lm), sm').
Proof.
  intros Et Em. split; apply looped_forward_suffix; assumption.
Qed.

(** X9.  More loops only append: when the call with [n_loops = n2] returns
    the list [l], the call with [n1 <= n2] loops from the same state returns
    the first [n1 - n_loop_start] entries of [l]. *)
Theorem more_loops_append
        (st st2 : TransformerModelLooped.St A)
        (sm sm2 : MambaModelLooped.St A)
        (xs : tensor3 A) (ys : tensor2 A) (n_loop_start n1 n2 : Z)
        (lt lm : list (prediction A)) :
  (0 <= n_loop_start)%Z -> (0 <= n1 <= n2)%Z ->
  TransformerModelLooped.forward xs ys n_loop_start n2 st = (Ok lt, st2) ->
  MambaModelLooped.forward xs ys n_loop_start n2 sm = (Ok lm, sm2) ->
  (exists st1,
      TransformerModelLooped.forward xs ys n_loop_start n1 st
      = (Ok (firstn (Z.to_nat n1 - Z.to_nat n_loop_start) lt), st1)) /\
  (exists sm1,
      MambaModelLooped.forward xs ys n_loop_start n1 sm
      = (Ok (firstn (Z.to_nat n1 - Z.to_nat n_loop_start) lm), sm1)).
Proof.
  intros Hs Hn Et Em. split.
  - eapply (looped_forward_prefix TransformerModelLooped.cls
                                  TransformerModelLooped_ok); eassumption.
  - eapply (looped_forward_prefix MambaModelLooped.cls MambaModelLooped_ok);
      eassumption.
Qed.

End LoopCompositionClaims.

Lemma negative_loop_start_is_zero_witness :
  let st := Concrete.state_of
              (Concrete.looped "z=f(x+z)" "regression" true true false)
              [100; 0; 50; 7]%Z in
  let sm := Concrete.state_of
              (Concrete.mamba_looped "z=f(x*z)" "regression") [] in
  TransformerModelLooped.forward Concrete.xs0 Concrete.ys0 (-2) 3 st
  = TransformerModelLooped.forward Concrete.xs0 Concrete.ys0 0 3 st /\
  MambaModelLooped.forward Concrete.xs0 Concrete.ys0 (-2) 3 sm
  = MambaModelLooped.forward Concrete.xs0 Concrete.ys0 0 3 sm.
Proof.
  intros st sm.
  apply (negative_loop_start_is_zero st sm Concrete.xs0 Concrete.ys0 (-2) 3).
  lia.
Defined.

Lemma warm_up_hides_predictions_witness :
  let st := Concrete.state_of
              (Concrete.looped "z=f(x+z)" "regression" true true false)
              [100; 0; 50; 7]%Z in
  let sm := Concrete.state_of
              (Concrete.mamba_looped "z=f(x*z)" "regression") [] in
  TransformerModelLooped.forward Concrete.xs0 Concrete.ys0 1 3 st
  = (Ok [Pred2 (mk2 1 2 [[4; 8]]%Z); Pred2 (mk2 1 2 [[4; 12]]%Z)],
     snd (TransformerModelLooped.forward Concrete.xs0 Concrete.ys0 0 3 st)) /\
  MambaModelLooped.forward Concrete.xs0 Concrete.ys0 1 3 sm
  = (Ok [Pred2 (mk2 1 2 [[172; 964]]%Z); Pred2 (mk2 1 2 [[1036; 14464]]%Z)],
     snd (MambaModelLooped.forward Concrete.xs0 Concrete.ys0 0 3 sm)).
Proof.
  intros st sm.
  apply (warm_up_hides_predictions
           st (snd (TransformerModelLooped.forward
                      Concrete.xs0 Concrete.ys0 0 3 st))
           sm (snd (MambaModelLooped.forward
                      Concrete.xs0 Concrete.ys0 0 3 sm))
           Concrete.xs0 Concrete.ys0 1 3
           [Pred2 (mk2 1 2 [[16; 4]]%Z); Pred2 (mk2 1 2 [[4; 8]]%Z);
            Pred2 (mk2 1 2 [[4; 12]]%Z)]
           [Pred2 (mk2 1 2 [[28; 64]]%Z); Pred2 (mk2 1 2 [[172; 964]]%Z);
            Pred2 (mk2 1 2 [[1036; 14464]]%Z)]).
  - rewrite (surjective_pairing
               (TransformerModelLooped.forward
                  Concrete.xs0 Concrete.ys0 0 3 st)) at 1.
    f_equal.
  - rewrite (surjective_pairing
               (MambaModelLooped.forward
                  Concrete.xs0 Concrete.ys0 0 3 sm)) at 1.
    f_equal.
Defined.

Lemma more_loops_append_witness :
  let st := Concrete.state_of
              (Concrete.looped "z=f(x+z)" "regression" true true false)
              [100; 0; 50; 7]%Z in
  let sm := Concrete.state_of
              (Concrete.mamba_looped "z=f(x*z)" "regression") [] in
  (exists st1,
      TransformerModelLooped.forward Concrete.xs0 Concrete.ys0 0 2 st
      = (Ok [Pred2 (mk2 1 2 [[16; 4]]%Z); Pred2 (mk2 1 2 [[4; 8]]%Z)], st1))
  /\
  (exists sm1,
      MambaModelLooped.forward Concrete.xs0 Concrete.ys0 0 2 sm
      = (Ok [Pred2 (mk2 1 2 [[28; 64]]%Z); Pred2 (mk2 1 2 [[172; 964]]%Z)],
         sm1)).
Proof.
  intros st sm.
  apply (more_loops_append
           st (snd (TransformerModelLooped.forward
                      Concrete.xs0 Concrete.ys0 0 3 st))
           sm (snd (MambaModelLooped.forward
                      Concrete.xs0 Concrete.ys0 0 3 sm))
           Concrete.xs0 Concrete.ys0 0 2 3
           [Pred2 (mk2 1 2 [[16; 4]]%Z); Pred2 (mk2 1 2 [[4; 8]]%Z);
            Pred2 (mk2 1 2 [[4; 12]]%Z)]
           [Pred2 (mk2 1 2 [[28; 64]]%Z); Pred2 (mk2 1 2 [[172; 964]]%Z);
            Pred2 (mk2 1 2 [[1036; 14464]]%Z)]).
  - lia.
  - lia.
  - rewrite (surjective_pairing
               (TransformerModelLooped.forward
                  Concrete.xs0 Concrete.ys0 0 3 st)) at 1.
    f_equal.
  - rewrite (surjective_pairing
               (MambaModelLooped.forward
                  Concrete.xs0 Concrete.ys0 0 3 sm)) at 1.
    f_equal.
Defined.

(** ** The one-time print *)

Section PrintOnce.
Context {A : Type} `{Scalar A} `{Framework A} {Obj : Type}.
Variable cls : LoopedClass A Obj.

(** [f] leaves [print_flag] and the output alone, and the setter sets the
    flag. *)
Hypothesis f_keeps_output : forall o e s,
    cls_print_flag cls (self (snd (cls_f cls o e s)))
    = cls_print_flag cls (self s) /\
    stdout (world (snd (cls_f cls o e s))) = stdout (world s).
Hypothesis setter_sets : forall o,
    cls_print_flag cls (cls_set_print_flag cls true o) = true.

Lemma print_once_prints (idx : Z) (s s' : LSt) (u : unit) :
  print_once cls idx s = (Ok u, s') ->
  cls_print_flag cls (self s') = true /\ stdout (world s') = printed cls s idx.
Proof.
  unfold print_once, printed, bind, get_self, print, set_self, modify, ret.
  destruct (cls_print_flag cls (self s)) eqn:Ef; cbn [negb].
  - intros E. injection E as E. subst s'. rewrite app_nil_r.
    split; [exact Ef|reflexivity].
  - intros E. injection E as E. subst s'. cbn [self world stdout].
    split; [apply setter_sets|]. reflexivity.
Qed.

Lemma loop_body_prints (embeds : tensor3 A) (n_loop_start idx : Z)
      (acc acc' : tensor3 A * list (prediction A)) (s s' : LSt) :
  loop_body cls embeds n_loop_start idx acc s = (Ok acc', s') ->
  cls_print_flag cls (self s') = true /\ stdout (world s') = printed cls s idx.
Proof.
  destruct acc as [output pl]. unfold loop_body. intros Hbody.
  apply bind_ok in Hbody. destruct Hbody as (acc1 & s2 & Hiter & Hp).
  apply bind_ok in Hp. destruct Hp as (u & s3 & Hprint & Hret).
  injection Hret as _ <-.
  assert (Hs2 : s2 = snd (cls_f cls output embeds s)).
  { clear Hprint. destruct (idx <? n_loop_start)%Z.
    all: apply bind_ok in Hiter; destruct Hiter as (o1 & sf & Ef & Er);
      rewrite Ef; cbn [snd].
    all: try (injection Er as _ <-; reflexivity).
    all: apply bind_ok in Er; destruct Er as (o' & s4 & Eg & Er);
      unfold get_self in Eg; injection Eg as <- <-;
      apply bind_ok in Er; destruct Er as (ro & s5 & Ero & Er);
      unfold lift in Ero; injection Ero as _ <-;
      apply bind_ok in Er; destruct Er as (y & s6 & Ey & Er);
      unfold lift in Ey; injection Ey as _ <-;
      injection Er as _ <-; reflexivity. }
  destruct (print_once_prints _ _ _ _ Hprint) as [Hflag Hout].
  split; [exact Hflag|]. rewrite Hout. unfold printed. subst s2.
  destruct (f_keeps_output output embeds s) as [-> ->]. reflexivity.
Qed.

Lemma loop_prints (embeds : tensor3 A) (n_loop_start : Z) (len : nat) :
  forall (a : nat) (acc acc' : tensor3 A * list (prediction A))
         (s s' : LSt),
    for_each (map Z.of_nat (seq a (S len))) (loop_body cls embeds n_loop_start)
             acc s = (Ok acc', s') ->
    cls_print_flag cls (self s') = true /\
    stdout (world s') = printed cls s (Z.of_nat a).
Proof.
  induction len as [|len IH]; intros a acc acc' s s' Hfor.
  - cbn [seq map for_each] in Hfor.
    apply bind_ok in Hfor. destruct Hfor as (acc1 & s1 & Hbody & Hret).
    injection Hret as _ <-. eapply loop_body_prints. exact Hbody.
  - change (seq a (S (S len))) with (a :: seq (S a) (S len)) in Hfor.
    cbn [map for_each] in Hfor.
    apply bind_ok in Hfor. destruct Hfor as (acc1 & s1 & Hbody & Hrest).
    destruct (loop_body_prints _ _ _ _ _ _ _ Hbody) as [Hflag Hout].
    destruct (IH (S a) acc1 acc' s1 s' Hrest) as [Hflag' Hout'].
    split; [exact Hflag'|]. rewrite Hout'. unfold printed at 1.
    rewrite Hflag, app_nil_r. exact Hout.
Qed.

Lemma looped_forward_prints (xs : tensor3 A) (ys : tensor2 A)
      (n_loop_start n_loops : Z) (s s' : LSt) (preds : list (prediction A)) :
  looped_forward cls xs ys n_loop_start n_loops s = (Ok preds, s') ->
  ((1 <= n_loops)%Z ->
   cls_print_flag cls (self s') = true /\
   stdout (world s') = printed cls s 0) /\
  ((n_loops <= 0)%Z -> s' = s /\ preds = []).
Proof.
  unfold looped_forward. intros E.
  apply bind_ok in E. destruct E as (o & s1 & Eg & E).
  unfold get_self in Eg. injection Eg as <- <-.
  apply bind_ok in E. destruct E as (zs & s1 & Ez & E).
  unfold lift in Ez. injection Ez as Ez <-.
  apply bind_ok in E. destruct E as (output0 & s1 & Ei & E).
  assert (s1 = s).
  { revert Ei. unfold initial_output, bind, get_self, ret, raise.
    repeat match goal with |- context [if ?c then _ else _] =>
                             destruct c end; congruence. }
  subst s1.
  apply bind_ok in E. destruct E as (acc & s2 & Ef & E).
  injection E as <- <-. split; intros Hn.
  - unfold range in Ef.
    replace (Z.to_nat n_loops) with (S (Z.to_nat n_loops - 1)) in Ef by lia.
    apply (loop_prints _ _ _ _ _ _ _ _ Ef).
  - unfold range in Ef.
    replace (Z.to_nat n_loops) with 0 in Ef by lia.
    cbn in Ef. injection Ef as <- <-. split; reflexivity.
Qed.

End PrintOnce.

Section PrintOnceClaim.
Context {A : Type} `{Scalar A} `{Framework A}.

(** X10.  A call of [forward] of the transformer-looped model that returns
    after at least one iteration leaves [print_flag] set and has printed the
    index 0 once if the flag was not set before, and nothing otherwise; no
    later iteration and no later call prints.  With [n_loops <= 0] the call
    returns the empty list and leaves the object, the generator and the
    output as they were. *)
Theorem forward_prints_first_index_once
        (s s' : TransformerModelLooped.St A)
        (xs : tensor3 A) (ys : tensor2 A) (n_loop_start n_loops : Z)
        (preds : list (prediction A)) :
  TransformerModelLooped.forward xs ys n_loop_start n_loops s
  = (Ok preds, s') ->
  let flag (s : TransformerModelLooped.St A) :=
    TransformerModel.print_flag (TransformerModelLooped.base (self s)) in
  ((1 <= n_loops)%Z ->
   flag s' = true /\
   stdout (world s')
   = stdout (world s) ++ (if flag s then [] else [0%Z])) /\
  ((n_loops <= 0)%Z -> s' = s /\ preds = []).
Proof.
  intros E flag.
  apply (looped_forward_prints TransformerModelLooped.cls) in E.
  - exact E.
  - intros o e s0. cbn [cls_f cls_print_flag TransformerModelLooped.cls].
    destruct (f_shape o e s0) as (o' & e' & k & g' & Ef & _).
    rewrite Ef. cbn. split; reflexivity.
  - intros o. reflexivity.
Qed.

End PrintOnceClaim.

Lemma forward_prints_first_index_once_witness :
  let s := Concrete.state_of
             (Concrete.looped "z=f(x+z)" "regression" true true false)
             [100; 0; 50; 7]%Z in
  let s' := snd (TransformerModelLooped.forward
                   Concrete.xs0 Concrete.ys0 1 3 s) in
  ((1 <= 3)%Z ->
   TransformerModel.print_flag (TransformerModelLooped.base (self s')) = true
   /\ stdout (world s') = [0%Z]) /\
  ((3 <= 0)%Z ->
   s' = s /\
   [Pred2 (mk2 1 2 [[4; 8]]%Z); Pred2 (mk2 1 2 [[4; 12]]%Z)] = []).
Proof.
  intros s s'.
  apply (forward_prints_first_index_once
           s s' Concrete.xs0 Concrete.ys0 1 3
           [Pred2 (mk2 1 2 [[4; 8]]%Z); Pred2 (mk2 1 2 [[4; 12]]%Z)]).
  unfold s'.
  rewrite (surjective_pairing
             (TransformerModelLooped.forward
                Concrete.xs0 Concrete.ys0 1 3 s)) at 1.
  f_equal.
Defined.

(** ** What a call leaves of the object and the generator *)

Lemma for_each_inv {S X Acc : Type} (P : S -> Prop)
      (body : X -> Acc -> M S Acc) :
  (forall x acc s, P s -> P (snd (body x acc s))) ->
  forall l acc s, P s -> P (snd (for_each l body acc s)).
Proof.
  intros Hbody. induction l as [|x l IH]; intros acc s Hs; [exact Hs|].
  cbn [for_each]. unfold bind.
  pose proof (Hbody x acc s Hs) as H1.
  destruct (body x acc s) as [[acc1|e] s1]; cbn [snd] in H1.
  - apply IH. exact H1.
  - exact H1.
Qed.

Section KeepsConfiguration.
Context {A : Type} `{Scalar A} `{Framework A}.

Lemma f_keeps (s0 s : TransformerModelLooped.St A)
      (output embeds : tensor3 A) :
  kept s0 s -> kept s0 (snd (TransformerModelLooped.f output embeds s)).
Proof.
  intros [Hn Hg].
  destruct (f_shape output embeds s) as (o' & e' & k & g' & E & Hm & _).
  rewrite E. cbn [snd]. split; cbn [self world rng].
  - exact Hn.
  - intros Ha. rewrite <- (Hg Ha). apply Hm.
    change (TransformerModelLooped.apply_input_mask (norm (self s)) = false).
    rewrite Hn. exact Ha.
Qed.

Lemma print_once_keeps (s0 s : TransformerModelLooped.St A) (idx : Z) :
  kept s0 s -> kept s0 (snd (print_once TransformerModelLooped.cls idx s)).
Proof.
  intros [Hn Hg].
  unfold print_once, bind, get_self, print, set_self, modify, ret.
  destruct (negb _); cbn [snd]; split; assumption.
Qed.

Lemma loop_body_keeps (s0 s : TransformerModelLooped.St A)
      (embeds : tensor3 A) (n_loop_start idx : Z)
      (acc : tensor3 A * list (prediction A)) :
  kept s0 s ->
  kept s0 (snd (loop_body TransformerModelLooped.cls embeds n_loop_start
                          idx acc s)).
Proof.
  intros Hk. destruct acc as [output pl]. unfold loop_body.
  pose proof (f_keeps s0 s output embeds Hk) as Hf.
  cbn [cls_f cls_get_read_out cls_extract TransformerModelLooped.cls].
  unfold bind, ret, get_self, lift.
  destruct (idx <? n_loop_start)%Z; cbv beta iota;
    destruct (TransformerModelLooped.f output embeds s) as [[out1|e] sf];
    cbn [snd] in Hf |- *; try exact Hf.
  - pose proof (print_once_keeps s0 sf idx Hf) as Hp.
    destruct (print_once _ idx sf) as [[u|e] s3]; exact Hp.
  - destruct (TransformerModel.get_read_out _) as [ro|e]; [|exact Hf].
    destruct (TransformerModel.extract _ _) as [y|e]; [|exact Hf].
    pose proof (print_once_keeps s0 sf idx Hf) as Hp.
    destruct (print_once _ idx sf) as [[u|e] s3]; exact Hp.
Qed.

(** X11.  Whatever a call of [forward] of the transformer-looped model
    does, return or raise, it leaves the object as it was up to
    [print_flag] and [tokens_to_trunc]: the layers, [loop_func], the
    prediction type and the mask settings are never assigned.  With
    [apply_input_mask] off it also leaves the generator as it was, the
    truncation of the state being on or off. *)
Theorem forward_keeps_configuration
        (s : TransformerModelLooped.St A) (xs : tensor3 A) (ys : tensor2 A)
        (n_loop_start n_loops : Z) :
  let s' := snd (TransformerModelLooped.forward xs ys n_loop_start n_loops s)
  in
  norm (self s') = norm (self s) /\
  (TransformerModelLooped.apply_input_mask (self s) = false ->
   rng (world s') = rng (world s)).
Proof.
  assert (H0s : kept s s) by (split; [reflexivity|intros _; reflexivity]).
  unfold TransformerModelLooped.forward, looped_forward.
  unfold bind, get_self, lift.
  destruct (cls_combine _ (self s) xs ys) as [zs|e]; [|exact H0s].
  assert (Ei : snd (initial_output
                      TransformerModelLooped.cls
                      (cls_read_in TransformerModelLooped.cls (self s) zs) s)
               = s).
  { unfold initial_output, bind, get_self, ret, raise.
    repeat match goal with |- context [if ?c then _ else _] =>
                             destruct c end; reflexivity. }
  destruct (initial_output _ _ s) as [[output0|e] s1]; cbn [snd] in Ei;
    subst s1; [|exact H0s].
  pose proof (for_each_inv
                (kept s)
                (loop_body TransformerModelLooped.cls
                           (cls_read_in TransformerModelLooped.cls
                                        (self s) zs) n_loop_start)
                (fun x acc s1 Hk =>
                   loop_body_keeps s s1 _ n_loop_start x acc Hk)
                (range n_loops) (output0, []) s H0s) as Hloop.
  unfold TransformerModelLooped.St, LSt in *.
  destruct (for_each _ _ _ s) as [[acc|e] s2]; exact Hloop.
Qed.

End KeepsConfiguration.

(** ** The loop without masks, unrolled *)

Section Unrolled.
Context {A : Type} `{Scalar A} `{Framework A}.

Lemma combine_step_loop_step (o : TransformerModelLooped.t A)
      (output embeds : tensor3 A) :
  supported (TransformerModelLooped.loop_func o) ->
  combine_step o output embeds = Ok (loop_step o embeds output).
Proof.
  unfold combine_step, loop_step. intros [-> | ->]; reflexivity.
Qed.

Lemma fold_res_unrolled (o : TransformerModelLooped.t A)
      (embeds : tensor3 A) (n_loop_start : Z) (len : nat) :
  supported (TransformerModelLooped.loop_func o) ->
  forall (a : nat) (output : tensor3 A) (pl : list (prediction A)),
    res_bind (fold_res (map Z.of_nat (seq a len))
                       (body_value o embeds n_loop_start) (output, pl))
             (fun acc => Ok (snd acc))
    = res_bind (traverse (read_prediction o)
                         (skipn (Z.to_nat n_loop_start - a)
                                (iterates len (loop_step o embeds) output)))
               (fun ys => Ok (pl ++ ys)).
Proof.
  intros Hsup. induction len as [|len IH]; intros a output pl.
  - cbn. rewrite skipn_nil. cbn. now rewrite app_nil_r.
  - cbn [seq map fold_res iterates]. unfold body_value at 1.
    rewrite (combine_step_loop_step o output embeds Hsup). cbn [res_bind].
    set (out1 := loop_step o embeds output).
    destruct (Z.ltb_spec (Z.of_nat a) n_loop_start) as [Hw|Hw].
    + cbn [res_bind]. rewrite IH.
      replace (Z.to_nat n_loop_start - a)
        with (S (Z.to_nat n_loop_start - S a)) by lia.
      reflexivity.
    + replace (Z.to_nat n_loop_start - a) with 0 by lia.
      cbn [skipn traverse]. unfold read_prediction at 1.
      destruct (TransformerModel.get_read_out _) as [ro|e]; cbn [res_bind];
        [|reflexivity].
      destruct (TransformerModel.extract _ (ro out1)) as [y|e];
        cbn [res_bind]; [|reflexivity].
      rewrite IH.
      replace (Z.to_nat n_loop_start - S a) with 0 by lia. cbn [skipn].
      destruct (traverse _ _) as [ys|e]; cbn [res_bind]; [|reflexivity].
      now rewrite <- app_assoc.
Qed.

(** X12.  With both masks off and a supported loop function, [forward] of
    the transformer-looped model is the unrolled recurrence: from the
    initial state (zeros for addition, ones for multiplication) the state
    after iteration [k] is [k + 1] applications of
    [z -> backbone(z (+ or * ) embeds)] to the unmasked embeddings, and the
    result is the read-out of the states of the iterations from
    [n_loop_start] on, up to the first that raises. *)
Theorem forward_unrolls
        (s : TransformerModelLooped.St A) (xs : tensor3 A) (ys : tensor2 A)
        (n_loop_start n_loops : Z) :
  TransformerModelLooped.apply_input_mask (self s) = false ->
  TransformerModelLooped.truncate_state (self s) = false ->
  supported (TransformerModelLooped.loop_func (self s)) ->
  fst (TransformerModelLooped.forward xs ys n_loop_start n_loops s)
  = res_bind (TransformerModel._combine
                (TransformerModelLooped.base (self s)) xs ys) (fun zs =>
    let embeds :=
      TransformerModel._read_in (TransformerModelLooped.base (self s)) zs in
    let initial :=
      if String.eqb (TransformerModelLooped.loop_func (self s)) "z=f(x+z)"
      then torch_zeros_like embeds else torch_ones_like embeds in
    traverse (read_prediction (self s))
             (skipn (Z.to_nat n_loop_start)
                    (iterates (Z.to_nat n_loops)
                              (loop_step (self s) embeds) initial))).
Proof.
  intros Ha Ht Hsup.
  destruct (forward_masks_off xs ys n_loop_start n_loops s
                              (conj Ha Ht)) as (s' & E & _).
  rewrite E. cbn [fst]. unfold forward_value.
  destruct (TransformerModel._combine _ xs ys) as [zs|e]; cbn [res_bind];
    [|reflexivity].
  assert (Ei : initial_value
                 (self s)
                 (TransformerModel._read_in
                    (TransformerModelLooped.base (self s)) zs)
               = Ok (if String.eqb (TransformerModelLooped.loop_func (self s))
                                   "z=f(x+z)"
                     then torch_zeros_like
                            (TransformerModel._read_in
                               (TransformerModelLooped.base (self s)) zs)
                     else torch_ones_like
                            (TransformerModel._read_in
                               (TransformerModelLooped.base (self s)) zs))).
  { unfold initial_value, str_in. cbn [existsb].
    destruct Hsup as [-> | ->]; reflexivity. }
  rewrite Ei. cbn [res_bind]. unfold range.
  rewrite (fold_res_unrolled (self s) _ n_loop_start _ Hsup 0).
  rewrite Nat.sub_0_r.
  destruct (traverse _ _) as [ys'|e]; reflexivity.
Qed.

End Unrolled.

Lemma forward_keeps_configuration_witness :
  let s := Concrete.state_of
             (Concrete.looped "z=f(x+z)" "ranking" false true false)
             [100; 0; 50; 7]%Z in
  let s' := snd (TransformerModelLooped.forward
                   Concrete.xs0 Concrete.ys0 1 3 s) in
  norm (self s') = norm (self s) /\
  (TransformerModelLooped.apply_input_mask (self s) = false ->
   rng (world s') = rng (world s)).
Proof.
  intros s s'.
  exact (forward_keeps_configuration s Concrete.xs0 Concrete.ys0 1 3).
Defined.

Lemma forward_unrolls_witness :
  let s := Concrete.state_of
             (Concrete.looped "z=f(x+z)" "regression" false false false)
             [] in
  fst (TransformerModelLooped.forward Concrete.xs0 Concrete.ys0 1 3 s)
  = Ok [Pred2 (mk2 1 2 [[56; 128]]%Z); Pred2 (mk2 1 2 [[84; 192]]%Z)].
Proof.
  intros s.
  rewrite (forward_unrolls s Concrete.xs0 Concrete.ys0 1 3
                           eq_refl eq_refl (or_introl eq_refl)).
  vm_compute. reflexivity.
Defined.

(** ** The masking step, element by element *)

Section ZipMapFacts.
Context {T U V W : Type}.

Lemma zip_with_map_r (g : T -> W -> V) (h : U -> W) (l : list T)
      (m : list U) :
  zip_with g l (map h m) = zip_with (fun x y => g x (h y)) l m.
Proof.
  revert m; induction l as [|x l IH]; intros [|y m]; cbn; try reflexivity.
  now rewrite IH.
Qed.

Lemma map_zip_with (f : V -> W) (g : T -> U -> V) (l : list T)
      (m : list U) :
  map f (zip_with g l m) = zip_with (fun x y => f (g x y)) l m.
Proof.
  revert m; induction l as [|x l IH]; intros [|y m]; cbn; try reflexivity.
  now rewrite IH.
Qed.

Lemma zip_with_ext (g1 g2 : T -> U -> V) (l : list T) (m : list U) :
  (forall x y, g1 x y = g2 x y) -> zip_with g1 l m = zip_with g2 l m.
Proof.
  intros Hg. revert m; induction l as [|x l IH]; intros [|y m]; cbn;
    try reflexivity.
  now rewrite Hg, IH.
Qed.

End ZipMapFacts.

Section MaskElementwise.
Context {A : Type} `{Scalar A} `{Framework A}.
Hypothesis laws : ScalarLaws A.

Lemma zip3_map3_r {T U V W : Type} (g : T -> W -> V) (h : U -> W)
      (a : tensor3 T) (r : tensor3 U) :
  zip3 g a (map3 h r) = zip3 (fun x y => g x (h y)) a r.
Proof.
  unfold zip3, map3. cbn [dimB dimN dimD elems3]. f_equal.
  rewrite zip_with_map_r. apply zip_with_ext. intros rows rows'.
  rewrite zip_with_map_r. apply zip_with_ext. intros tok tok'.
  apply zip_with_map_r.
Qed.

Lemma map3_zip3 {T U V W : Type} (f : V -> W) (g : T -> U -> V)
      (a : tensor3 T) (r : tensor3 U) :
  map3 f (zip3 g a r) = zip3 (fun x y => f (g x y)) a r.
Proof.
  unfold zip3, map3. cbn [dimB dimN dimD elems3]. f_equal.
  rewrite map_zip_with. apply zip_with_ext. intros rows rows'.
  rewrite map_zip_with. apply zip_with_ext. intros tok tok'.
  apply map_zip_with.
Qed.

Lemma zip3_ext {T U V : Type} (g1 g2 : T -> U -> V)
      (a : tensor3 T) (r : tensor3 U) :
  (forall x y, g1 x y = g2 x y) -> zip3 g1 a r = zip3 g2 a r.
Proof.
  intros Hg. unfold zip3. f_equal.
  apply zip_with_ext. intros rows rows'.
  apply zip_with_ext. intros tok tok'.
  apply zip_with_ext. exact Hg.
Qed.

(** X13.  With [apply_input_mask] on, the masking step of [f] draws one
    tensor from the generator and decides every element from its own draw
    [d]: for [d >= p] the element stays as it is, except that under
    ["z=f(x*z)"] an element equal to zero becomes one; for [d < p] it
    becomes zero, or one under ["z=f(x*z)"].  The embeddings the next
    iteration receives are the unmasked ones. *)
Theorem input_mask_elementwise
        (s : TransformerModelLooped.St A) (embeds : tensor3 A) :
  TransformerModelLooped.apply_input_mask (self s) = true ->
  let draw := torch_rand_like embeds (rng (world s)) in
  TransformerModelLooped.mask_input embeds s
  = (Ok (zip3 (masked_element (self s)) embeds (fst draw)),
     mkState (self s) (mkWorld (snd draw) (stdout (world s)))).
Proof.
  intros Ha draw. unfold TransformerModelLooped.mask_input.
  unfold bind, get_self. rewrite Ha.
  unfold with_rng, dynamic_mask, bind, call, ret. subst draw.
  destruct (torch_rand_like embeds (rng (world s))) as [r g'].
  cbn [fst snd self world rng stdout].
  unfold tensor_mul_mask. rewrite zip3_map3_r.
  destruct (String.eqb (TransformerModelLooped.loop_func (self s))
                       "z=f(x*z)") eqn:El.
  - rewrite remap_zero_to_one, map3_zip3. do 2 f_equal.
    apply zip3_ext. intros x d. unfold masked_element, of_bool. rewrite El.
    destruct (tensor_ge d (TransformerModelLooped.p (self s))).
    + now rewrite mul_one_r.
    + now rewrite mul_zero_r, eq_zero_zero.
  - do 2 f_equal.
    apply zip3_ext. intros x d. unfold masked_element, of_bool. rewrite El.
    destruct (tensor_ge d (TransformerModelLooped.p (self s))).
    + apply mul_one_r.
    + apply mul_zero_r.
Qed.

End MaskElementwise.

Lemma input_mask_elementwise_witness :
  let s := Concrete.state_of
             (Concrete.looped "z=f(x*z)" "regression" true false false)
             [50; 7; 50; 7]%Z in
  fst (TransformerModelLooped.mask_input
         (mk3 1 2 2 [[[0; 5]; [6; 0]]]%Z) s)
  = Ok (mk3 1 2 2 [[[1; 1]; [6; 1]]]%Z).
Proof.
  intros s.
  rewrite (input_mask_elementwise
             ScalarLaws_Z s (mk3 1 2 2 [[[0; 5]; [6; 0]]]%Z) eq_refl).
  vm_compute. reflexivity.
Defined.

(** ** The truncation with other counts *)

Section TruncationOtherCounts.
Context {A : Type} `{Scalar A} `{Framework A}.
Hypothesis laws : ScalarLaws A.

Lemma truncated_element_stop (k : Z) (output : tensor3 A) (b i j : nat) :
  wf3 output ->
  b < dimB output -> i < dimN output -> j < dimD output ->
  get3 zero
       (tensor_mul output
          (assign_prefix_axis1
             k zero (full3 one (dimB output) (dimN output) (dimD output))))
       b i j
  = if Nat.ltb i (slice_stop (dimN output) k) then zero
    else get3 zero output b i j.
Proof.
  intros [Lo Fo] Hb Hi Hj. unfold get3, tensor_mul, zip3.
  cbn [elems3]. rewrite prefix_mask_rows.
  rewrite Forall_forall in Fo.
  assert (Wb : wf_rows (dimN output) (dimD output)
                       (nth b (elems3 output) []))
    by (apply Fo, nth_In; lia).
  destruct Wb as [Lb Fb]. rewrite Forall_forall in Fb.
  assert (Lt : length (nth i (nth b (elems3 output) []) []) = dimD output)
    by (apply Fb, nth_In; lia).
  set (stop := slice_stop (dimN output) k).
  assert (Hstop : stop <= dimN output).
  { unfold stop, slice_stop. destruct (k <? 0)%Z; lia. }
  rewrite (zip_with_nth _ _ _ _ [] [] [])
    by (rewrite ?repeat_length; lia).
  rewrite nth_repeat_lt by lia.
  rewrite (zip_with_nth _ _ _ _ [] [] [])
    by (rewrite ?length_app, ?repeat_length; lia).
  rewrite nth_repeat_app by lia.
  rewrite (zip_with_nth _ _ _ _ zero zero zero);
    [|lia|destruct (Nat.ltb i stop); rewrite repeat_length; lia].
  destruct (Nat.ltb i stop); rewrite nth_repeat_lt by lia.
  - apply mul_zero_r.
  - apply mul_one_r.
Qed.

(** X14.  With a fixed count [K = tokens_to_trunc] the truncation follows
    the slice [:K] of the host language: a negative [K] zeroes all but the
    last [-K] token positions, and a [K] of at least the number of tokens
    zeroes the whole state. *)
Theorem truncation_other_counts
        (s : TransformerModelLooped.St A) (output : tensor3 A) :
  TransformerModelLooped.truncate_state (self s) = true ->
  TransformerModelLooped.fixed_truncate (self s) = true ->
  wf3 output ->
  let K := TransformerModelLooped.tokens_to_trunc (self s) in
  exists output',
    TransformerModelLooped.mask_state output s = (Ok output', s) /\
    ((K < 0)%Z ->
     forall b i j,
       b < dimB output -> i < dimN output -> j < dimD output ->
       get3 zero output' b i j
       = if (Z.of_nat i <? Z.of_nat (dimN output) + K)%Z then zero
         else get3 zero output b i j) /\
    ((Z.of_nat (dimN output) <= K)%Z ->
     forall b i j,
       b < dimB output -> i < dimN output -> j < dimD output ->
       get3 zero output' b i j = zero).
Proof.
  intros Ht Hfix Wo K.
  exists (tensor_mul output
            (assign_prefix_axis1
               K zero (full3 one (dimB output) (dimN output) (dimD output)))).
  split; [|split].
  - unfold TransformerModelLooped.mask_state, bind, get_self.
    rewrite Ht, Hfix. reflexivity.
  - intros HK b i j Hb Hi Hj.
    rewrite truncated_element_stop by assumption.
    unfold slice_stop.
    destruct (Z.ltb_spec K 0) as [_|Hge]; [|lia].
    destruct (Nat.ltb_spec i (dimN output - Z.to_nat (- K))),
             (Z.ltb_spec (Z.of_nat i) (Z.of_nat (dimN output) + K));
      try reflexivity; lia.
  - intros HK b i j Hb Hi Hj.
    rewrite truncated_element_stop by assumption.
    unfold slice_stop.
    destruct (Z.ltb_spec K 0) as [Hneg|_]; [lia|].
    destruct (Nat.ltb_spec i (Nat.min (Z.to_nat K) (dimN output)));
      [reflexivity|lia].
Qed.

End TruncationOtherCounts.

Lemma truncation_other_counts_witness :
  let o := TransformerModelLooped.set_tokens_to_trunc
             (-1) (Concrete.looped "z=f(x+z)" "regression" false true true) in
  let output := mk3 1 4 2 [[[1; 2]; [3; 4]; [5; 6]; [7; 8]]]%Z in
  fst (TransformerModelLooped.mask_state output (Concrete.state_of o []))
  = Ok (mk3 1 4 2 [[[0; 0]; [0; 0]; [0; 0]; [7; 8]]]%Z) /\
  exists output',
    TransformerModelLooped.mask_state output (Concrete.state_of o [])
    = (Ok output', Concrete.state_of o []) /\
    ((-1 < 0)%Z ->
     forall b i j,
       b < 1 -> i < 4 -> j < 2 ->
       get3 0%Z output' b i j
       = if (Z.of_nat i <? 4 + -1)%Z then 0%Z else get3 0%Z output b i j) /\
    ((4 <= -1)%Z ->
     forall b i j, b < 1 -> i < 4 -> j < 2 -> get3 0%Z output' b i j = 0%Z).
Proof.
  intros o output. split; [vm_compute; reflexivity|].
  apply (truncation_other_counts
           ScalarLaws_Z (Concrete.state_of o []) output).
  - reflexivity.
  - reflexivity.
  - split; [reflexivity|]. repeat constructor.
Defined.
